(** * Barry MCP: tool session, schema translation, conversation loops, worker

    A shallow embedding of the Barry MCP client
    ([barry_client/client.py], [gemini_agent.py], [ollama_agent.py]) and of
    the worker's tool handlers ([barry_server/server.py]), with the
    properties of the design document stated over it.

    Conventions.
    - A Python [str] is a Rocq [string] holding its UTF-8 encoding; the
      marker glyphs of the worker's output are written as their bytes.
      [len], slicing and [strip] work on characters, as Python's do.  [lower]
      and [upper] change the ASCII letters only, and [repr] escapes the ASCII
      control characters only: they are Python's on ASCII text.
    - Python exceptions are values of [exn]; only instances of [Exception]
      are modelled (what [except Exception] catches).  Interpreter
      interrupts such as [KeyboardInterrupt] end the command-line loop and
      are not part of the model.
    - Console output ([print]) is not modelled.
    - Objects of the [mcp], [ollama], [google.genai] and [pandas] libraries
      are external: their operations are fields of a class, acting on an
      abstract [World], or typed records holding what the code reads.  A
      library call returns or raises; a timeout is a raise.  A call that
      never completes has no outcome here: the properties are about runs in
      which every call into a library completes. *)

From Stdlib Require Import String Ascii List ZArith Lia Bool Arith.
From Stdlib Require Import DecimalString.
From Stdlib Require Sorted Permutation OrdersEx.
Import ListNotations.
Open Scope string_scope.

Set Implicit Arguments.

(** ** Strings *)

Definition nl : string := String (ascii_of_nat 10) "".

(** The string of the bytes [l]. *)
Definition bytes (l : list nat) : string :=
  fold_right (fun n s => String (ascii_of_nat n) s) EmptyString l.

(** In UTF-8 a character is a lead byte followed by its continuation bytes,
    which are the bytes from 128 to 191. *)
Definition is_continuation (c : ascii) : bool :=
  let n := nat_of_ascii c in (128 <=? n)%nat && (n <=? 191)%nat.

(** [len(s)]: the number of characters *)
Fixpoint len (s : string) : nat :=
  match s with
  | EmptyString => 0
  | String c s' => if is_continuation c then len s' else S (len s')
  end.

(** [s[:n]]: the first [n] characters *)
Fixpoint slice_to (n : nat) (s : string) : string :=
  match s with
  | EmptyString => EmptyString
  | String c s' =>
      if is_continuation c then String c (slice_to n s')
      else match n with
           | O => EmptyString
           | S n' => String c (slice_to n' s')
           end
  end.

(** [s.isascii()] *)
Fixpoint isascii (s : string) : bool :=
  match s with
  | EmptyString => true
  | String c s' => (nat_of_ascii c <? 128)%nat && isascii s'
  end.

(** [sep.join(parts)] *)
Definition join (sep : string) (parts : list string) : string :=
  String.concat sep parts.

(** [sub in s] *)
Fixpoint contains (sub s : string) : bool :=
  String.prefix sub s
  || match s with
     | EmptyString => false
     | String _ s' => contains sub s'
     end.

Definition lower_ascii (c : ascii) : ascii :=
  let n := nat_of_ascii c in
  if (65 <=? n)%nat && (n <=? 90)%nat then ascii_of_nat (n + 32) else c.

Definition upper_ascii (c : ascii) : ascii :=
  let n := nat_of_ascii c in
  if (97 <=? n)%nat && (n <=? 122)%nat then ascii_of_nat (n - 32) else c.

Fixpoint map_string (f : ascii -> ascii) (s : string) : string :=
  match s with
  | EmptyString => EmptyString
  | String c s' => String (f c) (map_string f s')
  end.

(** [s.lower()], [s.upper()], on the ASCII letters.  Outside ASCII only
    U+0130 and U+212A have a lower case that holds an ASCII letter (i and a
    combining dot, and k). *)
Definition lower : string -> string := map_string lower_ascii.
Definition upper : string -> string := map_string upper_ascii.

(** [str(n)] for a non-negative [int] *)
Definition str_nat (n : nat) : string := NilZero.string_of_uint (Nat.to_uint n).

(** [str(z)] for an [int] *)
Definition str_Z (z : Z) : string := NilZero.string_of_int (Z.to_int z).

(** ** Exceptions and results *)

Record exn : Type := mk_exn {
  exn_class : string;   (* the exception's class name *)
  exn_str : string      (* [str(e)] *)
}.

(** What a call into a library gives: a value or a raised exception. *)
Inductive outcome (A : Type) : Type :=
| Ok (a : A)
| Err (e : exn).
Arguments Ok {A} a.
Arguments Err {A} e.

(** What running a piece of the program gives: a value, a raised exception,
    or, for the unbounded tool loop run with a bound on its rounds, no answer
    within the bound. *)
Inductive result (A : Type) : Type :=
| Return (a : A)
| Raise (e : exn)
| Diverge.
Arguments Return {A} a.
Arguments Raise {A} e.
Arguments Diverge {A}.

Definition of_outcome {A} (o : outcome A) : result A :=
  match o with
  | Ok a => Return a
  | Err e => Raise e
  end.

(** State threaded through a computation; mutations done before a [raise]
    stay, as they do on Python objects. *)
Definition M (S A : Type) : Type := S -> result A * S.

Definition ret {S A} (a : A) : M S A := fun s => (Return a, s).
Definition raise {S A} (e : exn) : M S A := fun s => (Raise e, s).

Definition bind {S A B} (m : M S A) (k : A -> M S B) : M S B :=
  fun s =>
    match m s with
    | (Return a, s') => k a s'
    | (Raise e, s') => (Raise e, s')
    | (Diverge, s') => (Diverge, s')
    end.

(** [try: body  except Exception as e: handler(e)] *)
Definition try_except {S A} (body : M S A) (handler : exn -> M S A) : M S A :=
  fun s =>
    match body s with
    | (Raise e, s') => handler e s'
    | other => other
    end.

Definition get {S} : M S S := fun s => (Return s, s).
Definition put {S} (s : S) : M S unit := fun _ => (Return tt, s).
Definition modify {S} (f : S -> S) : M S unit := fun s => (Return tt, f s).

Declare Scope py_scope.
Delimit Scope py_scope with py.
Notation "x <- m ;; k" := (bind m (fun x => k))
  (at level 61, m at next level, right associativity) : py_scope.
Notation "m ;; k" := (bind m (fun _ => k))
  (at level 61, right associativity) : py_scope.

(** Exceptions in code that touches no state. *)
Definition rbind {A B} (r : result A) (k : A -> result B) : result B :=
  match r with
  | Return a => k a
  | Raise e => Raise e
  | Diverge => Diverge
  end.

Declare Scope res_scope.
Delimit Scope res_scope with res.
Notation "x <- r ;; k" := (rbind r (fun x => k))
  (at level 61, r at next level, right associativity) : res_scope.

(** [repr(s)] for a [str]: the text between single quotes, or between double
    quotes when it holds a single quote and no double quote; the quote in
    use and the backslash are escaped, and so are the control characters. *)
Definition squote : ascii := ascii_of_nat 39.
Definition dquote : ascii := ascii_of_nat 34.
Definition backslash : ascii := ascii_of_nat 92.

Fixpoint has_char (c : ascii) (s : string) : bool :=
  match s with
  | EmptyString => false
  | String c' s' => Ascii.eqb c c' || has_char c s'
  end.

Definition hex_digit (n : nat) : ascii :=
  if (n <? 10)%nat then ascii_of_nat (48 + n) else ascii_of_nat (87 + n).

Definition escape (quote c : ascii) : string :=
  let n := nat_of_ascii c in
  if Ascii.eqb c quote || Ascii.eqb c backslash
  then String backslash (String c EmptyString)
  else if (n =? 9)%nat then "\t"
  else if (n =? 10)%nat then "\n"
  else if (n =? 13)%nat then "\r"
  else if (n <? 32)%nat || (n =? 127)%nat
  then "\x" ++ String (hex_digit (n / 16)) (String (hex_digit (n mod 16)) EmptyString)
  else String c EmptyString.

Fixpoint escape_all (quote : ascii) (s : string) : string :=
  match s with
  | EmptyString => EmptyString
  | String c s' => escape quote c ++ escape_all quote s'
  end.

Definition repr (s : string) : string :=
  let quote :=
    if has_char squote s && negb (has_char dquote s) then dquote else squote in
  String quote (escape_all quote s ++ String quote EmptyString).

(** [d[key]] on a dict that lacks [key]; [str(KeyError(k))] is [repr(k)]. *)
Definition KeyError (key : string) : exn :=
  mk_exn "KeyError" (repr key).

(** ** Tool descriptors (the protocol's [Tool] and its JSON [inputSchema]) *)

Inductive JScalar : Type :=
| JInt (z : Z)
| JStr (s : string).

(** One entry of ["properties"]; an absent key is [None]. *)
Record PropSchema : Type := {
  p_type : option string;
  p_description : option string;
  p_enum : option (list string);
  p_minimum : option Z;
  p_default : option JScalar
}.

(** A dict keeps insertion order; its keys are distinct. *)
Definition dict (V : Type) : Type := list (string * V).

Record InputSchema : Type := {
  s_type : option string;
  s_properties : option (dict PropSchema);
  s_required : option (list string)
}.

Record Tool : Type := {
  name : string;
  description : string;
  inputSchema : InputSchema
}.

(** The required-parameter set of a descriptor. *)
Definition required_of (t : Tool) : list string :=
  match s_required (inputSchema t) with
  | Some l => l
  | None => []
  end.

(** ** client.py: BarryMCPClient *)

Module Client.

(** An item of [CallToolResult.content]: [TextContent] has a [text]
    attribute, the other content classes of the protocol (image, embedded
    resource) have none. *)
Inductive Content : Type :=
| TextItem (text : string)
| NonTextItem.

Record CallToolResult : Type := { content : list Content }.

(** The calls the client makes into the [mcp] library.  [World] is the state
    of the worker process and of the transport; [Args] is the [dict] of
    arguments of a call. *)
Class McpLibrary (World Args : Type) : Type := {
  ClientSession : Type;
  StdioContext : Type;
  stdio_client : World -> StdioContext * World;
  stdio_aenter : StdioContext -> World -> outcome unit * World;
  new_session : StdioContext -> World -> ClientSession * World;
  session_aenter : ClientSession -> World -> outcome unit * World;
  (** [asyncio.wait_for(session.initialize(), timeout=10.0)]; a timeout is
      the raise of [TimeoutError]. *)
  session_initialize : ClientSession -> World -> outcome unit * World;
  session_list_tools : ClientSession -> World -> outcome (list Tool) * World;
  session_call_tool :
    ClientSession -> string -> Args -> World -> outcome CallToolResult * World;
  session_aexit : ClientSession -> World -> outcome unit * World;
  stdio_aexit : StdioContext -> World -> outcome unit * World
}.

(** [item.text for item in result.content if hasattr(item, 'text')] *)
Fixpoint text_parts (items : list Content) : list string :=
  match items with
  | [] => []
  | TextItem t :: rest => t :: text_parts rest
  | NonTextItem :: rest => text_parts rest
  end.

(** Lines 105-110 of [call_tool]: the text extracted from a result. *)
Definition extract_text (r : CallToolResult) : string :=
  match content r with
  | [] => "No result"
  | _ :: _ => join nl (text_parts (content r))
  end.

(** One entry of [get_tools_schema()]. *)
Record ToolSchema : Type := {
  ts_name : string;
  ts_description : string;
  ts_parameters : InputSchema
}.

Section Session.

Context {World Args : Type} {lib : McpLibrary World Args}.

(** The instance attributes that [call_tool], [disconnect] and
    [get_tools_schema] read ([server_path], [server_python] and the two
    streams only configure [connect]).  [stdio_context] is [None] while the
    attribute has not been assigned ([hasattr(self, 'stdio_context')] is
    false). *)
Record BarryMCPClient : Type := {
  session : option ClientSession;
  tools : list Tool;
  stdio_context : option StdioContext
}.

(** [__init__] *)
Definition init : BarryMCPClient :=
  {| session := None; tools := []; stdio_context := None |}.

(** The client object together with the world it talks to. *)
Definition St : Type := (BarryMCPClient * World)%type.

(** An external call, run on the world component.  The call completes: of
    the awaits of [connect] only [initialize] has a timeout, and a call that
    never completes has no outcome in this model. *)
Definition ext {A} (op : World -> outcome A * World) : M St A :=
  fun s => let '(r, w) := op (snd s) in (of_outcome r, (fst s, w)).

Definition ext_total {A} (op : World -> A * World) : M St A :=
  fun s => let '(a, w) := op (snd s) in (Return a, (fst s, w)).

Definition self : M St BarryMCPClient := fun s => (Return (fst s), s).

Definition set_self (f : BarryMCPClient -> BarryMCPClient) : M St unit :=
  fun s => (Return tt, (f (fst s), snd s)).

Definition set_stdio_context (c : StdioContext) (b : BarryMCPClient) :=
  {| session := session b; tools := tools b; stdio_context := Some c |}.
Definition set_session (x : ClientSession) (b : BarryMCPClient) :=
  {| session := Some x; tools := tools b; stdio_context := stdio_context b |}.
Definition set_tools (l : list Tool) (b : BarryMCPClient) :=
  {| session := session b; tools := l; stdio_context := stdio_context b |}.

Local Open Scope py_scope.

(** [connect] *)
Definition connect : M St unit :=
  ctx <- ext_total stdio_client ;;
  set_self (set_stdio_context ctx) ;;
  ext (stdio_aenter ctx) ;;
  sess <- ext_total (new_session ctx) ;;
  set_self (set_session sess) ;;
  ext (session_aenter sess) ;;
  try_except (ext (session_initialize sess)) (fun e => raise e) ;;
  l <- ext (session_list_tools sess) ;;
  set_self (set_tools l).

(** [call_tool] *)
Definition call_tool (tool_name : string) (arguments : Args) : M St string :=
  b <- self ;;
  match session b with
  | None =>
      raise (mk_exn "RuntimeError" "Not connected to server. Call connect() first.")
  | Some sess =>
      r <- ext (session_call_tool sess tool_name arguments) ;;
      ret (extract_text r)
  end.

(** [disconnect] *)
Definition disconnect : M St unit :=
  b <- self ;;
  match session b with
  | Some sess => ext (session_aexit sess)
  | None => ret tt
  end ;;
  match stdio_context b with
  | Some ctx => ext (stdio_aexit ctx)
  | None => ret tt
  end.

(** [get_tools_schema] *)
Definition get_tools_schema (b : BarryMCPClient) : list ToolSchema :=
  map (fun tool =>
         {| ts_name := name tool;
            ts_description := description tool;
            ts_parameters := inputSchema tool |})
      (tools b).

End Session.

End Client.

(** ** ollama_agent.py: OllamaAgent *)

Module Ollama.

(** One element of [ollama_tools]. *)
Record OllamaFunction : Type := {
  of_name : string;
  of_description : string;
  of_parameters : InputSchema
}.

Record OllamaTool : Type := {
  ot_type : string;
  ot_function : OllamaFunction
}.

(** [_convert_tools_to_ollama] *)
Definition _convert_tools_to_ollama (tools_schema : list Client.ToolSchema)
  : list OllamaTool :=
  map (fun tool =>
         {| ot_type := "function";
            ot_function :=
              {| of_name := Client.ts_name tool;
                 of_description := Client.ts_description tool;
                 of_parameters := Client.ts_parameters tool |} |})
      tools_schema.

(** The required-field list of a declaration,
    [parameters.get("required", [])]. *)
Definition ollama_required (t : OllamaTool) : list string :=
  match s_required (of_parameters (ot_function t)) with
  | Some l => l
  | None => []
  end.

Section Agent.

Context {World Args : Type}.

(** [tool_call['function']] *)
Record ToolCall : Type := {
  tc_name : string;
  tc_arguments : Args
}.

(** [response['message']]; a missing or [None] [tool_calls] is the empty
    list, which the loop test treats alike. *)
Record ResponseMessage : Type := {
  rm_content : string;
  rm_tool_calls : list ToolCall
}.

Record ChatResponse : Type := { message : ResponseMessage }.

(** The dicts appended to [self.messages]: the user's, the one taken from a
    response (role assistant), and a tool result. *)
Inductive Message : Type :=
| UserMsg (content : string)
| ModelMsg (m : ResponseMessage)
| ToolMsg (content : string).

(** [self.client.chat(model=..., messages=..., tools=...)] *)
Class OllamaBackend : Type := {
  chat : list Message -> list OllamaTool -> World -> outcome ChatResponse * World
}.

Context {lib : Client.McpLibrary World Args} {backend : OllamaBackend}.

(** The agent: its attributes, the client it is bound to and the world.
    [queries] is a ghost log: the message list of every call of [chat], in
    order; no code reads it. *)
Record OllamaAgent : Type := {
  tools : list OllamaTool;
  messages : list Message;
  sys : Client.St;
  queries : list (list Message)
}.

(** [__init__] *)
Definition init (mcp_client : Client.St) : OllamaAgent :=
  {| tools := _convert_tools_to_ollama (Client.get_tools_schema (fst mcp_client));
     messages := [];
     sys := mcp_client;
     queries := [] |}.

(** [self.messages.append(m)] *)
Definition append (m : Message) : M OllamaAgent unit :=
  modify (fun a =>
    {| tools := tools a; messages := messages a ++ [m];
       sys := sys a; queries := queries a |}).

(** [self.client.chat(model=self.model, messages=self.messages, tools=self.tools)] *)
Definition chat_query : M OllamaAgent ChatResponse :=
  fun a =>
    let '(r, w) := chat (messages a) (tools a) (snd (sys a)) in
    (of_outcome r, {| tools := tools a; messages := messages a;
           sys := (fst (sys a), w);
           queries := queries a ++ [messages a] |}).

(** [await self.mcp_client.call_tool(name, args)] *)
Definition mcp_call_tool (fname : string) (fargs : Args) : M OllamaAgent string :=
  fun a =>
    let '(r, s) := Client.call_tool fname fargs (sys a) in
    (r, {| tools := tools a; messages := messages a;
           sys := s; queries := queries a |}).

Local Open Scope py_scope.

(** Lines 97-124: the body of [for tool_call in ...]. *)
Definition run_tool_call (tool_call : ToolCall) : M OllamaAgent unit :=
  try_except
    (res <- mcp_call_tool (tc_name tool_call) (tc_arguments tool_call) ;;
     append (ToolMsg res))
    (fun e => append (ToolMsg ("Error: " ++ exn_str e))).

(** Lines 96-124: [for tool_call in response['message']['tool_calls']] *)
Fixpoint process_tool_calls (tcs : list ToolCall) : M OllamaAgent unit :=
  match tcs with
  | [] => ret tt
  | tc :: rest => run_tool_call tc ;; process_tool_calls rest
  end.

(** Lines 91-131: the [while] loop, run for at most [fuel] rounds; it gives
    the response that ends it. *)
Fixpoint tool_loop (fuel : nat) (response : ChatResponse)
  : M OllamaAgent ChatResponse :=
  match rm_tool_calls (message response) with
  | [] => ret response
  | tcs =>
      match fuel with
      | O => fun a => (Diverge, a)
      | S fuel' =>
          append (ModelMsg (message response)) ;;
          process_tool_calls tcs ;;
          response' <- chat_query ;;
          tool_loop fuel' response'
      end
  end.

(** [send_message] *)
Definition send_message (fuel : nat) (text : string) : M OllamaAgent string :=
  append (UserMsg text) ;;
  response <- chat_query ;;
  response' <- tool_loop fuel response ;;
  append (ModelMsg (message response')) ;;
  ret (rm_content (message response')).

(** *** The shape of a conversation *)

(** [resolved_from pending ms]: [ms] starts with exactly [pending] tool
    messages, and after them every assistant message that carries [k] tool
    calls is followed by exactly [k] tool messages. *)
Fixpoint resolved_from (pending : nat) (ms : list Message) : bool :=
  match ms with
  | [] => Nat.eqb pending 0
  | m :: rest =>
      match pending with
      | S p =>
          match m with
          | ToolMsg _ => resolved_from p rest
          | _ => false
          end
      | O =>
          match m with
          | ToolMsg _ => false
          | ModelMsg r => resolved_from (length (rm_tool_calls r)) rest
          | UserMsg _ => resolved_from 0 rest
          end
      end
  end.

Definition resolved (ms : list Message) : bool := resolved_from 0 ms.

(** The same with one tool message per assistant message that carries a
    tool-call request, whatever the number of its calls. *)
Fixpoint one_result_from (pending : bool) (ms : list Message) : bool :=
  match ms with
  | [] => negb pending
  | m :: rest =>
      if pending then
        match m with
        | ToolMsg _ => one_result_from false rest
        | _ => false
        end
      else
        match m with
        | ToolMsg _ => false
        | ModelMsg r =>
            one_result_from
              (match rm_tool_calls r with [] => false | _ => true end) rest
        | UserMsg _ => one_result_from false rest
        end
  end.

Definition one_result_each (ms : list Message) : bool := one_result_from false ms.

(** What the calls of one response leave in the conversation, in order: the
    result text of a call, or the rendering of the error it raised. *)
Inductive tool_results
  : list ToolCall -> Client.St -> list string -> Client.St -> Prop :=
| results_nil (s : Client.St) : tool_results [] s [] s
| results_ok (tc : ToolCall) (rest : list ToolCall) (s s1 s2 : Client.St)
    (t : string) (l : list string) :
    Client.call_tool (tc_name tc) (tc_arguments tc) s = (Return t, s1) ->
    tool_results rest s1 l s2 ->
    tool_results (tc :: rest) s (t :: l) s2
| results_error (tc : ToolCall) (rest : list ToolCall) (s s1 s2 : Client.St)
    (e : exn) (l : list string) :
    Client.call_tool (tc_name tc) (tc_arguments tc) s = (Raise e, s1) ->
    tool_results rest s1 l s2 ->
    tool_results (tc :: rest) s (("Error: " ++ exn_str e)%string :: l) s2.

(** The message list, and every message list a query of the model has been
    given, have each assistant message followed by the tool messages of its
    calls. *)
Definition well_formed (a : OllamaAgent) : Prop :=
  resolved (messages a) = true
  /\ Forall (fun q => resolved q = true) (queries a).

(** The exception was raised by some call of [chat]. *)
Definition raised_by_chat (e : exn) : Prop :=
  exists ms tl w, fst (chat ms tl w) = Err e.

(** The states an agent goes through: created on a client, then any number
    of [send_message] calls, the world changing freely between them. *)
Inductive reachable : OllamaAgent -> Prop :=
| reach_init (c : Client.St) : reachable (init c)
| reach_world (a : OllamaAgent) (s : Client.St) :
    reachable a ->
    reachable {| tools := tools a; messages := messages a;
                 sys := s; queries := queries a |}
| reach_send (a : OllamaAgent) (fuel : nat) (text : string) :
    reachable a ->
    reachable (snd (send_message fuel text a)).

End Agent.

End Ollama.

(** ** gemini_agent.py: GeminiAgent *)

Module Gemini.

(** Modelled from the spec: the backend's own type enumeration
    ([google.genai.types.Type], which is not part of the repository), with
    the six parameter types the translator supports. *)
Inductive GType : Type :=
| STRING | NUMBER | INTEGER | BOOLEAN | OBJECT | ARRAY.

(** [types.Type[name]]: the member called [name], else [KeyError]. *)
Definition Type_lookup (name : string) : result GType :=
  if String.eqb name "STRING" then Return STRING
  else if String.eqb name "NUMBER" then Return NUMBER
  else if String.eqb name "INTEGER" then Return INTEGER
  else if String.eqb name "BOOLEAN" then Return BOOLEAN
  else if String.eqb name "OBJECT" then Return OBJECT
  else if String.eqb name "ARRAY" then Return ARRAY
  else Raise (KeyError name).

(** [types.Schema] as built for one parameter.  Each attribute of a
    [types.Schema] is optional and is [None] when it has not been given: an
    [enum] of [None] is a schema without an enum. *)
Record PropertySchema : Type := {
  ps_type : GType;
  ps_description : string;
  ps_enum : option (list string)
}.

(** [types.Schema] as built for the parameters of a function. *)
Record ParametersSchema : Type := {
  par_type : GType;
  par_properties : dict PropertySchema;
  par_required : list string
}.

Record FunctionDeclaration : Type := {
  fd_name : string;
  fd_description : string;
  fd_parameters : ParametersSchema
}.

Local Open Scope res_scope.

(** Lines 51-56: the schema of one property. *)
Definition convert_property (prop_schema : PropSchema) : result PropertySchema :=
  let prop_type :=
    upper (match p_type prop_schema with Some t => t | None => "string" end) in
  ty <- Type_lookup prop_type ;;
  Return
    {| ps_type := ty;
       ps_description :=
         match p_description prop_schema with Some d => d | None => "" end;
       ps_enum :=
         match p_enum prop_schema with
         | Some (v :: vs) => Some (v :: vs)
         | Some [] => None
         | None => None
         end |}.

(** Lines 49-56: [for prop_name, prop_schema in ....items()] *)
Fixpoint convert_properties (props : dict PropSchema)
  : result (dict PropertySchema) :=
  match props with
  | [] => Return []
  | (prop_name, prop_schema) :: rest =>
      p <- convert_property prop_schema ;;
      ps <- convert_properties rest ;;
      Return ((prop_name, p) :: ps)
  end.

(** Lines 48-67: the declaration of one tool. *)
Definition convert_tool (tool : Client.ToolSchema) : result FunctionDeclaration :=
  properties <-
    convert_properties
      (match s_properties (Client.ts_parameters tool) with
       | Some d => d
       | None => []
       end) ;;
  Return
    {| fd_name := Client.ts_name tool;
       fd_description := Client.ts_description tool;
       fd_parameters :=
         {| par_type := OBJECT;
            par_properties := properties;
            par_required :=
              match s_required (Client.ts_parameters tool) with
              | Some l => l
              | None => []
              end |} |}.

(** [_convert_tools_to_gemini] *)
Fixpoint _convert_tools_to_gemini (tools_schema : list Client.ToolSchema)
  : result (list FunctionDeclaration) :=
  match tools_schema with
  | [] => Return []
  | tool :: rest =>
      d <- convert_tool tool ;;
      ds <- _convert_tools_to_gemini rest ;;
      Return (d :: ds)
  end.

Local Close Scope res_scope.

(** How the enum of a descriptor's parameter shows in its declaration: kept
    when it has values, and no enum otherwise, never an empty one. *)
Definition enum_translated (p : PropSchema) (q : PropertySchema) : Prop :=
  (p_enum p = None -> ps_enum q = None)
  /\ (p_enum p = Some [] -> ps_enum q = None)
  /\ (forall v vs, p_enum p = Some (v :: vs) -> ps_enum q = Some (v :: vs))
  /\ ps_enum q <> Some [].

(** The same parameter names, in order, each with its enum translated. *)
Definition properties_translated (ps : dict PropSchema) (qs : dict PropertySchema)
  : Prop :=
  Forall2 (fun kp kq => fst kp = fst kq /\ enum_translated (snd kp) (snd kq)) ps qs.

(** The ["properties"] of a descriptor, [{}] when it has none. *)
Definition properties_of (t : Tool) : dict PropSchema :=
  match s_properties (inputSchema t) with
  | Some d => d
  | None => []
  end.

(** Every parameter of every descriptor appears in the declarations under its
    name, without an enum when the descriptor has none, and never with an
    empty enum. *)
Definition enums_omitted (tl : list Tool) (ds : list FunctionDeclaration) : Prop :=
  Forall2 (fun t d =>
             Forall2 (fun kp kq =>
                        fst kp = fst kq
                        /\ (p_enum (snd kp) = None -> ps_enum (snd kq) = None)
                        /\ ps_enum (snd kq) <> Some [])
                     (properties_of t)
                     (par_properties (fd_parameters d)))
          tl ds.

Section Agent.

Context {World Args : Type}.

(** [part.function_call] *)
Record FunctionCall : Type := {
  fc_name : string;
  fc_args : Args
}.

(** A part of [response.candidates[0].content.parts]; [function_call] is
    [None] when the part has no such attribute or an empty one. *)
Record Part : Type := { function_call : option FunctionCall }.

(** A response of the chat: its parts and its [text]. *)
Record GenResponse : Type := {
  parts : list Part;
  text : string
}.

(** [self.client.chats.create(...)] and [chat.send_message(...)] *)
Class GeminiBackend : Type := {
  Chat : Type;
  chats_create : list FunctionDeclaration -> World -> Chat * World;
  chat_send_message : Chat -> string -> World -> outcome GenResponse * World
}.

Context {lib : Client.McpLibrary World Args} {backend : GeminiBackend}.

(** What went over a chat: a text sent with [send_message], a response. *)
Inductive Turn : Type :=
| Sent (text : string)
| Received (r : GenResponse).

(** The agent, the client it is bound to and the world.  [exchanged] is a
    ghost log of every [send_message] of the agent's chats and of its
    response, in order; no code reads it. *)
Record GeminiAgent : Type := {
  function_declarations : list FunctionDeclaration;
  sys : Client.St;
  exchanged : list Turn
}.

(** [__init__]; a declaration that cannot be built fails the construction. *)
Definition init (mcp_client : Client.St) : result GeminiAgent :=
  rbind (_convert_tools_to_gemini (Client.get_tools_schema (fst mcp_client)))
        (fun ds =>
           Return {| function_declarations := ds;
                     sys := mcp_client;
                     exchanged := [] |}).

Definition create_chat : M GeminiAgent Chat :=
  fun a =>
    let '(c, w) := chats_create (function_declarations a) (snd (sys a)) in
    (Return c, {| function_declarations := function_declarations a;
                  sys := (fst (sys a), w);
                  exchanged := exchanged a |}).

(** [chat.send_message(text)] *)
Definition send (c : Chat) (msg : string) : M GeminiAgent GenResponse :=
  fun a =>
    let '(r, w) := chat_send_message c msg (snd (sys a)) in
    (of_outcome r,
     {| function_declarations := function_declarations a;
        sys := (fst (sys a), w);
        exchanged :=
          exchanged a ++ Sent msg ::
            match r with Ok resp => [Received resp] | Err _ => [] end |}).

(** [await self.mcp_client.call_tool(name, args)] *)
Definition mcp_call_tool (fname : string) (fargs : Args) : M GeminiAgent string :=
  fun a =>
    let '(r, s) := Client.call_tool fname fargs (sys a) in
    (r, {| function_declarations := function_declarations a;
           sys := s; exchanged := exchanged a |}).

Definition data_message (fname res : string) : string :=
  "Here is the data from the " ++ fname ++ " function:" ++ nl ++ nl ++ res
    ++ nl ++ nl ++ "Please format this nicely for the user.".

Definition error_message (fname : string) (e : exn) : string :=
  "Error calling function " ++ fname ++ ": " ++ exn_str e.

Local Open Scope py_scope.

(** Lines 108-126: the [try] statement run for a function call. *)
Definition run_function_call (c : Chat) (fc : FunctionCall)
  : M GeminiAgent GenResponse :=
  try_except
    (res <- mcp_call_tool (fc_name fc) (fc_args fc) ;;
     send c (data_message (fc_name fc) res))
    (fun e => send c (error_message (fc_name fc) e)).

(** Lines 97-129: the [while] loop, run for at most [fuel] rounds. *)
Fixpoint tool_loop (fuel : nat) (c : Chat) (response : GenResponse)
  : M GeminiAgent GenResponse :=
  match parts response with
  | [] => ret response
  | part :: _ =>
      match function_call part with
      | None => ret response
      | Some fc =>
          match fuel with
          | O => fun a => (Diverge, a)
          | S fuel' =>
              response' <- run_function_call c fc ;;
              tool_loop fuel' c response'
          end
      end
  end.

(** [send_message] *)
Definition send_message (fuel : nat) (msg : string) : M GeminiAgent string :=
  c <- create_chat ;;
  response <- send c msg ;;
  response' <- tool_loop fuel c response ;;
  ret (text response').

(** The exception was raised by some [chat.send_message]. *)
Definition raised_by_send (e : exn) : Prop :=
  exists c msg w, fst (chat_send_message c msg w) = Err e.

(** The agent with its client and world replaced. *)
Definition with_sys (s : Client.St) (a : GeminiAgent) : GeminiAgent :=
  {| function_declarations := function_declarations a;
     sys := s;
     exchanged := exchanged a |}.

End Agent.

End Gemini.

(** ** server.py: the worker's tools *)

Module Server.

(** [list_tools] *)
Definition list_tools : list Tool :=
  [ {| name := "query_skus_by_fat";
       description :=
         "Query Material_Code (SKUs) based on fat content with comparison operators (==, <, <=, >, >=)";
       inputSchema :=
         {| s_type := Some "object";
            s_properties := Some
              [ ("n",
                 {| p_type := Some "integer";
                    p_description := Some "Number of results to return";
                    p_enum := None;
                    p_minimum := Some 1%Z;
                    p_default := Some (JInt 10) |});
                ("fat_value",
                 {| p_type := Some "number";
                    p_description := Some "Fat content threshold value (in grams)";
                    p_enum := None;
                    p_minimum := None;
                    p_default := None |});
                ("operator",
                 {| p_type := Some "string";
                    p_description := Some "Comparison operator to use";
                    p_enum := Some ["=="; "<"; "<="; ">"; ">="];
                    p_minimum := None;
                    p_default := Some (JStr ">") |}) ];
            s_required := Some ["fat_value"] |} |};
    {| name := "query_chocolate_products";
       description :=
         "Search for chocolate products by type (Dark/Milk/White) and moulding type (e.g., callets). Validates Material_Code prefix.";
       inputSchema :=
         {| s_type := Some "object";
            s_properties := Some
              [ ("n",
                 {| p_type := Some "integer";
                    p_description := Some "Number of results to return";
                    p_enum := None;
                    p_minimum := Some 1%Z;
                    p_default := Some (JInt 5) |});
                ("chocolate_type",
                 {| p_type := Some "string";
                    p_description := Some "Type of chocolate base";
                    p_enum := Some ["Dark"; "Milk"; "White"];
                    p_minimum := None;
                    p_default := None |});
                ("moulding_type",
                 {| p_type := Some "string";
                    p_description := Some
                      "Moulding type to search for - uses flexible string matching (e.g., 'callets', 'chips', 'blocks', 'drops', 'bars', etc.)";
                    p_enum := None;
                    p_minimum := None;
                    p_default := None |}) ];
            s_required := Some ["chocolate_type"; "moulding_type"] |} |} ].

(** [TextContent(type="text", text=...)] *)
Record TextContent : Type := {
  tc_type : string;
  tc_text : string
}.

Definition text_content (t : string) : TextContent :=
  {| tc_type := "text"; tc_text := t |}.

(** The numbers of the dataset and of the arguments (Python floats and
    ints): their comparisons and their [str]. *)
Class PyNumber : Type := {
  Num : Type;
  num_eq : Num -> Num -> bool;
  num_lt : Num -> Num -> bool;
  num_le : Num -> Num -> bool;
  num_str : Num -> string
}.

(** [re.compile(pattern)], as [Series.str.contains] does before it searches:
    a search function, or the [re.error] of a pattern that is not a regular
    expression. *)
Class Regex : Type := {
  re_compile : string -> outcome (string -> bool)
}.

Section Tools.

Context {num : PyNumber} {re : Regex}.

(** A cell of a text column: a string, or NaN for a missing value. *)
Definition Cell : Type := option string.

(** [str(cell)], also what an f-string puts for it *)
Definition str_cell (c : Cell) : string :=
  match c with
  | Some s => s
  | None => "nan"
  end.

(** A row of the dataset, with the columns the tools read. *)
Record Row : Type := {
  Material_Code : Cell;
  Fat : Num;
  Product_Type : Cell;
  Base_Type : Cell;
  Moulding_Type : Cell;
  Material_Description : Cell;
  Description : Cell
}.

(** The global [df] once loaded: the names of its columns and its rows. *)
Record DataFrame : Type := {
  columns : list string;
  rows : list Row
}.

(** The arguments of a call, at the types the tools' [inputSchema] declares;
    [None] is a key that the dict lacks. *)
Record Arguments : Type := {
  arg_n : option Z;
  arg_fat_value : option Num;
  arg_operator : option string;
  arg_chocolate_type : option string;
  arg_moulding_type : option string
}.

(** [col in df.columns] *)
Definition has_column (df : DataFrame) (col : string) : bool :=
  existsb (String.eqb col) (columns df).

(** [frame.head(n)]: the first [n] rows, or all but the last [-n] when [n]
    is negative *)
Definition head {A} (n : Z) (l : list A) : list A :=
  if (0 <=? n)%Z then firstn (Z.to_nat n) l
  else firstn (length l - Z.to_nat (- n)) l.

(** [row.get(col, "N/A")] *)
Definition row_get (df : DataFrame) (col : string) (field : Cell) : Cell :=
  if has_column df col then field else Some "N/A".

(** Lines 239-245 and 335-341: the line for the full description. *)
Definition description_lines (full_description : Cell) : list string :=
  if negb (match full_description with
           | Some s => String.eqb s "N/A"
           | None => false
           end)
     && negb (String.eqb (str_cell full_description) "nan")
  then
    let desc_str := str_cell full_description in
    let desc_str :=
      if (500 <? len desc_str)%nat
      then slice_to 497 desc_str ++ "..."
      else desc_str in
    ["    ℹ️  " ++ desc_str]
  else [].

(** [operator_map]: the test applied to a value of the Fat column *)
Definition operator_map (fat_value : Num) (operator : string)
  : option (Num -> bool) :=
  if String.eqb operator "==" then Some (fun x => num_eq x fat_value)
  else if String.eqb operator "<" then Some (fun x => num_lt x fat_value)
  else if String.eqb operator "<=" then Some (fun x => num_le x fat_value)
  else if String.eqb operator ">" then Some (fun x => num_lt fat_value x)
  else if String.eqb operator ">=" then Some (fun x => num_le fat_value x)
  else None.

(** [series.notna()] *)
Definition notna (c : Cell) : bool :=
  match c with Some _ => true | None => false end.

(** Lines 230-246: the lines of one SKU. *)
Definition sku_lines (df : DataFrame) (row : Row) : list string :=
  let material_code := Material_Code row in
  let fat := Fat row in
  let material_description :=
    row_get df "Material_Description" (Material_Description row) in
  let full_description := row_get df "Description" (Description row) in
  ([("  • **" ++ str_cell material_code ++ "** (Fat: " ++ num_str fat ++ "g)")%string;
    ("    📝 " ++ str_cell material_description)%string]
  ++ description_lines full_description
  ++ [""])%list.

Definition no_skus_text (operator : string) (fat_value : Num) : string :=
  "🔍 No SKUs found where Fat " ++ operator ++ " " ++ num_str fat_value ++ "g".

Definition skus_header (count : nat) (operator : string) (fat_value : Num)
  : string :=
  "📊 Found " ++ str_nat count ++ " SKU(s) where Fat " ++ operator ++ " "
    ++ num_str fat_value ++ "g:" ++ nl.

Local Open Scope res_scope.

(** [query_skus_by_fat] *)
Definition query_skus_by_fat (df : DataFrame) (arguments : Arguments)
  : result (list TextContent) :=
  let n := match arg_n arguments with Some n => n | None => 10%Z end in
  fat_value <-
    match arg_fat_value arguments with
    | Some v => Return v
    | None => Raise (KeyError "fat_value")
    end ;;
  let operator :=
    match arg_operator arguments with Some o => o | None => ">" end in
  if negb (has_column df "Fat") then
    Return [text_content "❌ Error: 'Fat' column not found in dataset"]
  else
    match operator_map fat_value operator with
    | None => Return [text_content ("❌ Invalid operator: " ++ operator)]
    | Some test =>
        if negb (has_column df "Material_Code") then
          Raise (KeyError "Material_Code")
        else
          let filtered :=
            filter (fun row => test (Fat row) && notna (Material_Code row))
                   (rows df) in
          let results := head n filtered in
          match results with
          | [] => Return [text_content (no_skus_text operator fat_value)]
          | _ :: _ =>
              let lines :=
                skus_header (length results) operator fat_value
                  :: flat_map (sku_lines df) results in
              Return [text_content (join nl lines)]
          end
    end.

(** [prefix_map] *)
Definition prefix_map (chocolate_type : string) : result string :=
  if String.eqb chocolate_type "Dark" then Return "CHD-"
  else if String.eqb chocolate_type "Milk" then Return "CHM-"
  else if String.eqb chocolate_type "White" then Return "CHW-"
  else Raise (KeyError chocolate_type).

(** Step 1, on one row: a chocolate product type. *)
Definition is_chocolate (product_type : Cell) : bool :=
  match product_type with
  | None => false
  | Some s =>
      contains "chocolate" (lower s)
      && (String.eqb (lower s) "chocolate" || contains "< 5% veg fat" (lower s))
  end.

(** Step 2, on one row. *)
Definition base_is (chocolate_type : string) (base_type : Cell) : bool :=
  match base_type with
  | None => false
  | Some s => String.eqb (lower s) (lower chocolate_type)
  end.

(** Step 3, on one row, with the compiled pattern. *)
Definition moulding_matches (search : string -> bool) (moulding : Cell) : bool :=
  match moulding with
  | None => false
  | Some s => search (lower s)
  end.

(** Step 4, on one row: [str.startswith(expected_prefix, na=False)] *)
Definition code_has_prefix (expected_prefix : string) (code : Cell) : bool :=
  match code with
  | None => false
  | Some s => String.prefix expected_prefix s
  end.

(** Lines 321-342 for one row, given the validation mark. *)
Definition product_lines (df : DataFrame) (prefix_valid : string) (row : Row)
  : list string :=
  let material_description :=
    row_get df "Material_Description" (Material_Description row) in
  let base_type := row_get df "Base_Type" (Base_Type row) in
  let moulding := row_get df "Moulding_Type" (Moulding_Type row) in
  let full_description := row_get df "Description" (Description row) in
  ([("  " ++ prefix_valid ++ " **" ++ str_cell (Material_Code row) ++ "**")%string;
    ("    📝 " ++ str_cell material_description)%string;
    ("    Base: " ++ str_cell base_type ++ " | Moulding: " ++ str_cell moulding)%string]
  ++ description_lines full_description
  ++ [""])%list.

(** Lines 321-342: the body of the loop over the results;
    [material_code.startswith] needs a string. *)
Definition format_product (df : DataFrame) (expected_prefix : string) (row : Row)
  : result (list string) :=
  match Material_Code row with
  | None =>
      Raise (mk_exn "AttributeError" "'float' object has no attribute 'startswith'")
  | Some material_code =>
      let prefix_valid :=
        if String.prefix expected_prefix material_code then "✓" else "✗" in
      Return (product_lines df prefix_valid row)
  end.

Fixpoint format_products (df : DataFrame) (expected_prefix : string)
    (results : list Row) : result (list string) :=
  match results with
  | [] => Return []
  | row :: rest =>
      ls <- format_product df expected_prefix row ;;
      more <- format_products df expected_prefix rest ;;
      Return (ls ++ more)%list
  end.

Definition no_products_text (chocolate_type moulding_type : string) : string :=
  "🔍 No " ++ chocolate_type ++ " chocolate products found with moulding type '"
    ++ moulding_type ++ "'".

Definition products_header (count : nat) (chocolate_type moulding_type : string)
  : string :=
  "🍫 Found " ++ str_nat count ++ " " ++ chocolate_type
    ++ " chocolate product(s) with moulding type '" ++ moulding_type ++ "':" ++ nl.

Definition required_cols : list string :=
  ["Product_Type"; "Base_Type"; "Moulding_Type"; "Material_Code"].

(** Lines 286-305: the four filters. *)
Definition chocolate_filter (chocolate_type expected_prefix : string)
    (search : string -> bool) (rs : list Row) : list Row :=
  let filtered := filter (fun row => is_chocolate (Product_Type row)) rs in
  let filtered := filter (fun row => base_is chocolate_type (Base_Type row)) filtered in
  let filtered :=
    filter (fun row => moulding_matches search (Moulding_Type row)) filtered in
  filter (fun row => code_has_prefix expected_prefix (Material_Code row)) filtered.

(** [query_chocolate_products] *)
Definition query_chocolate_products (df : DataFrame) (arguments : Arguments)
  : result (list TextContent) :=
  let n := match arg_n arguments with Some n => n | None => 5%Z end in
  chocolate_type <-
    match arg_chocolate_type arguments with
    | Some v => Return v
    | None => Raise (KeyError "chocolate_type")
    end ;;
  moulding_type <-
    match arg_moulding_type arguments with
    | Some v => Return (lower v)
    | None => Raise (KeyError "moulding_type")
    end ;;
  let missing_cols := filter (fun col => negb (has_column df col)) required_cols in
  match missing_cols with
  | _ :: _ =>
      Return [text_content ("❌ Missing columns: " ++ join ", " missing_cols)]
  | [] =>
      expected_prefix <- prefix_map chocolate_type ;;
      search <- of_outcome (re_compile moulding_type) ;;
      let filtered :=
        chocolate_filter chocolate_type expected_prefix search (rows df) in
      let results := head n filtered in
      match results with
      | [] =>
          Return [text_content (no_products_text chocolate_type moulding_type)]
      | _ :: _ =>
          entries <- format_products df expected_prefix results ;;
          let lines :=
            products_header (length results) chocolate_type moulding_type
              :: entries in
          Return [text_content (join nl lines)]
      end
  end.

(** Lines 172-177: the body of the [try] of [call_tool]. *)
Definition dispatch (df : DataFrame) (name : string) (arguments : Arguments)
  : result (list TextContent) :=
  if String.eqb name "query_skus_by_fat"
  then query_skus_by_fat df arguments
  else if String.eqb name "query_chocolate_products"
  then query_chocolate_products df arguments
  else Return [text_content ("❌ Unknown tool: " ++ name)].

(** [call_tool]; [df] is the global, [None] until [load_data] has run. *)
Definition call_tool (df : option DataFrame) (name : string)
    (arguments : Arguments) : result (list TextContent) :=
  match df with
  | None =>
      Return [text_content "❌ Error: Dataset not loaded. Please restart the server."]
  | Some df =>
      match dispatch df name arguments with
      | Raise e => Return [text_content ("❌ Error: " ++ exn_str e)]
      | other => other
      end
  end.

(** The Material_Code of a row is a string that starts with the prefix. *)
Definition starts_with (expected_prefix : string) (row : Row) : Prop :=
  exists code,
    Material_Code row = Some code
    /\ String.prefix expected_prefix code = true.

(** A handler gives one text or raises. *)
Definition one_text_or_raise (r : result (list TextContent)) : Prop :=
  (exists t, r = Return [text_content t]) \/ (exists e, r = Raise e).

End Tools.

End Server.

(** ** Reading a listing

    The entries of the text a query tool returns, for the statements about
    what is listed.  The text is made of lines; an entry starts at the line
    that carries the mark and the Material_Code in bold. *)

Module Listing.

Section Entries.

Context {num : Server.PyNumber}.

(** The line that opens the entry of [row] in a listing of SKUs: the bullet,
    the Material_Code, the fat value. *)
Definition sku_bullet (row : Server.Row) : string :=
  "  • **" ++ Server.str_cell (Server.Material_Code row) ++ "** (Fat: "
    ++ Server.num_str (Server.Fat row) ++ "g)".

(** The line starts like the first line of an entry of a listing of SKUs. *)
Definition opens_sku_entry (line : string) : bool :=
  String.prefix "  • **" line.

(** The entries among the lines of a listing of SKUs, each given by its
    first line. *)
Definition sku_entries (lines : list string) : list string :=
  filter opens_sku_entry lines.

(** The line that opens the entry of [row] in a listing of chocolate
    products, with the mark of the prefix validation. *)
Definition product_bullet (mark : string) (row : Server.Row) : string :=
  "  " ++ mark ++ " **" ++ Server.str_cell (Server.Material_Code row) ++ "**".

(** The line starts like the first line of an entry of a listing of
    chocolate products, with either mark. *)
Definition opens_product_entry (line : string) : bool :=
  String.prefix "  ✓ **" line || String.prefix "  ✗ **" line.

Definition product_entries (lines : list string) : list string :=
  filter opens_product_entry lines.

End Entries.

End Listing.

(** ** A concrete worker, transport and model backends

    Instances of the library classes on which the definitions can be run: the
    worker serves a six-row dataset through the handlers above, the transport
    fails once the worker is gone, and the model backends answer from a
    script. *)

Module Scenario.

(** Integers as the numbers of the dataset. *)
Definition z_number : Server.PyNumber :=
  {| Server.Num := Z;
     Server.num_eq := Z.eqb;
     Server.num_lt := Z.ltb;
     Server.num_le := Z.leb;
     Server.num_str := str_Z |}.

(** Patterns without metacharacters, searched as they are; an opening
    parenthesis alone is not a regular expression. *)
Definition literal_regex : Server.Regex :=
  {| Server.re_compile := fun pattern =>
       if String.eqb pattern "("
       then Err (mk_exn "error" "missing ), unterminated subpattern at position 0")
       else Ok (contains pattern) |}.

Definition Row : Type := @Server.Row z_number.
Definition DataFrame : Type := @Server.DataFrame z_number.
Definition Arguments : Type := @Server.Arguments z_number.

Definition mk_row (code : option string) (fat : Z) (base moulding : string) : Row :=
  @Server.Build_Row z_number code fat (Some "Chocolate") (Some base)
    (Some moulding) (Some (base ++ " chocolate " ++ moulding)) None.

Definition sample_rows : list Row :=
  [ mk_row (Some "CHD-001") 35 "Dark" "Callets";
    mk_row (Some "CHM-002") 32 "Milk" "Callets";
    mk_row (Some "CHD-003") 40 "Dark" "Callets";
    mk_row (Some "CHW-004") 28 "White" "Chips";
    mk_row (Some "XYZ-005") 20 "Dark" "Callets";
    mk_row None 50 "Dark" "Blocks" ].

Definition sample_df : DataFrame :=
  @Server.Build_DataFrame z_number
    ["Material_Code"; "Fat"; "Product_Type"; "Base_Type"; "Moulding_Type";
     "Material_Description"; "Description"]
    sample_rows.

Definition fat_args (n : option Z) (fat_value : option Z) (operator : option string)
  : Arguments :=
  @Server.Build_Arguments z_number n fat_value operator None None.

Definition chocolate_args (n : option Z) (chocolate_type moulding_type : option string)
  : Arguments :=
  @Server.Build_Arguments z_number n None None chocolate_type moulding_type.

(** The world: the worker (alive or not, with its dataset), the number of
    times the session has been exited, and the scripts of the two backends. *)
Record SimWorld : Type := {
  worker_alive : bool;
  dataset : option DataFrame;
  session_exits : nat;
  ollama_script : list (@Ollama.ChatResponse Arguments);
  gemini_script : list (@Gemini.GenResponse Arguments)
}.

Definition with_session_exits (k : nat) (w : SimWorld) : SimWorld :=
  {| worker_alive := worker_alive w; dataset := dataset w;
     session_exits := k;
     ollama_script := ollama_script w; gemini_script := gemini_script w |}.

Definition with_worker_alive (b : bool) (w : SimWorld) : SimWorld :=
  {| worker_alive := b; dataset := dataset w;
     session_exits := session_exits w;
     ollama_script := ollama_script w; gemini_script := gemini_script w |}.

Definition with_ollama_script (l : list (@Ollama.ChatResponse Arguments))
    (w : SimWorld) : SimWorld :=
  {| worker_alive := worker_alive w; dataset := dataset w;
     session_exits := session_exits w;
     ollama_script := l; gemini_script := gemini_script w |}.

Definition with_gemini_script (l : list (@Gemini.GenResponse Arguments))
    (w : SimWorld) : SimWorld :=
  {| worker_alive := worker_alive w; dataset := dataset w;
     session_exits := session_exits w;
     ollama_script := ollama_script w; gemini_script := l |}.

(** The worker's answer, as the transport delivers it. *)
Definition worker_call (w : SimWorld) (name : string) (arguments : Arguments)
  : outcome Client.CallToolResult :=
  if worker_alive w then
    match @Server.call_tool z_number literal_regex (dataset w) name arguments with
    | Return l =>
        Ok {| Client.content := map (fun t => Client.TextItem (Server.tc_text t)) l |}
    | Raise e => Err e
    | Diverge => Err (mk_exn "TimeoutError" "")
    end
  else Err (mk_exn "McpError" "Connection closed").

(** A session whose second exit raises, a worker that can die. *)
Definition sim_library : Client.McpLibrary SimWorld Arguments :=
  {| Client.ClientSession := unit;
     Client.StdioContext := unit;
     Client.stdio_client := fun w => (tt, w);
     Client.stdio_aenter := fun _ w => (Ok tt, w);
     Client.new_session := fun _ w => (tt, w);
     Client.session_aenter := fun _ w => (Ok tt, w);
     Client.session_initialize := fun _ w =>
       if worker_alive w then (Ok tt, w) else (Err (mk_exn "TimeoutError" ""), w);
     Client.session_list_tools := fun _ w => (Ok Server.list_tools, w);
     Client.session_call_tool := fun _ name arguments w =>
       (worker_call w name arguments, w);
     Client.session_aexit := fun _ w =>
       match session_exits w with
       | O => (Ok tt, with_session_exits 1 w)
       | S _ => (Err (mk_exn "RuntimeError" "This cancel scope is not active"), w)
       end;
     Client.stdio_aexit := fun _ w => (Ok tt, w) |}.

(** A worker that answers every call with one image. *)
Definition image_library : Client.McpLibrary unit unit :=
  {| Client.ClientSession := unit;
     Client.StdioContext := unit;
     Client.stdio_client := fun w => (tt, w);
     Client.stdio_aenter := fun _ w => (Ok tt, w);
     Client.new_session := fun _ w => (tt, w);
     Client.session_aenter := fun _ w => (Ok tt, w);
     Client.session_initialize := fun _ w => (Ok tt, w);
     Client.session_list_tools := fun _ w => (Ok [], w);
     Client.session_call_tool := fun _ _ _ w =>
       (Ok {| Client.content := [Client.NonTextItem] |}, w);
     Client.session_aexit := fun _ w => (Ok tt, w);
     Client.stdio_aexit := fun _ w => (Ok tt, w) |}.

Definition backend_error : exn := mk_exn "ResponseError" "model backend unavailable".

(** The next response of the script, or a backend error once it is used up. *)
Definition scripted_ollama : @Ollama.OllamaBackend SimWorld Arguments :=
  {| Ollama.chat := fun _ _ w =>
       match ollama_script w with
       | [] => (Err backend_error, w)
       | r :: rest => (Ok r, with_ollama_script rest w)
       end |}.

Definition scripted_gemini : @Gemini.GeminiBackend SimWorld Arguments :=
  {| Gemini.Chat := unit;
     Gemini.chats_create := fun _ w => (tt, w);
     Gemini.chat_send_message := fun _ _ w =>
       match gemini_script w with
       | [] => (Err backend_error, w)
       | r :: rest => (Ok r, with_gemini_script rest w)
       end |}.

Definition world0 : SimWorld :=
  {| worker_alive := true; dataset := Some sample_df; session_exits := 0;
     ollama_script := []; gemini_script := [] |}.

(** The client after [connect] in [world0]. *)
Definition connected : @Client.St SimWorld Arguments sim_library :=
  snd (@Client.connect SimWorld Arguments sim_library
         (@Client.init SimWorld Arguments sim_library, world0)).

(** Model responses for the scripts. *)
Definition ollama_says (text : string) : @Ollama.ChatResponse Arguments :=
  {| Ollama.message := {| Ollama.rm_content := text; Ollama.rm_tool_calls := [] |} |}.

Definition ollama_calls (calls : list (string * Arguments))
  : @Ollama.ChatResponse Arguments :=
  {| Ollama.message :=
       {| Ollama.rm_content := "";
          Ollama.rm_tool_calls :=
            map (fun c => {| Ollama.tc_name := fst c; Ollama.tc_arguments := snd c |})
                calls |} |}.

Definition gemini_says (text : string) : @Gemini.GenResponse Arguments :=
  {| Gemini.parts := [ {| Gemini.function_call := None |} ];
     Gemini.text := text |}.

Definition gemini_calls (name : string) (arguments : Arguments)
  : @Gemini.GenResponse Arguments :=
  {| Gemini.parts :=
       [ {| Gemini.function_call :=
              Some {| Gemini.fc_name := name; Gemini.fc_args := arguments |} |} ];
     Gemini.text := "" |}.

(** The world once the worker process is gone. *)
Definition dead_world : SimWorld := with_worker_alive false (snd connected).

(** The client after [connect] on the worker of [image_library]. *)
Definition image_connected : @Client.St unit unit image_library :=
  snd (@Client.connect unit unit image_library
         (@Client.init unit unit image_library, tt)).

Definition skus_call : string * Arguments :=
  ("query_skus_by_fat", fat_args (Some 1%Z) (Some 30%Z) (Some ">")).

Definition chocolate_call : string * Arguments :=
  ("query_chocolate_products", chocolate_args (Some 1%Z) (Some "Dark") (Some "callets")).

(** An Ollama agent on the connected client, the model answering from the
    script. *)
Definition ollama_agent (w : SimWorld)
    (script : list (@Ollama.ChatResponse Arguments))
  : @Ollama.OllamaAgent SimWorld Arguments sim_library :=
  @Ollama.init SimWorld Arguments sim_library
    (fst connected, with_ollama_script script w).

(** The declarations the Gemini agent builds from the worker's tools. *)
Definition gemini_declarations : list Gemini.FunctionDeclaration :=
  match Gemini._convert_tools_to_gemini
          (@Client.get_tools_schema SimWorld Arguments sim_library (fst connected))
  with
  | Return ds => ds
  | _ => []
  end.

Definition gemini_agent (w : SimWorld)
    (script : list (@Gemini.GenResponse Arguments))
  : @Gemini.GeminiAgent SimWorld Arguments sim_library :=
  {| Gemini.function_declarations := gemini_declarations;
     Gemini.sys := (fst connected, with_gemini_script script w);
     Gemini.exchanged := [] |}.

(** A turn in which the model asks for two tools at once, then answers. *)
Definition two_calls_run
  : result string * @Ollama.OllamaAgent SimWorld Arguments sim_library :=
  @Ollama.send_message SimWorld Arguments sim_library scripted_ollama 5
    "one fat SKU and one dark callet, please"
    (ollama_agent (snd connected)
       [ollama_calls [skus_call; chocolate_call]; ollama_says "Here they are."]).

(** A turn in which the tool call fails because the worker is gone. *)
Definition failed_call_run
  : result string * @Ollama.OllamaAgent SimWorld Arguments sim_library :=
  @Ollama.send_message SimWorld Arguments sim_library scripted_ollama 5
    "one fat SKU, please"
    (ollama_agent dead_world
       [ollama_calls [skus_call]; ollama_says "The data is unavailable."]).

Definition gemini_failed_call_run
  : result string * @Gemini.GeminiAgent SimWorld Arguments sim_library :=
  @Gemini.send_message SimWorld Arguments sim_library scripted_gemini 5
    "one fat SKU, please"
    (gemini_agent dead_world
       [gemini_calls (fst skus_call) (snd skus_call);
        gemini_says "The data is unavailable."]).

End Scenario.

(** ** Notions for the further properties of the code *)

Module Notions.

(** The parameter's type name is one the Gemini translator can map. *)
Definition supported_type (p : PropSchema) : bool :=
  match Gemini.Type_lookup
          (upper (match p_type p with Some t => t | None => "string" end))
  with
  | Return _ => true
  | _ => false
  end.

(** Every parameter of every tool has a type name the translator can map. *)
Definition all_types_supported (tools_schema : list Client.ToolSchema) : Prop :=
  Forall (fun tool =>
            Forall (fun kp => supported_type (snd kp) = true)
                   (match s_properties (Client.ts_parameters tool) with
                    | Some d => d
                    | None => []
                    end))
         tools_schema.

(** In the declarations an enum with values is the descriptor's, and an
    empty enum list has become no enum. *)
Definition enums_carried (tl : list Tool) (ds : list Gemini.FunctionDeclaration)
  : Prop :=
  Forall2 (fun t d =>
             Forall2 (fun kp kq =>
                        fst kp = fst kq
                        /\ (forall v vs, p_enum (snd kp) = Some (v :: vs) ->
                                         Gemini.ps_enum (snd kq) = Some (v :: vs))
                        /\ (p_enum (snd kp) = Some [] ->
                            Gemini.ps_enum (snd kq) = None))
                     (Gemini.properties_of t)
                     (Gemini.par_properties (Gemini.fd_parameters d)))
          tl ds.

(** The five comparison operators of [operator_map]. *)
Definition operators : list string := ["=="; "<"; "<="; ">"; ">="].

Section Rows.

Context {num : Server.PyNumber}.

(** The cell is missing or holds ASCII text. *)
Definition ascii_cell (c : Server.Cell) : bool :=
  match c with
  | Some s => isascii s
  | None => true
  end.

(** The columns that [query_chocolate_products] puts to lower case hold ASCII
    text in [row]. *)
Definition ascii_row (row : Server.Row) : bool :=
  ascii_cell (Server.Product_Type row)
  && ascii_cell (Server.Base_Type row)
  && ascii_cell (Server.Moulding_Type row).

End Rows.

Section Conversation.

Context {World Args : Type} {lib : Client.McpLibrary World Args}.

(** [a'] is [a] after some steps of a conversation: the same declarations
    and client attributes, the message list and the query log extended at
    their ends. *)
Definition extends (a a' : @Ollama.OllamaAgent World Args lib) : Prop :=
  Ollama.tools a' = Ollama.tools a
  /\ fst (Ollama.sys a') = fst (Ollama.sys a)
  /\ (exists ms, Ollama.messages a' = (Ollama.messages a ++ ms)%list)
  /\ (exists qs, Ollama.queries a' = (Ollama.queries a ++ qs)%list).

End Conversation.

End Notions.

(** ** Notions for the worker's argument handling *)

Module Declared.

(** The ["default"] that the tool [tool_name] declares for its parameter
    [prop_name], among the descriptors [tools]. *)
Definition default_of (tools : list Tool) (tool_name prop_name : string)
  : option JScalar :=
  match find (fun t => String.eqb (name t) tool_name) tools with
  | None => None
  | Some t =>
      match find (fun kp => String.eqb (fst kp) prop_name)
                 (match s_properties (inputSchema t) with
                  | Some d => d
                  | None => []
                  end)
      with
      | None => None
      | Some kp => p_default (snd kp)
      end
  end.

Section Args.

Context {num : Server.PyNumber}.

(** The arguments with [n] given. *)
Definition with_n (n : Z) (a : Server.Arguments) : Server.Arguments :=
  {| Server.arg_n := Some n;
     Server.arg_fat_value := Server.arg_fat_value a;
     Server.arg_operator := Server.arg_operator a;
     Server.arg_chocolate_type := Server.arg_chocolate_type a;
     Server.arg_moulding_type := Server.arg_moulding_type a |}.

(** The arguments with [operator] given. *)
Definition with_operator (operator : string) (a : Server.Arguments)
  : Server.Arguments :=
  {| Server.arg_n := Server.arg_n a;
     Server.arg_fat_value := Server.arg_fat_value a;
     Server.arg_operator := Some operator;
     Server.arg_chocolate_type := Server.arg_chocolate_type a;
     Server.arg_moulding_type := Server.arg_moulding_type a |}.

End Args.

End Declared.

(** ** server.py: load_data, the deduplication of the dataset *)

Module Loader.

Section Load.

Context {num : Server.PyNumber}.

(** A row of the CSV file as read: its Legislation cell and the columns the
    tools read. *)
Record RawRow : Type := {
  Legislation : Server.Cell;
  data : Server.Row
}.

Definition code (r : RawRow) : Server.Cell := Server.Material_Code (data r).

(** Lines 89-91: [0 if pd.isna(x) or x == '' else (1 if 'EU' in str(x) else 2)] *)
Definition legislation_priority (x : Server.Cell) : nat :=
  match x with
  | None => 0
  | Some s =>
      if String.eqb s "" then 0
      else if contains "EU" s then 1 else 2
  end.

Definition priority (r : RawRow) : nat := legislation_priority (Legislation r).

(** The order of the Material_Code column in [sort_values]: strings in their
    order, missing values last. *)
Definition code_compare (c1 c2 : Server.Cell) : comparison :=
  match c1, c2 with
  | Some s1, Some s2 => String.compare s1 s2
  | Some _, None => Lt
  | None, Some _ => Gt
  | None, None => Eq
  end.

(** The order of [sort_values(['Material_Code', '_legislation_priority'])]. *)
Definition key_leb (r1 r2 : RawRow) : bool :=
  match code_compare (code r1) (code r2) with
  | Lt => true
  | Eq => (priority r1 <=? priority r2)%nat
  | Gt => false
  end.

Fixpoint insert (r : RawRow) (l : list RawRow) : list RawRow :=
  match l with
  | [] => [r]
  | x :: rest => if key_leb r x then r :: l else x :: insert r rest
  end.

(** Line 92: the rows in the order of their keys, rows of equal key in the
    order they had (the sort on several columns is stable). *)
Definition sort_values (l : list RawRow) : list RawRow := fold_right insert [] l.

(** Two cells of the subset column are the same value; missing values count
    as one value. *)
Definition code_eqb (c1 c2 : Server.Cell) : bool :=
  match c1, c2 with
  | Some s1, Some s2 => String.eqb s1 s2
  | None, None => true
  | _, _ => false
  end.

(** Line 95: [drop_duplicates(subset=['Material_Code'], keep='first')], with
    the codes seen so far. *)
Fixpoint drop_duplicates (seen : list Server.Cell) (l : list RawRow)
  : list RawRow :=
  match l with
  | [] => []
  | r :: rest =>
      if existsb (code_eqb (code r)) seen
      then drop_duplicates seen rest
      else r :: drop_duplicates (code r :: seen) rest
  end.

(** Lines 89-95: the rows that [load_data] keeps. *)
Definition kept (raw : list RawRow) : list RawRow :=
  drop_duplicates [] (sort_values raw).

(** Lines 89-96: the rows of the global [df] after [load_data]. *)
Definition deduplicate (raw : list RawRow) : list Server.Row :=
  map data (kept raw).

(** The order of the sort, as a relation. *)
Definition key_le (r1 r2 : RawRow) : Prop := key_leb r1 r2 = true.

(** The codes are in ascending order, missing last. *)
Definition code_le (r1 r2 : Server.Row) : Prop :=
  code_compare (Server.Material_Code r1) (Server.Material_Code r2) <> Gt.

End Load.

End Loader.

(** ** ollama_agent.py and gemini_agent.py: main, from the creation of the
    client on *)

Module Cli.

(** What [input("You: ")] gives: a line, an interrupt from the keyboard, or
    an exception (the end of the input is [EOFError]). *)
Inductive Input : Type :=
| Line (s : string)
| KeyboardInterrupt
| InputError (e : exn).

(** The characters for which [str.isspace] holds, in UTF-8: U+0009 to
    U+000D, U+001C to U+0020, U+0085, U+00A0, U+1680, U+2000 to U+200A,
    U+2028, U+2029, U+202F, U+205F and U+3000. *)
Definition whitespace : list string :=
  map bytes
    ([[9]; [10]; [11]; [12]; [13]; [28]; [29]; [30]; [31]; [32];
      [194; 133]; [194; 160]; [225; 154; 128]]
     ++ map (fun k => [226; 128; 128 + k]) (seq 0 11)
     ++ [[226; 128; 168]; [226; 128; 169]; [226; 128; 175]; [226; 129; 159];
         [227; 128; 128]])%list.

(** What follows the white-space character at the front of [s], if [s]
    starts with one. *)
Definition after_space (s : string) : option string :=
  match find (fun sp => String.prefix sp s) whitespace with
  | Some sp =>
      Some (substring (String.length sp) (String.length s - String.length sp) s)
  | None => None
  end.

Fixpoint lstrip_upto (k : nat) (s : string) : string :=
  match k with
  | O => s
  | S k' =>
      match after_space s with
      | Some rest => lstrip_upto k' rest
      | None => s
      end
  end.

(** [s.lstrip()]: a string has no more white-space characters than bytes. *)
Definition lstrip (s : string) : string := lstrip_upto (String.length s) s.

(** [s.rstrip()]: what is kept of [s] ends where the last character that is
    no white space ends. *)
Fixpoint rstrip (s : string) : string :=
  match s with
  | EmptyString => EmptyString
  | String c s' =>
      let kept := String c (rstrip s') in
      if existsb (String.eqb kept) whitespace then EmptyString else kept
  end.

(** [s.strip()] *)
Definition strip (s : string) : string := rstrip (lstrip s).

(** [user_input.lower() in ['quit', 'exit', 'q']]; no character outside ASCII
    has a lower case that is a letter of these words alone, so the test is
    the one on the ASCII letters. *)
Definition is_quit (user_input : string) : bool :=
  existsb (String.eqb (lower user_input)) ["quit"; "exit"; "q"].

(** [try: body finally: final]: [final] runs when [body] returns and when it
    raises; what [final] raises replaces the outcome of [body]. *)
Definition try_finally {S A} (body : M S A) (final : M S unit) : M S A :=
  fun s =>
    match body s with
    | (Diverge, s1) => (Diverge, s1)
    | (r, s1) =>
        match final s1 with
        | (Return _, s2) => (r, s2)
        | (Raise e, s2) => (Raise e, s2)
        | (Diverge, s2) => (Diverge, s2)
        end
    end.

Section Loop.

Context {A : Type}.

(** The agent's [send_message], run with a bound on its tool rounds. *)
Variable send_message : string -> M A string.

Local Open Scope py_scope.

(** The [while True] loop of [main] on the inputs to come; it gives the
    inputs it has not read.  It waits when there is no input left. *)
Fixpoint conversation_loop (inputs : list Input) : M A (list Input) :=
  match inputs with
  | [] => fun a => (Diverge, a)
  | KeyboardInterrupt :: rest => ret rest
  | InputError e :: rest => conversation_loop rest
  | Line s :: rest =>
      let user_input := strip s in
      if is_quit user_input then ret rest
      else if String.eqb user_input "" then conversation_loop rest
      else
        try_except (send_message user_input ;; ret tt) (fun e => ret tt) ;;
        conversation_loop rest
  end.

(** The texts the loop hands to [send_message]: the stripped lines that are
    not empty, up to the first quit word or interrupt. *)
Fixpoint sent_texts (inputs : list Input) : list string :=
  match inputs with
  | [] => []
  | KeyboardInterrupt :: _ => []
  | InputError _ :: rest => sent_texts rest
  | Line s :: rest =>
      let user_input := strip s in
      if is_quit user_input then []
      else if String.eqb user_input "" then sent_texts rest
      else user_input :: sent_texts rest
  end.

End Loop.

Section Sessions.

Context {World Args : Type} {lib : Client.McpLibrary World Args}
        {ollama : @Ollama.OllamaBackend World Args}
        {gemini : @Gemini.GeminiBackend World Args}.

(** Lines 187-222 of ollama_agent.py: the body of the [try] of [main]. It
    gives the agent as the loop left it. *)
Definition ollama_body (fuel : nat) (inputs : list Input)
  : M Client.St (@Ollama.OllamaAgent World Args lib) :=
  fun s =>
    match Client.connect s with
    | (Return _, s1) =>
        let '(r, a) :=
          conversation_loop (Ollama.send_message fuel) inputs (Ollama.init s1) in
        (match r with
         | Return _ => Return a
         | Raise e => Raise e
         | Diverge => Diverge
         end, Ollama.sys a)
    | (Raise e, s1) => (Raise e, s1)
    | (Diverge, s1) => (Diverge, s1)
    end.

(** Lines 185-227 of ollama_agent.py: [main] from the creation of the client
    on. *)
Definition ollama_session (fuel : nat) (inputs : list Input)
  : M Client.St (@Ollama.OllamaAgent World Args lib) :=
  try_finally (ollama_body fuel inputs) Client.disconnect.

(** Lines 159-194 of gemini_agent.py: the body of the [try] of [main]. *)
Definition gemini_body (fuel : nat) (inputs : list Input)
  : M Client.St (@Gemini.GeminiAgent World Args lib) :=
  fun s =>
    match Client.connect s with
    | (Return _, s1) =>
        match Gemini.init s1 with
        | Return g =>
            let '(r, a) :=
              conversation_loop (Gemini.send_message fuel) inputs g in
            (match r with
             | Return _ => Return a
             | Raise e => Raise e
             | Diverge => Diverge
             end, Gemini.sys a)
        | Raise e => (Raise e, s1)
        | Diverge => (Diverge, s1)
        end
    | (Raise e, s1) => (Raise e, s1)
    | (Diverge, s1) => (Diverge, s1)
    end.

(** Lines 157-199 of gemini_agent.py: [main] from the creation of the client
    on. *)
Definition gemini_session (fuel : nat) (inputs : list Input)
  : M Client.St (@Gemini.GeminiAgent World Args lib) :=
  try_finally (gemini_body fuel inputs) Client.disconnect.

(** The texts of the user messages of a conversation, in order. *)
Fixpoint user_texts (ms : list (@Ollama.Message Args)) : list string :=
  match ms with
  | [] => []
  | Ollama.UserMsg t :: rest => t :: user_texts rest
  | _ :: rest => user_texts rest
  end.

(** The texts sent over the Gemini chats, in order. *)
Fixpoint sent_over_chat (ts : list (@Gemini.Turn Args)) : list string :=
  match ts with
  | [] => []
  | Gemini.Sent t :: rest => t :: sent_over_chat rest
  | _ :: rest => sent_over_chat rest
  end.

End Sessions.

End Cli.

(** ** More runs on the concrete worker *)

Module Trials.

Import Scenario.

(** A worker that cannot be started: entering the transport context raises. *)
Definition unstartable_library : Client.McpLibrary unit unit :=
  {| Client.ClientSession := unit;
     Client.StdioContext := unit;
     Client.stdio_client := fun w => (tt, w);
     Client.stdio_aenter := fun _ w =>
       (Err (mk_exn "FileNotFoundError" "No such file or directory: 'python'"), w);
     Client.new_session := fun _ w => (tt, w);
     Client.session_aenter := fun _ w => (Ok tt, w);
     Client.session_initialize := fun _ w => (Ok tt, w);
     Client.session_list_tools := fun _ w => (Ok [], w);
     Client.session_call_tool := fun _ _ _ w =>
       (Ok {| Client.content := [] |}, w);
     Client.session_aexit := fun _ w => (Ok tt, w);
     Client.stdio_aexit := fun _ w => (Ok tt, w) |}.

(** The world in which the worker does not answer the handshake. *)
Definition silent_world : SimWorld := with_worker_alive false world0.

(** The two responses of the turn [two_calls_run]. *)
Definition asks_two : @Ollama.ChatResponse Arguments :=
  ollama_calls [skus_call; chocolate_call].

Definition answers : @Ollama.ChatResponse Arguments :=
  ollama_says "Here they are.".

Definition two_calls_agent : @Ollama.OllamaAgent SimWorld Arguments sim_library :=
  ollama_agent (snd connected) [asks_two; answers].

(** The texts the worker gives for the two calls. *)
Definition two_calls_texts : list string :=
  [Client.extract_text
     (match worker_call (snd connected) (fst skus_call) (snd skus_call) with
      | Ok r => r
      | Err _ => {| Client.content := [] |}
      end);
   Client.extract_text
     (match worker_call (snd connected) (fst chocolate_call) (snd chocolate_call) with
      | Ok r => r
      | Err _ => {| Client.content := [] |}
      end)].

(** A Gemini response that starts with text and carries a function call in
    its second part. *)
Definition text_then_call : @Gemini.GenResponse Arguments :=
  {| Gemini.parts :=
       [ {| Gemini.function_call := None |};
         {| Gemini.function_call :=
              Some {| Gemini.fc_name := fst skus_call;
                      Gemini.fc_args := snd skus_call |} |} ];
     Gemini.text := "Let me look that up." |}.

Definition skus_function_call : @Gemini.FunctionCall Arguments :=
  {| Gemini.fc_name := fst skus_call; Gemini.fc_args := snd skus_call |}.

(** The text the worker gives for [skus_call]. *)
Definition skus_text : string :=
  Client.extract_text
    (match worker_call (snd connected) (fst skus_call) (snd skus_call) with
     | Ok r => r
     | Err _ => {| Client.content := [] |}
     end).

(** Rows of a CSV file: two legislations for one code, a code without
    legislation, a row without code. *)
Definition raw_row (code : option string) (legislation : option string) (fat : Z)
  : @Loader.RawRow z_number :=
  @Loader.Build_RawRow z_number legislation (mk_row code fat "Dark" "Callets").

Definition raw_rows : list (@Loader.RawRow z_number) :=
  [ raw_row (Some "CHD-002") (Some "US") 31;
    raw_row (Some "CHD-001") (Some "RU") 35;
    raw_row (Some "CHD-001") (Some "EU") 36;
    raw_row None (Some "EU") 50;
    raw_row (Some "CHD-002") None 32;
    raw_row (Some "CHD-002") (Some "EU") 33 ].

(** What is typed at the prompt in a short session: the second line is a
    space, U+00A0 and U+3000; the fourth has U+00A0 before its text and
    U+2003 after it. *)
Definition typed : list Cli.Input :=
  [ Cli.Line "  hello  ";
    Cli.Line (bytes [32; 194; 160; 227; 128; 128]);
    Cli.InputError (mk_exn "UnicodeDecodeError" "invalid start byte");
    Cli.Line (bytes [194; 160] ++ "more fat please" ++ bytes [226; 128; 131]);
    Cli.Line " Quit ";
    Cli.Line "never read" ].

(** The session on [typed]: the model answers the first turn, the backend
    fails on the second. *)
Definition typed_session :=
  @Cli.ollama_session SimWorld Arguments sim_library scripted_ollama 3 typed
    (@Client.init SimWorld Arguments sim_library,
     with_ollama_script [ollama_says "Hello."] world0).

(** The agent [typed_session] ends with. *)
Definition typed_agent : @Ollama.OllamaAgent SimWorld Arguments sim_library :=
  match fst typed_session with
  | Return a => a
  | _ => ollama_agent world0 []
  end.

End Trials.

(** * Properties *)

(** ** The monad *)

Lemma bind_Return {S A B} (m : M S A) (k : A -> M S B) s a s' :
  m s = (Return a, s') -> bind m k s = k a s'.
Proof. intros H. unfold bind. rewrite H. reflexivity. Qed.

Lemma bind_Raise {S A B} (m : M S A) (k : A -> M S B) s e s' :
  m s = (Raise e, s') -> bind m k s = (Raise e, s').
Proof. intros H. unfold bind. rewrite H. reflexivity. Qed.

Lemma bind_Diverge {S A B} (m : M S A) (k : A -> M S B) s s' :
  m s = (Diverge, s') -> bind m k s = (Diverge, s').
Proof. intros H. unfold bind. rewrite H. reflexivity. Qed.

Lemma join_single sep s : join sep [s] = s.
Proof. reflexivity. Qed.

Lemma prefix_contains sub s : String.prefix sub s = true -> contains sub s = true.
Proof. intros H. destruct s; cbn [contains]; rewrite H; reflexivity. Qed.

(** ** Strings *)

(** [repr] on keys with quotes, a backslash and control characters. *)
Lemma repr_samples :
  repr "dark" = "'dark'"
  /\ repr "it's" = String dquote ("it's" ++ String dquote "")
  /\ repr ("say " ++ String dquote "hi") = "'say " ++ String dquote "hi'"
  /\ repr ("it's " ++ String dquote "x") = "'it\'s " ++ String dquote "x'"
  /\ repr "a\b" = "'a\\b'"
  /\ repr (bytes [97; 10; 98; 9; 13; 0; 31; 127]) = "'a\nb\t\r\x00\x1f\x7f'".
Proof. repeat split; reflexivity. Qed.

(** [len] and slicing count characters: "é" is two bytes, the information
    sign with its variation selector is two characters of three bytes. *)
Lemma len_samples :
  len "é" = 1
  /\ String.length "é" = 2
  /\ len "ℹ️" = 2
  /\ slice_to 1 "éa" = "é"
  /\ slice_to 2 "aéb" = "aé".
Proof. repeat split; reflexivity. Qed.

(** ** The tool session *)

Section ClientFacts.

Context {World Args : Type} {lib : Client.McpLibrary World Args}.

(** [call_tool] on a client whose session is set: the transport's result,
    turned to text, or the transport's exception. *)
Lemma call_tool_connected (c : Client.BarryMCPClient) sess w tool_name arguments :
  Client.session c = Some sess ->
  Client.call_tool tool_name arguments (c, w) =
  match Client.session_call_tool sess tool_name arguments w with
  | (Ok r, w') => (Return (Client.extract_text r), (c, w'))
  | (Err e, w') => (Raise e, (c, w'))
  end.
Proof.
  intros Hs. unfold Client.call_tool, bind, Client.self. simpl. rewrite Hs.
  unfold Client.ext, ret. simpl.
  destruct (Client.session_call_tool sess tool_name arguments w) as [[r|e] w'];
    reflexivity.
Qed.

Lemma call_tool_not_connected (c : Client.BarryMCPClient) w tool_name arguments :
  Client.session c = None ->
  Client.call_tool tool_name arguments (c, w) =
  (Raise (mk_exn "RuntimeError" "Not connected to server. Call connect() first."),
   (c, w)).
Proof.
  intros Hs. unfold Client.call_tool, bind, Client.self. simpl. rewrite Hs.
  reflexivity.
Qed.

(** [call_tool] returns or raises, and leaves the client object as it is. *)
Lemma call_tool_total tool_name arguments (s : Client.St) :
  exists w',
    (exists t, Client.call_tool tool_name arguments s = (Return t, (fst s, w')))
    \/ (exists e, Client.call_tool tool_name arguments s = (Raise e, (fst s, w'))).
Proof.
  destruct s as [c w]. destruct (Client.session c) as [sess|] eqn:Hs.
  - rewrite (call_tool_connected _ _ _ _ Hs).
    destruct (Client.session_call_tool sess tool_name arguments w) as [[r|e] w'];
      exists w'; [left|right]; eexists; reflexivity.
  - rewrite (call_tool_not_connected _ _ _ _ Hs). exists w. right.
    eexists; reflexivity.
Qed.

(** [disconnect] leaves every attribute of the client as it was. *)
Lemma disconnect_keeps_client (s : Client.St) :
  fst (snd (Client.disconnect s)) = fst s.
Proof.
  destruct s as [c w]. unfold Client.disconnect, bind, Client.self, Client.ext, ret.
  cbv beta iota delta [fst snd].
  destruct (Client.session c) as [sess|].
  - destruct (Client.session_aexit sess w) as [[[]|e] w1]; cbn; try reflexivity.
    destruct (Client.stdio_context c) as [ctx|]; cbn; try reflexivity.
    destruct (Client.stdio_aexit ctx w1) as [[[]|e] w2]; reflexivity.
  - destruct (Client.stdio_context c) as [ctx|]; cbn; try reflexivity.
    destruct (Client.stdio_aexit ctx w) as [[[]|e] w2]; reflexivity.
Qed.

(** C2, as the code has it.  On a session that was never connected
    [disconnect] raises nothing and changes nothing.  It never changes the
    attributes of the client, so after a [connect] it finds the session and
    the transport context still set and exits both again, also when a
    previous [disconnect] has completed: it then raises what the session's
    or the transport's exit raises. *)
Theorem disconnect_effects (w : World) (tl : list Tool)
    (sess : Client.ClientSession) (ctx : Client.StdioContext) :
  Client.disconnect (Client.init, w) = (Return tt, (Client.init, w))
  /\ (forall s : Client.St, fst (snd (Client.disconnect s)) = fst s)
  /\ (let c := {| Client.session := Some sess; Client.tools := tl;
                  Client.stdio_context := Some ctx |} in
      Client.disconnect (c, w) =
      match Client.session_aexit sess w with
      | (Ok _, w1) =>
          let '(r, w2) := Client.stdio_aexit ctx w1 in (of_outcome r, (c, w2))
      | (Err e, w1) => (Raise e, (c, w1))
      end).
Proof.
  split; [reflexivity|]. split; [apply disconnect_keeps_client|].
  unfold Client.disconnect, bind, Client.self, Client.ext, ret.
  cbv beta iota zeta delta [fst snd Client.session Client.stdio_context].
  destruct (Client.session_aexit sess w) as [[[]|e] w1]; cbn; reflexivity.
Qed.


End ClientFacts.

(** ** The worker's tools *)

Section ServerFacts.

Context {num : Server.PyNumber} {re : Server.Regex}.

Lemma head_nonneg {A} (n : Z) (l : list A) :
  (0 <= n)%Z -> Server.head n l = firstn (Z.to_nat n) l.
Proof.
  intros Hn. unfold Server.head.
  destruct (Z.leb_spec 0 n); [reflexivity | lia].
Qed.

Lemma In_firstn {A} (k : nat) (l : list A) x : In x (firstn k l) -> In x l.
Proof.
  revert l. induction k as [|k IH]; intros [|y l]; simpl; try tauto.
  intros [->|H]; [left; reflexivity | right; apply IH; exact H].
Qed.

Lemma head_incl {A} (n : Z) (l : list A) x : In x (Server.head n l) -> In x l.
Proof.
  unfold Server.head. destruct (0 <=? n)%Z; apply In_firstn.
Qed.

(** Whatever passes the four filters has a code with the expected prefix. *)
Lemma chocolate_filter_prefix chocolate_type expected_prefix search rs row :
  In row (Server.chocolate_filter chocolate_type expected_prefix search rs) ->
  Server.code_has_prefix expected_prefix (Server.Material_Code row) = true.
Proof.
  unfold Server.chocolate_filter. intros H.
  apply filter_In in H. apply H.
Qed.

Lemma code_has_prefix_starts_with expected_prefix row :
  Server.code_has_prefix expected_prefix (Server.Material_Code row) = true ->
  Server.starts_with expected_prefix row.
Proof.
  unfold Server.code_has_prefix, Server.starts_with.
  destruct (Server.Material_Code row) as [code|]; [|discriminate].
  intros H. exists code. split; [reflexivity | exact H].
Qed.

(** On rows whose code has the prefix, every entry gets the success mark and
    the loop raises nothing. *)
Lemma format_products_valid df expected_prefix results :
  Forall (Server.starts_with expected_prefix) results ->
  Server.format_products df expected_prefix results =
  Return (flat_map (Server.product_lines df "✓") results).
Proof.
  induction 1 as [|row rest [code [Hc Hp]] _ IH]; [reflexivity|].
  cbn [Server.format_products flat_map]. unfold Server.format_product.
  rewrite Hc, Hp. cbn [rbind]. rewrite IH. reflexivity.
Qed.

Lemma format_products_returns_or_raises df expected_prefix results :
  (exists ls, Server.format_products df expected_prefix results = Return ls)
  \/ (exists e, Server.format_products df expected_prefix results = Raise e).
Proof.
  induction results as [|row rest IH]; [left; eexists; reflexivity|].
  cbn [Server.format_products]. unfold Server.format_product.
  destruct (Server.Material_Code row); cbn [rbind];
    [|right; eexists; reflexivity].
  destruct IH as [[ls ->]|[e ->]]; cbn [rbind];
    [left|right]; eexists; reflexivity.
Qed.

Local Ltac one_text := left; eexists; reflexivity.
Local Ltac raises := right; eexists; reflexivity.

Lemma query_skus_by_fat_shape df arguments :
  Server.one_text_or_raise (Server.query_skus_by_fat df arguments).
Proof.
  unfold Server.query_skus_by_fat, Server.one_text_or_raise.
  destruct (Server.arg_fat_value arguments) as [v|]; cbn [rbind]; [|raises].
  destruct (negb (Server.has_column df "Fat")); [one_text|].
  destruct (Server.operator_map _ _) as [test|]; [|one_text].
  destruct (negb (Server.has_column df "Material_Code")); [raises|].
  destruct (Server.head _ _); one_text.
Qed.

Lemma query_chocolate_products_shape df arguments :
  Server.one_text_or_raise (Server.query_chocolate_products df arguments).
Proof.
  unfold Server.query_chocolate_products, Server.one_text_or_raise.
  destruct (Server.arg_chocolate_type arguments) as [ct|]; cbn [rbind]; [|raises].
  destruct (Server.arg_moulding_type arguments) as [mt|]; cbn [rbind]; [|raises].
  destruct (filter _ Server.required_cols); [|one_text].
  destruct (Server.prefix_map ct) as [p|e|] eqn:Hp; cbn [rbind]; [|raises|].
  - destruct (Server.re_compile (lower mt)) as [search|e]; cbn [of_outcome rbind];
      [|raises].
    destruct (Server.head _ _) as [|row rest] eqn:Hh; [one_text|].
    destruct (format_products_returns_or_raises df p (row :: rest))
      as [[ls ->]|[e ->]]; cbn [rbind]; [one_text|raises].
  - unfold Server.prefix_map in Hp.
    repeat match type of Hp with
           | (if ?b then _ else _) = _ => destruct b; try discriminate
           end.
Qed.

(** The worker answers every call with one text: what a handler raises is
    rendered as an error line. *)
Lemma server_call_tool_total (df : option Server.DataFrame) name arguments :
  exists t, Server.call_tool df name arguments = Return [Server.text_content t].
Proof.
  unfold Server.call_tool. destruct df as [d|]; [|eexists; reflexivity].
  assert (H : Server.one_text_or_raise (Server.dispatch d name arguments)).
  { unfold Server.dispatch.
    destruct (String.eqb name "query_skus_by_fat");
      [apply query_skus_by_fat_shape|].
    destruct (String.eqb name "query_chocolate_products");
      [apply query_chocolate_products_shape|].
    left; eexists; reflexivity. }
  destruct H as [[t ->]|[e ->]]; eexists; reflexivity.
Qed.

Lemma server_call_tool_error (df : Server.DataFrame) name arguments e :
  Server.dispatch df name arguments = Raise e ->
  Server.call_tool (Some df) name arguments =
  Return [Server.text_content ("❌ Error: " ++ exn_str e)].
Proof. intros H. unfold Server.call_tool. rewrite H. reflexivity. Qed.

(** C9.  A call of [query_chocolate_products] for Dark, Milk or White that
    returns gives the missing-columns line, or lists rows whose
    Material_Code starts with the prefix of the chocolate type (CHD-, CHM-,
    CHW-): every entry of the text carries the success mark. *)
Theorem chocolate_entries_have_prefix (df : Server.DataFrame)
    (arguments : Server.Arguments) (chocolate_type : string)
    (out : list Server.TextContent)
    (Htype : Server.arg_chocolate_type arguments = Some chocolate_type)
    (Hin : In chocolate_type ["Dark"; "Milk"; "White"])
    (Hout : Server.query_chocolate_products df arguments = Return out) :
  exists expected_prefix,
    Server.prefix_map chocolate_type = Return expected_prefix
    /\ In (chocolate_type, expected_prefix)
          [("Dark", "CHD-"); ("Milk", "CHM-"); ("White", "CHW-")]
    /\ ((exists cols,
            out = [Server.text_content ("❌ Missing columns: " ++ join ", " cols)])
        \/ (exists raw search,
              Server.arg_moulding_type arguments = Some raw
              /\ Server.re_compile (lower raw) = Ok search
              /\ let moulding_type := lower raw in
                 let results :=
                   Server.head
                     (match Server.arg_n arguments with Some k => k | None => 5%Z end)
                     (Server.chocolate_filter chocolate_type expected_prefix search
                        (Server.rows df)) in
                 Forall (Server.starts_with expected_prefix) results
                 /\ Server.format_products df expected_prefix results =
                    Return (flat_map (Server.product_lines df "✓") results)
                 /\ out =
                    [Server.text_content
                       (match results with
                        | [] => Server.no_products_text chocolate_type moulding_type
                        | _ :: _ =>
                            join nl
                              (Server.products_header (length results)
                                 chocolate_type moulding_type
                               :: flat_map (Server.product_lines df "✓") results)
                        end)])).
Proof.
  assert (Hp : exists p, Server.prefix_map chocolate_type = Return p
                 /\ In (chocolate_type, p)
                      [("Dark", "CHD-"); ("Milk", "CHM-"); ("White", "CHW-")]).
  { simpl in Hin. destruct Hin as [<-|[<-|[<-|[]]]]; eexists; split;
      try reflexivity; simpl; auto. }
  destruct Hp as [p [Hp Hpin]]. exists p. split; [exact Hp|]. split; [exact Hpin|].
  unfold Server.query_chocolate_products in Hout. rewrite Htype in Hout.
  cbn [rbind] in Hout.
  destruct (Server.arg_moulding_type arguments) as [mt|] eqn:Hmt;
    cbn [rbind] in Hout; [|discriminate].
  destruct (filter _ Server.required_cols) as [|col cols].
  2:{ left. exists (col :: cols). congruence. }
  rewrite Hp in Hout. cbn [rbind] in Hout.
  destruct (Server.re_compile (lower mt)) as [search|e] eqn:Hre;
    cbn [of_outcome rbind] in Hout; [|discriminate].
  right. exists mt, search. split; [reflexivity|]. split; [exact Hre|].
  cbv zeta.
  set (n := match Server.arg_n arguments with Some k => k | None => 5%Z end) in *.
  set (results := Server.head n
         (Server.chocolate_filter chocolate_type p search (Server.rows df))) in *.
  assert (Hall : Forall (Server.starts_with p) results).
  { apply Forall_forall. intros row Hrow. apply code_has_prefix_starts_with.
    apply head_incl in Hrow. eapply chocolate_filter_prefix; exact Hrow. }
  split; [exact Hall|].
  split; [apply format_products_valid; exact Hall|].
  destruct results as [|row rest] eqn:Hres; [congruence|].
  rewrite (format_products_valid df Hall) in Hout. cbn [rbind] in Hout.
  congruence.
Qed.

Lemma prefix_append (p s : string) : String.prefix p (p ++ s) = true.
Proof.
  induction p as [|c p IH]; [destruct s; reflexivity|].
  cbn. destruct (ascii_dec c c); [exact IH | congruence].
Qed.

(** No line that [description_lines] adds starts like an entry. *)
Lemma description_lines_open_nothing (d : Server.Cell) :
  Listing.sku_entries (Server.description_lines d) = []
  /\ Listing.product_entries (Server.description_lines d) = [].
Proof.
  unfold Server.description_lines. destruct (_ && _); split; reflexivity.
Qed.

(** Of the lines of a listing of SKUs, those that open an entry are the
    bullet lines of the rows listed, one for each row, in order. *)
Lemma sku_entries_of_rows (df : Server.DataFrame) (listed : list Server.Row) :
  Listing.sku_entries (flat_map (Server.sku_lines df) listed)
  = map Listing.sku_bullet listed.
Proof.
  induction listed as [|row rest IH]; [reflexivity|].
  cbn [flat_map map]. unfold Listing.sku_entries in *. rewrite filter_app, IH.
  unfold Server.sku_lines. cbn [app filter].
  rewrite filter_app.
  pose proof (proj1 (description_lines_open_nothing
                       (Server.row_get df "Description" (Server.Description row))))
    as Hd.
  unfold Listing.sku_entries in Hd. rewrite Hd.
  unfold Listing.opens_sku_entry at 1.
  change ("  • **" ++ Server.str_cell (Server.Material_Code row) ++ "** (Fat: "
            ++ Server.num_str (Server.Fat row) ++ "g)")
    with ("  • **" ++ (Server.str_cell (Server.Material_Code row) ++ "** (Fat: "
            ++ Server.num_str (Server.Fat row) ++ "g)")).
  rewrite prefix_append. reflexivity.
Qed.

(** C10.  A call of [query_skus_by_fat] with [n >= 0] lists the first [n]
    matching rows.  The text is the header and the lines of these rows; the
    lines that open an entry are the bullet lines of these rows, one for
    each: the entries are at most [n], and the count in the header is their
    number, not the number of matching rows.  With [n = 0] the text is the
    zero-results message whatever the dataset holds. *)
Theorem skus_listing_truncated (df : Server.DataFrame)
    (arguments : Server.Arguments) (n : Z) (fat_value : Server.Num)
    (operator : string) (test : Server.Num -> bool)
    (Hn : n = match Server.arg_n arguments with Some k => k | None => 10%Z end)
    (Hpos : (0 <= n)%Z)
    (Hfat : Server.arg_fat_value arguments = Some fat_value)
    (Hop : operator =
           match Server.arg_operator arguments with Some o => o | None => ">" end)
    (Hcol_fat : Server.has_column df "Fat" = true)
    (Hcol_code : Server.has_column df "Material_Code" = true)
    (Htest : Server.operator_map fat_value operator = Some test) :
  let matching :=
    filter (fun row => test (Server.Fat row) && Server.notna (Server.Material_Code row))
           (Server.rows df) in
  let listed := firstn (Z.to_nat n) matching in
  let lines := flat_map (Server.sku_lines df) listed in
  let zero_results :=
    "🔍 No SKUs found where Fat " ++ operator ++ " "
      ++ Server.num_str fat_value ++ "g" in
  let header :=
    "📊 Found " ++ str_nat (length (Listing.sku_entries lines))
      ++ " SKU(s) where Fat " ++ operator ++ " " ++ Server.num_str fat_value
      ++ "g:" ++ nl in
  Listing.sku_entries lines = map Listing.sku_bullet listed
  /\ (Z.of_nat (length (Listing.sku_entries lines)) <= n)%Z
  /\ length (Listing.sku_entries lines) <= length matching
  /\ Server.query_skus_by_fat df arguments =
     Return
       [Server.text_content
          (match Listing.sku_entries lines with
           | [] => zero_results
           | _ :: _ => join nl (header :: lines)
           end)]
  /\ (n = 0%Z ->
      Server.query_skus_by_fat df arguments =
      Return [Server.text_content zero_results]).
Proof.
  intros matching listed lines zero_results header.
  assert (He : Listing.sku_entries lines = map Listing.sku_bullet listed)
    by apply sku_entries_of_rows.
  assert (Hlen : length (Listing.sku_entries lines) = length listed)
    by (rewrite He; apply length_map).
  assert (Hq : Server.query_skus_by_fat df arguments =
     Return
       [Server.text_content
          (match Listing.sku_entries lines with
           | [] => zero_results
           | _ :: _ => join nl (header :: lines)
           end)]).
  { unfold Server.query_skus_by_fat. rewrite Hfat. cbn [rbind].
    rewrite Hcol_fat, <- Hop, Htest, Hcol_code, <- Hn. cbn [negb].
    rewrite (head_nonneg _ Hpos). fold matching. fold listed.
    subst header. rewrite Hlen. rewrite He. fold lines.
    destruct listed; reflexivity. }
  split; [exact He|].
  split.
  { rewrite Hlen. subst listed. rewrite length_firstn. lia. }
  split.
  { rewrite Hlen. subst listed. rewrite length_firstn. lia. }
  split; [exact Hq|].
  intros H0. rewrite Hq. subst lines listed. rewrite H0. reflexivity.
Qed.

(** The text of a call of [query_skus_by_fat] that reaches the listing. *)
Lemma query_skus_by_fat_listing (df : Server.DataFrame)
    (arguments : Server.Arguments) (fat_value : Server.Num)
    (test : Server.Num -> bool) :
  let operator :=
    match Server.arg_operator arguments with Some o => o | None => ">" end in
  let listed :=
    Server.head (match Server.arg_n arguments with Some k => k | None => 10%Z end)
      (filter (fun row => test (Server.Fat row)
                          && Server.notna (Server.Material_Code row))
              (Server.rows df)) in
  Server.arg_fat_value arguments = Some fat_value ->
  Server.operator_map fat_value operator = Some test ->
  Server.has_column df "Fat" = true ->
  Server.has_column df "Material_Code" = true ->
  Server.query_skus_by_fat df arguments =
  Return
    [Server.text_content
       (match listed with
        | [] => Server.no_skus_text operator fat_value
        | _ :: _ =>
            join nl (Server.skus_header (length listed) operator fat_value
                     :: flat_map (Server.sku_lines df) listed)
        end)].
Proof.
  cbv zeta. intros Hfat Htest Hf Hc. unfold Server.query_skus_by_fat.
  rewrite Hfat. cbn [rbind]. rewrite Hf, Htest, Hc. cbn [negb].
  destruct (Server.head _ _); reflexivity.
Qed.

(** The text of a call of [query_chocolate_products] that reaches the
    listing. *)
Lemma query_chocolate_products_listing (df : Server.DataFrame)
    (arguments : Server.Arguments) (chocolate_type expected_prefix raw : string)
    (search : string -> bool) :
  let listed :=
    Server.head (match Server.arg_n arguments with Some k => k | None => 5%Z end)
      (Server.chocolate_filter chocolate_type expected_prefix search
         (Server.rows df)) in
  Server.arg_chocolate_type arguments = Some chocolate_type ->
  Server.arg_moulding_type arguments = Some raw ->
  filter (fun col => negb (Server.has_column df col)) Server.required_cols = [] ->
  Server.prefix_map chocolate_type = Return expected_prefix ->
  Server.re_compile (lower raw) = Ok search ->
  Server.query_chocolate_products df arguments =
  Return
    [Server.text_content
       (match listed with
        | [] => Server.no_products_text chocolate_type (lower raw)
        | _ :: _ =>
            join nl (Server.products_header (length listed) chocolate_type
                       (lower raw)
                     :: flat_map (Server.product_lines df "✓") listed)
        end)].
Proof.
  cbv zeta. intros Hct Hmt Hcols Hp Hre. unfold Server.query_chocolate_products.
  rewrite Hct, Hmt. cbn [rbind]. rewrite Hcols, Hp. cbn [rbind].
  rewrite Hre. cbn [of_outcome rbind].
  set (listed := Server.head _ _).
  assert (Hall : Forall (Server.starts_with expected_prefix) listed).
  { apply Forall_forall. intros row Hrow. apply code_has_prefix_starts_with.
    apply head_incl in Hrow. eapply chocolate_filter_prefix; exact Hrow. }
  destruct listed as [|row rest] eqn:Hl; [reflexivity|].
  rewrite (format_products_valid df Hall). reflexivity.
Qed.

(** Of the lines of a listing of chocolate products, those that open an
    entry are the marked lines of the rows listed, one for each row, in
    order. *)
Lemma product_entries_of_rows (df : Server.DataFrame) (listed : list Server.Row) :
  Listing.product_entries (flat_map (Server.product_lines df "✓") listed)
  = map (Listing.product_bullet "✓") listed.
Proof.
  induction listed as [|row rest IH]; [reflexivity|].
  cbn [flat_map map]. unfold Listing.product_entries in *. rewrite filter_app, IH.
  unfold Server.product_lines. cbn [app filter].
  rewrite filter_app.
  pose proof (proj2 (description_lines_open_nothing
                       (Server.row_get df "Description" (Server.Description row))))
    as Hd.
  unfold Listing.product_entries in Hd. rewrite Hd.
  unfold Listing.opens_product_entry at 1.
  change ("  " ++ "✓" ++ " **" ++ Server.str_cell (Server.Material_Code row) ++ "**")
    with ("  ✓ **" ++ (Server.str_cell (Server.Material_Code row) ++ "**")).
  rewrite prefix_append. reflexivity.
Qed.

End ServerFacts.

(** ** The conversation loops *)

Section OllamaFacts.

Context {World Args : Type} {lib : Client.McpLibrary World Args}
        {backend : @Ollama.OllamaBackend World Args}.

Local Abbreviation Agent := (@Ollama.OllamaAgent World Args lib).

Lemma append_run (m : Ollama.Message) (a : Agent) :
  Ollama.append m a =
  (Return tt,
   {| Ollama.tools := Ollama.tools a;
      Ollama.messages := Ollama.messages a ++ [m];
      Ollama.sys := Ollama.sys a;
      Ollama.queries := Ollama.queries a |}).
Proof. reflexivity. Qed.

Lemma chat_query_run (a : Agent) :
  Ollama.chat_query a =
  (of_outcome (fst (Ollama.chat (Ollama.messages a) (Ollama.tools a)
                      (snd (Ollama.sys a)))),
   {| Ollama.tools := Ollama.tools a;
      Ollama.messages := Ollama.messages a;
      Ollama.sys :=
        (fst (Ollama.sys a),
         snd (Ollama.chat (Ollama.messages a) (Ollama.tools a)
                (snd (Ollama.sys a))));
      Ollama.queries := Ollama.queries a ++ [Ollama.messages a] |}).
Proof.
  unfold Ollama.chat_query.
  destruct (Ollama.chat _ _ _) as [r w]. reflexivity.
Qed.

(** A tool call that returns leaves its text as a tool message. *)
Lemma run_tool_call_ok (tc : Ollama.ToolCall) (a : Agent) t s' :
  Client.call_tool (Ollama.tc_name tc) (Ollama.tc_arguments tc) (Ollama.sys a)
    = (Return t, s') ->
  Ollama.run_tool_call tc a =
  (Return tt,
   {| Ollama.tools := Ollama.tools a;
      Ollama.messages := Ollama.messages a ++ [Ollama.ToolMsg t];
      Ollama.sys := s';
      Ollama.queries := Ollama.queries a |}).
Proof.
  intros H. unfold Ollama.run_tool_call, try_except, bind, Ollama.mcp_call_tool.
  rewrite H. reflexivity.
Qed.

(** A tool call that raises leaves the rendering of its error instead. *)
Lemma run_tool_call_error (tc : Ollama.ToolCall) (a : Agent) e s' :
  Client.call_tool (Ollama.tc_name tc) (Ollama.tc_arguments tc) (Ollama.sys a)
    = (Raise e, s') ->
  Ollama.run_tool_call tc a =
  (Return tt,
   {| Ollama.tools := Ollama.tools a;
      Ollama.messages :=
        Ollama.messages a ++ [Ollama.ToolMsg ("Error: " ++ exn_str e)];
      Ollama.sys := s';
      Ollama.queries := Ollama.queries a |}).
Proof.
  intros H. unfold Ollama.run_tool_call, try_except, bind, Ollama.mcp_call_tool.
  rewrite H. reflexivity.
Qed.

Lemma tool_results_length tcs (s : Client.St) l s' :
  Ollama.tool_results tcs s l s' -> length l = length tcs.
Proof. induction 1; simpl; congruence. Qed.

(** The [for] loop never raises: it appends one tool message per call. *)
Lemma process_tool_calls_run (tcs : list Ollama.ToolCall) (a : Agent) :
  exists l s',
    Ollama.tool_results tcs (Ollama.sys a) l s'
    /\ Ollama.process_tool_calls tcs a =
       (Return tt,
        {| Ollama.tools := Ollama.tools a;
           Ollama.messages := Ollama.messages a ++ map Ollama.ToolMsg l;
           Ollama.sys := s';
           Ollama.queries := Ollama.queries a |}).
Proof.
  revert a. induction tcs as [|tc rest IH]; intros a.
  - exists [], (Ollama.sys a). split; [constructor|].
    cbn [Ollama.process_tool_calls map]. rewrite app_nil_r.
    destruct a; reflexivity.
  - cbn [Ollama.process_tool_calls].
    destruct (call_tool_total (Ollama.tc_name tc) (Ollama.tc_arguments tc)
                (Ollama.sys a)) as [w' [[t Ht]|[e He]]].
    + destruct (IH {| Ollama.tools := Ollama.tools a;
                      Ollama.messages := Ollama.messages a ++ [Ollama.ToolMsg t];
                      Ollama.sys := (fst (Ollama.sys a), w');
                      Ollama.queries := Ollama.queries a |}) as [l [s' [Hl Hrun]]].
      exists (t :: l), s'. split; [eapply Ollama.results_ok; eassumption|].
      rewrite (bind_Return _ _ _ (run_tool_call_ok tc a Ht)), Hrun.
      cbn [Ollama.tools Ollama.messages Ollama.queries map].
      rewrite <- app_assoc. reflexivity.
    + destruct (IH {| Ollama.tools := Ollama.tools a;
                      Ollama.messages :=
                        Ollama.messages a ++ [Ollama.ToolMsg ("Error: " ++ exn_str e)];
                      Ollama.sys := (fst (Ollama.sys a), w');
                      Ollama.queries := Ollama.queries a |}) as [l [s' [Hl Hrun]]].
      exists (("Error: " ++ exn_str e)%string :: l), s'.
      split; [eapply Ollama.results_error; eassumption|].
      rewrite (bind_Return _ _ _ (run_tool_call_error tc a He)), Hrun.
      cbn [Ollama.tools Ollama.messages Ollama.queries map].
      rewrite <- app_assoc. reflexivity.
Qed.

(** One round of the loop: the assistant message, the tool messages of its
    calls, then the next query of the model. *)
Lemma tool_loop_round (fuel : nat) (r : Ollama.ChatResponse) tc rest (a : Agent) :
  Ollama.rm_tool_calls (Ollama.message r) = tc :: rest ->
  exists l s',
    Ollama.tool_results (tc :: rest) (Ollama.sys a) l s'
    /\ Ollama.tool_loop (S fuel) r a =
       bind Ollama.chat_query (Ollama.tool_loop fuel)
         {| Ollama.tools := Ollama.tools a;
            Ollama.messages :=
              Ollama.messages a
                ++ Ollama.ModelMsg (Ollama.message r) :: map Ollama.ToolMsg l;
            Ollama.sys := s';
            Ollama.queries := Ollama.queries a |}.
Proof.
  intros Hcalls.
  destruct (process_tool_calls_run (tc :: rest)
              {| Ollama.tools := Ollama.tools a;
                 Ollama.messages :=
                   Ollama.messages a ++ [Ollama.ModelMsg (Ollama.message r)];
                 Ollama.sys := Ollama.sys a;
                 Ollama.queries := Ollama.queries a |}) as [l [s' [Hl Hrun]]].
  exists l, s'. split; [exact Hl|].
  cbn [Ollama.tool_loop]. rewrite Hcalls.
  rewrite (bind_Return _ _ _ (append_run _ a)).
  rewrite (bind_Return _ _ _ Hrun).
  cbn [Ollama.tools Ollama.messages Ollama.queries].
  rewrite <- app_assoc. reflexivity.
Qed.

(** *** The shape of the message list *)

Lemma resolved_from_app p ms ms' :
  Ollama.resolved_from (Args := Args) p ms = true ->
  Ollama.resolved ms' = true ->
  Ollama.resolved_from p (ms ++ ms') = true.
Proof.
  revert p. induction ms as [|m ms IH]; intros p Hms Hms'.
  - simpl in Hms. apply Nat.eqb_eq in Hms. subst p. exact Hms'.
  - simpl in *. destruct p as [|p]; destruct m; try discriminate;
      apply IH; assumption.
Qed.

Lemma resolved_tool_messages (l : list string) :
  Ollama.resolved_from (Args := Args) (length l) (map Ollama.ToolMsg l) = true.
Proof. induction l as [|t l IH]; [reflexivity | exact IH]. Qed.

Lemma resolved_round (ms : list (@Ollama.Message Args))
    (m : Ollama.ResponseMessage) (l : list string) :
  Ollama.resolved ms = true ->
  length l = length (Ollama.rm_tool_calls m) ->
  Ollama.resolved (ms ++ Ollama.ModelMsg m :: map Ollama.ToolMsg l) = true.
Proof.
  intros Hms Hl. apply resolved_from_app; [exact Hms|].
  unfold Ollama.resolved. cbn [Ollama.resolved_from]. rewrite <- Hl.
  apply resolved_tool_messages.
Qed.

Lemma resolved_user ms text :
  Ollama.resolved (Args := Args) ms = true ->
  Ollama.resolved (ms ++ [Ollama.UserMsg text]) = true.
Proof. intros H. apply resolved_from_app; [exact H | reflexivity]. Qed.

Lemma resolved_final (ms : list (@Ollama.Message Args))
    (m : Ollama.ResponseMessage) :
  Ollama.resolved ms = true ->
  Ollama.rm_tool_calls m = [] ->
  Ollama.resolved (ms ++ [Ollama.ModelMsg m]) = true.
Proof.
  intros H Hm. apply resolved_from_app; [exact H|].
  unfold Ollama.resolved. cbn [Ollama.resolved_from]. rewrite Hm. reflexivity.
Qed.

(** *** The invariant of the loop *)

Lemma chat_query_well_formed (a : Agent) :
  Ollama.well_formed a -> Ollama.well_formed (snd (Ollama.chat_query a)).
Proof.
  intros [Hm Hq]. rewrite chat_query_run. split; [exact Hm|].
  cbn [snd Ollama.queries]. apply Forall_app. split; [exact Hq|].
  constructor; [exact Hm | constructor].
Qed.

Lemma tool_loop_well_formed (fuel : nat) (r : Ollama.ChatResponse) (a : Agent) :
  Ollama.well_formed a ->
  Ollama.well_formed (snd (Ollama.tool_loop fuel r a))
  /\ (forall r', fst (Ollama.tool_loop fuel r a) = Return r' ->
       Ollama.rm_tool_calls (Ollama.message r') = []).
Proof.
  revert r a. induction fuel as [|fuel IH]; intros r a Ha.
  - cbn [Ollama.tool_loop].
    destruct (Ollama.rm_tool_calls (Ollama.message r)) eqn:Hc; cbn.
    + split; [exact Ha|]. intros r' [= <-]. exact Hc.
    + split; [exact Ha|]. discriminate.
  - destruct (Ollama.rm_tool_calls (Ollama.message r)) as [|tc rest] eqn:Hc.
    + cbn [Ollama.tool_loop]. rewrite Hc. cbn.
      split; [exact Ha|]. intros r' [= <-]. exact Hc.
    + destruct (tool_loop_round fuel r a Hc) as [l [s' [Hl ->]]].
      set (a2 := {| Ollama.tools := Ollama.tools a;
                    Ollama.messages := _; Ollama.sys := s';
                    Ollama.queries := Ollama.queries a |}).
      assert (Ha2 : Ollama.well_formed a2).
      { destruct Ha as [Hm Hq]. split; [|exact Hq].
        apply resolved_round; [exact Hm|].
        rewrite Hc. eapply tool_results_length; exact Hl. }
      pose proof (chat_query_well_formed Ha2) as Ha3.
      unfold bind. destruct (Ollama.chat_query a2) as [[r2|e|] a3]; cbn [snd] in Ha3.
      * apply IH; exact Ha3.
      * split; [exact Ha3|]. discriminate.
      * split; [exact Ha3|]. discriminate.
Qed.

Lemma send_message_well_formed (fuel : nat) (text : string) (a : Agent) :
  Ollama.well_formed a ->
  Ollama.well_formed (snd (Ollama.send_message fuel text a)).
Proof.
  intros [Hm Hq]. unfold Ollama.send_message.
  rewrite (bind_Return _ _ _ (append_run _ a)).
  set (a1 := {| Ollama.tools := Ollama.tools a; Ollama.messages := _;
                Ollama.sys := Ollama.sys a; Ollama.queries := Ollama.queries a |}).
  assert (Ha1 : Ollama.well_formed a1).
  { split; [apply resolved_user; exact Hm | exact Hq]. }
  pose proof (chat_query_well_formed Ha1) as Ha2.
  unfold bind at 1. destruct (Ollama.chat_query a1) as [[r|e|] a2]; cbn [snd] in *;
    try exact Ha2.
  destruct (tool_loop_well_formed fuel r Ha2) as [Ha3 Hfinal].
  unfold bind at 1.
  destruct (Ollama.tool_loop fuel r a2) as [[r'|e|] a3]; cbn [fst snd] in *;
    try exact Ha3.
  rewrite (bind_Return _ _ _ (append_run _ a3)). cbn [ret snd].
  destruct Ha3 as [Hm3 Hq3]. split; [|exact Hq3].
  cbn [Ollama.messages]. apply resolved_final; [exact Hm3|].
  apply Hfinal. reflexivity.
Qed.

Lemma reachable_well_formed (a : Agent) :
  Ollama.reachable a -> Ollama.well_formed a.
Proof.
  induction 1 as [c|a s _ IH|a fuel text _ IH].
  - split; [reflexivity | constructor].
  - exact IH.
  - apply send_message_well_formed; exact IH.
Qed.

(** *** Where an exception of [send_message] comes from *)

Lemma chat_query_raise (a : Agent) e :
  fst (Ollama.chat_query a) = Raise e -> Ollama.raised_by_chat e.
Proof.
  rewrite chat_query_run. cbn [fst]. intros H.
  exists (Ollama.messages a), (Ollama.tools a), (snd (Ollama.sys a)).
  destruct (fst (Ollama.chat _ _ _)); [discriminate|]. cbn in H. congruence.
Qed.

Lemma tool_loop_raise (fuel : nat) (r : Ollama.ChatResponse) (a : Agent) e :
  fst (Ollama.tool_loop fuel r a) = Raise e -> Ollama.raised_by_chat e.
Proof.
  revert r a. induction fuel as [|fuel IH]; intros r a.
  - cbn [Ollama.tool_loop].
    destruct (Ollama.rm_tool_calls (Ollama.message r)); cbn; discriminate.
  - destruct (Ollama.rm_tool_calls (Ollama.message r)) as [|tc rest] eqn:Hc.
    + cbn [Ollama.tool_loop]. rewrite Hc. cbn. discriminate.
    + destruct (tool_loop_round fuel r a Hc) as [l [s' [_ ->]]].
      unfold bind.
      destruct (Ollama.chat_query _) as [[r2|e2|] a3] eqn:Hq; cbn [fst].
      * apply IH.
      * intros [= <-]. eapply chat_query_raise. rewrite Hq. reflexivity.
      * discriminate.
Qed.

(** An exception that leaves [send_message] was raised by a query of the
    model, never by a tool call. *)
Lemma send_message_raise (fuel : nat) (text : string) (a : Agent) e :
  fst (Ollama.send_message fuel text a) = Raise e -> Ollama.raised_by_chat e.
Proof.
  unfold Ollama.send_message.
  rewrite (bind_Return _ _ _ (append_run _ a)).
  unfold bind at 1.
  destruct (Ollama.chat_query _) as [[r|e1|] a2] eqn:Hq; cbn [fst];
    [| intros [= <-]; eapply chat_query_raise; rewrite Hq; reflexivity
     | discriminate].
  unfold bind at 1.
  destruct (Ollama.tool_loop fuel r a2) as [[r'|e1|] a3] eqn:Hl; cbn [fst];
    [| intros [= <-]; eapply tool_loop_raise; rewrite Hl; reflexivity
     | discriminate].
  rewrite (bind_Return _ _ _ (append_run _ a3)). cbn. discriminate.
Qed.

(** A first response without tool calls ends the turn. *)
Lemma send_message_final (fuel : nat) (text : string) (a : Agent)
    (r : Ollama.ChatResponse) w' :
  Ollama.chat (Ollama.messages a ++ [Ollama.UserMsg text])%list (Ollama.tools a)
    (snd (Ollama.sys a)) = (Ok r, w') ->
  Ollama.rm_tool_calls (Ollama.message r) = [] ->
  Ollama.send_message fuel text a =
  (Return (Ollama.rm_content (Ollama.message r)),
   {| Ollama.tools := Ollama.tools a;
      Ollama.messages :=
        Ollama.messages a
          ++ [Ollama.UserMsg text; Ollama.ModelMsg (Ollama.message r)];
      Ollama.sys := (fst (Ollama.sys a), w');
      Ollama.queries :=
        Ollama.queries a ++ [(Ollama.messages a ++ [Ollama.UserMsg text])%list] |}).
Proof.
  intros Hchat Hcalls. unfold Ollama.send_message.
  rewrite (bind_Return _ _ _ (append_run _ a)).
  unfold bind at 1. rewrite chat_query_run.
  cbn [Ollama.tools Ollama.messages Ollama.sys Ollama.queries].
  rewrite Hchat. cbn [fst snd of_outcome].
  assert (Hloop : forall b : Agent, Ollama.tool_loop fuel r b = (Return r, b)).
  { intros b. destruct fuel; cbn [Ollama.tool_loop]; rewrite Hcalls; reflexivity. }
  unfold bind at 1. rewrite Hloop.
  rewrite (bind_Return _ _ _ (append_run _ _)). cbn [ret].
  cbn [Ollama.tools Ollama.messages Ollama.sys Ollama.queries].
  rewrite <- app_assoc. reflexivity.
Qed.

End OllamaFacts.

Section GeminiFacts.

Context {World Args : Type} {lib : Client.McpLibrary World Args}
        {backend : @Gemini.GeminiBackend World Args}.

Local Abbreviation GAgent := (@Gemini.GeminiAgent World Args lib).

Lemma send_run (c : Gemini.Chat) (msg : string) (a : GAgent) :
  Gemini.send c msg a =
  (of_outcome (fst (Gemini.chat_send_message c msg (snd (Gemini.sys a)))),
   {| Gemini.function_declarations := Gemini.function_declarations a;
      Gemini.sys :=
        (fst (Gemini.sys a),
         snd (Gemini.chat_send_message c msg (snd (Gemini.sys a))));
      Gemini.exchanged :=
        Gemini.exchanged a ++ Gemini.Sent msg ::
          match fst (Gemini.chat_send_message c msg (snd (Gemini.sys a))) with
          | Ok resp => [Gemini.Received resp]
          | Err _ => []
          end |}).
Proof.
  unfold Gemini.send. destruct (Gemini.chat_send_message _ _ _) as [r w].
  reflexivity.
Qed.

Lemma send_raise (c : Gemini.Chat) (msg : string) (a : GAgent) e :
  fst (Gemini.send c msg a) = Raise e -> Gemini.raised_by_send e.
Proof.
  rewrite send_run. cbn [fst]. intros H.
  exists c, msg, (snd (Gemini.sys a)).
  destruct (fst (Gemini.chat_send_message _ _ _)); [discriminate|].
  cbn in H. congruence.
Qed.

(** A tool call that raises: the text of the error is sent to the model, and
    the response to it is the next response of the loop. *)
Lemma run_function_call_error (c : Gemini.Chat) (fc : Gemini.FunctionCall)
    (a : GAgent) e s' :
  Client.call_tool (Gemini.fc_name fc) (Gemini.fc_args fc) (Gemini.sys a)
    = (Raise e, s') ->
  Gemini.run_function_call c fc a =
  Gemini.send c (Gemini.error_message (Gemini.fc_name fc) e) (Gemini.with_sys s' a).
Proof.
  intros H. unfold Gemini.run_function_call, try_except, bind, Gemini.mcp_call_tool.
  rewrite H. reflexivity.
Qed.

(** A tool call that returns: its text is sent, framed as data to present;
    if that send raises, the text of its error is sent instead. *)
Lemma run_function_call_ok (c : Gemini.Chat) (fc : Gemini.FunctionCall)
    (a : GAgent) t s' :
  Client.call_tool (Gemini.fc_name fc) (Gemini.fc_args fc) (Gemini.sys a)
    = (Return t, s') ->
  Gemini.run_function_call c fc a =
  try_except
    (Gemini.send c (Gemini.data_message (Gemini.fc_name fc) t))
    (fun e => Gemini.send c (Gemini.error_message (Gemini.fc_name fc) e))
    (Gemini.with_sys s' a).
Proof.
  intros H. unfold Gemini.run_function_call, try_except, bind, Gemini.mcp_call_tool.
  rewrite H. reflexivity.
Qed.

Lemma run_function_call_raise (c : Gemini.Chat) (fc : Gemini.FunctionCall)
    (a : GAgent) e :
  fst (Gemini.run_function_call c fc a) = Raise e -> Gemini.raised_by_send e.
Proof.
  destruct (call_tool_total (Gemini.fc_name fc) (Gemini.fc_args fc) (Gemini.sys a))
    as [w' [[t Ht]|[e' He']]].
  - rewrite (run_function_call_ok c fc a Ht). unfold try_except.
    destruct (Gemini.send c (Gemini.data_message _ _) _) as [[r|e1|] a1];
      cbn [fst]; try discriminate.
    apply send_raise.
  - rewrite (run_function_call_error c fc a He'). apply send_raise.
Qed.

Lemma gemini_tool_loop_raise (fuel : nat) (c : Gemini.Chat)
    (r : Gemini.GenResponse) (a : GAgent) e :
  fst (Gemini.tool_loop fuel c r a) = Raise e -> Gemini.raised_by_send e.
Proof.
  revert r a. induction fuel as [|fuel IH]; intros r a; cbn [Gemini.tool_loop];
    destruct (Gemini.parts r) as [|part rest]; cbn; try discriminate;
    destruct (Gemini.function_call part) as [fc|]; cbn; try discriminate.
  unfold bind.
  destruct (Gemini.run_function_call c fc a) as [[r2|e2|] a2] eqn:Hrun; cbn [fst].
  - apply IH.
  - intros [= <-]. eapply run_function_call_raise. rewrite Hrun. reflexivity.
  - discriminate.
Qed.

(** An exception that leaves [send_message] was raised by a send to the
    model, never by a tool call. *)
Lemma gemini_send_message_raise (fuel : nat) (msg : string) (a : GAgent) e :
  fst (Gemini.send_message fuel msg a) = Raise e -> Gemini.raised_by_send e.
Proof.
  unfold Gemini.send_message, bind at 1, Gemini.create_chat.
  destruct (Gemini.chats_create _ _) as [c w1].
  unfold bind at 1.
  destruct (Gemini.send c msg _) as [[r|e1|] a2] eqn:Hs; cbn [fst];
    [| intros [= <-]; eapply send_raise; rewrite Hs; reflexivity
     | discriminate].
  unfold bind.
  destruct (Gemini.tool_loop fuel c r a2) as [[r'|e1|] a3] eqn:Hl; cbn [fst];
    [ discriminate
    | intros [= <-]; eapply gemini_tool_loop_raise; rewrite Hl; reflexivity
    | discriminate].
Qed.

(** A first response whose first part is not a function call ends the turn. *)
Lemma gemini_send_message_final (fuel : nat) (msg : string) (a : GAgent)
    (c : Gemini.Chat) (w1 w2 : World) (r : Gemini.GenResponse) :
  Gemini.chats_create (Gemini.function_declarations a) (snd (Gemini.sys a))
    = (c, w1) ->
  Gemini.chat_send_message c msg w1 = (Ok r, w2) ->
  match Gemini.parts r with
  | [] => True
  | part :: _ => Gemini.function_call part = None
  end ->
  Gemini.send_message fuel msg a =
  (Return (Gemini.text r),
   {| Gemini.function_declarations := Gemini.function_declarations a;
      Gemini.sys := (fst (Gemini.sys a), w2);
      Gemini.exchanged :=
        Gemini.exchanged a ++ [Gemini.Sent msg; Gemini.Received r] |}).
Proof.
  intros Hc Hs Hparts.
  unfold Gemini.send_message, bind at 1, Gemini.create_chat. rewrite Hc.
  unfold bind at 1. rewrite send_run.
  cbn [Gemini.sys Gemini.function_declarations Gemini.exchanged fst snd].
  rewrite Hs. cbn [fst snd of_outcome].
  assert (Hloop : forall b : GAgent, Gemini.tool_loop fuel c r b = (Return r, b)).
  { intros b. destruct fuel; cbn [Gemini.tool_loop];
      destruct (Gemini.parts r) as [|part rest]; try reflexivity;
      rewrite Hparts; reflexivity. }
  unfold bind. rewrite Hloop. reflexivity.
Qed.

End GeminiFacts.

(** ** The schema translators *)

Section SchemaFacts.

Context {World Args : Type} {lib : Client.McpLibrary World Args}.

Lemma convert_property_enum (p : PropSchema) (q : Gemini.PropertySchema) :
  Gemini.convert_property p = Return q -> Gemini.enum_translated p q.
Proof.
  unfold Gemini.convert_property.
  destruct (Gemini.Type_lookup _) as [ty|e|]; cbn [rbind]; try discriminate.
  intros [= <-]. unfold Gemini.enum_translated. cbn [Gemini.ps_enum].
  destruct (p_enum p) as [[|v vs]|]; repeat split; intros; congruence.
Qed.

Lemma convert_properties_enum (ps : dict PropSchema) (qs : dict Gemini.PropertySchema) :
  Gemini.convert_properties ps = Return qs -> Gemini.properties_translated ps qs.
Proof.
  revert qs. induction ps as [|[k p] ps IH]; intros qs; cbn [Gemini.convert_properties].
  - intros [= <-]. constructor.
  - destruct (Gemini.convert_property p) as [q|e|] eqn:Hq; cbn [rbind];
      try discriminate.
    destruct (Gemini.convert_properties ps) as [qs'|e|]; cbn [rbind];
      try discriminate.
    intros [= <-]. constructor.
    + split; [reflexivity | apply convert_property_enum; exact Hq].
    + apply IH. reflexivity.
Qed.

Lemma convert_tool_fields (t : Client.ToolSchema) (d : Gemini.FunctionDeclaration) :
  Gemini.convert_tool t = Return d ->
  Gemini.fd_name d = Client.ts_name t
  /\ Gemini.par_required (Gemini.fd_parameters d) =
     match s_required (Client.ts_parameters t) with Some l => l | None => [] end
  /\ Gemini.properties_translated
       (match s_properties (Client.ts_parameters t) with Some l => l | None => [] end)
       (Gemini.par_properties (Gemini.fd_parameters d)).
Proof.
  unfold Gemini.convert_tool.
  destruct (Gemini.convert_properties _) as [qs|e|] eqn:Hq; cbn [rbind];
    try discriminate.
  intros [= <-]. cbn. repeat split. apply convert_properties_enum. exact Hq.
Qed.

Lemma convert_tools_fields (tl : list Tool) :
  forall ds,
    Gemini._convert_tools_to_gemini
      (map (fun tool => {| Client.ts_name := name tool;
                           Client.ts_description := description tool;
                           Client.ts_parameters := inputSchema tool |}) tl)
    = Return ds ->
    Forall2 (fun t d =>
               Gemini.fd_name d = name t
               /\ Gemini.par_required (Gemini.fd_parameters d) = required_of t
               /\ Gemini.properties_translated (Gemini.properties_of t)
                    (Gemini.par_properties (Gemini.fd_parameters d)))
            tl ds.
Proof.
  induction tl as [|t tl IH]; intros ds; cbn [map Gemini._convert_tools_to_gemini].
  - intros [= <-]. constructor.
  - destruct (Gemini.convert_tool _) as [d|e|] eqn:Hd; cbn [rbind]; try discriminate.
    destruct (Gemini._convert_tools_to_gemini _) as [ds'|e|]; cbn [rbind];
      try discriminate.
    intros [= <-]. constructor; [|apply IH; reflexivity].
    apply convert_tool_fields in Hd. exact Hd.
Qed.

(** C4.  The required-field list of the declaration made for a descriptor is
    the descriptor's required-parameter list, the same names in the same
    order, in the Ollama shape (whose parameters are the descriptor's schema
    as it is) and in the Gemini shape (whenever the declarations are built). *)
Theorem required_fields_preserved (c : Client.BarryMCPClient) :
  map Ollama.ollama_required
      (Ollama._convert_tools_to_ollama (Client.get_tools_schema c))
    = map required_of (Client.tools c)
  /\ map (fun t => Ollama.of_parameters (Ollama.ot_function t))
         (Ollama._convert_tools_to_ollama (Client.get_tools_schema c))
     = map inputSchema (Client.tools c)
  /\ (forall ds,
        Gemini._convert_tools_to_gemini (Client.get_tools_schema c) = Return ds ->
        map (fun d => Gemini.par_required (Gemini.fd_parameters d)) ds
          = map required_of (Client.tools c)).
Proof.
  unfold Ollama._convert_tools_to_ollama, Client.get_tools_schema.
  split; [rewrite !map_map; reflexivity|].
  split; [rewrite !map_map; reflexivity|].
  intros ds Hds. apply convert_tools_fields in Hds.
  induction Hds as [|t d tl ds [_ [Hr _]] _ IH]; [reflexivity|].
  cbn [map]. rewrite Hr, IH. reflexivity.
Qed.

(** C5.  In the declarations built for Gemini every parameter of a
    descriptor appears under its name, and a parameter whose descriptor has
    no enum has no enum in the declaration; no declaration has an empty
    enum. *)
Theorem no_enum_without_constraint (c : Client.BarryMCPClient)
    (ds : list Gemini.FunctionDeclaration)
    (Hds : Gemini._convert_tools_to_gemini (Client.get_tools_schema c) = Return ds) :
  Gemini.enums_omitted (Client.tools c) ds.
Proof.
  unfold Gemini.enums_omitted. apply convert_tools_fields in Hds.
  induction Hds as [|t d tl ds' [_ [_ Hp]] _ IH]; constructor; [|exact IH].
  unfold Gemini.properties_translated in Hp.
  induction Hp as [|kp kq ps qs [Hk [Hnone [_ [_ Hne]]]] _ IHp]; constructor;
    [|exact IHp].
  repeat split; assumption.
Qed.

End SchemaFacts.

(** ** Failures of a tool invocation *)

Section WorkerSession.

Context {World : Type} {num : Server.PyNumber} {re : Server.Regex}
        {lib : Client.McpLibrary World (@Server.Arguments num)}.

(** C1, as the code has it.  A failure on the worker's side (no dataset, an
    unknown tool, an exception in a handler) is text: the worker answers every
    call with one text, and [call_tool] returns the text the transport
    delivers.  A failure of the transport call itself is not turned to text
    by [call_tool]: the exception goes to its caller. *)
Theorem invoke_failure_paths (df : option Server.DataFrame) (name : string)
    (arguments : Server.Arguments) (c : Client.BarryMCPClient)
    (sess : Client.ClientSession) (w : World)
    (Hconnected : Client.session c = Some sess) :
  (exists t, Server.call_tool df name arguments = Return [Server.text_content t])
  /\ (forall d e,
        Server.dispatch d name arguments = Raise e ->
        Server.call_tool (Some d) name arguments =
        Return [Server.text_content ("❌ Error: " ++ exn_str e)])
  /\ (forall t w',
        Client.session_call_tool sess name arguments w =
          (Ok {| Client.content := [Client.TextItem t] |}, w') ->
        Client.call_tool name arguments (c, w) = (Return t, (c, w')))
  /\ (forall e w',
        Client.session_call_tool sess name arguments w = (Err e, w') ->
        Client.call_tool name arguments (c, w) = (Raise e, (c, w'))).
Proof.
  split; [apply server_call_tool_total|].
  split; [intros d e; apply server_call_tool_error|].
  split; intros x w' Hcall;
    rewrite (call_tool_connected _ _ _ _ Hconnected), Hcall; reflexivity.
Qed.

End WorkerSession.

(** ** The two conversation loops *)

Section Orchestrators.

Context {World Args : Type} {lib : Client.McpLibrary World Args}
        {ollama : @Ollama.OllamaBackend World Args}
        {gemini : @Gemini.GeminiBackend World Args}.

(** C3.  When the first response of the model has no tool call,
    [send_message] returns the text of that response.  The Ollama agent's
    message list grows by the user message and the assistant message, in this
    order; the Gemini agent, which keeps no message list, has sent the user's
    text and received that one response. *)
Theorem send_message_without_tool_call (fuel : nat) (text : string)
    (a : Ollama.OllamaAgent) (r : Ollama.ChatResponse) (w' : World)
    (g : Gemini.GeminiAgent) (c : Gemini.Chat) (w1 w2 : World)
    (gr : Gemini.GenResponse)
    (Hchat : Ollama.chat (Ollama.messages a ++ [Ollama.UserMsg text])%list
               (Ollama.tools a) (snd (Ollama.sys a)) = (Ok r, w'))
    (Hno_call : Ollama.rm_tool_calls (Ollama.message r) = [])
    (Hcreate : Gemini.chats_create (Gemini.function_declarations g)
                 (snd (Gemini.sys g)) = (c, w1))
    (Hsend : Gemini.chat_send_message c text w1 = (Ok gr, w2))
    (Hno_fc : Forall (fun part => Gemini.function_call part = None) (Gemini.parts gr)) :
  (Ollama.send_message fuel text a =
   (Return (Ollama.rm_content (Ollama.message r)),
    {| Ollama.tools := Ollama.tools a;
       Ollama.messages :=
         Ollama.messages a
           ++ [Ollama.UserMsg text; Ollama.ModelMsg (Ollama.message r)];
       Ollama.sys := (fst (Ollama.sys a), w');
       Ollama.queries :=
         Ollama.queries a ++ [(Ollama.messages a ++ [Ollama.UserMsg text])%list] |}))
  /\ length (Ollama.messages (snd (Ollama.send_message fuel text a)))
     = length (Ollama.messages a) + 2
  /\ Gemini.send_message fuel text g =
     (Return (Gemini.text gr),
      {| Gemini.function_declarations := Gemini.function_declarations g;
         Gemini.sys := (fst (Gemini.sys g), w2);
         Gemini.exchanged :=
           Gemini.exchanged g ++ [Gemini.Sent text; Gemini.Received gr] |}).
Proof.
  pose proof (send_message_final fuel text a Hchat Hno_call) as Ho.
  split; [exact Ho|]. split.
  - rewrite Ho. cbn [snd Ollama.messages]. rewrite length_app. reflexivity.
  - apply (gemini_send_message_final fuel text g Hcreate Hsend).
    destruct Hno_fc; [exact I | assumption].
Qed.

(** C7.  A tool invocation that raises does not end [send_message].  In the
    Ollama loop its error becomes a tool message that starts with "Error: ",
    the remaining calls of the response are run, and the model is queried
    with the extended message list.  In the Gemini loop the text "Error
    calling function ..." is sent to the model and the response to it
    continues the loop.  An exception that does leave [send_message] was
    raised by the model backend. *)
Theorem tool_errors_stay_in_conversation (name : string) (arguments : Args)
    (s s' : Client.St) (e : exn)
    (Hraise : Client.call_tool name arguments s = (Raise e, s')) :
  let tc := {| Ollama.tc_name := name; Ollama.tc_arguments := arguments |} in
  let fc := {| Gemini.fc_name := name; Gemini.fc_args := arguments |} in
  (forall tl ms qs,
      Ollama.run_tool_call tc
        {| Ollama.tools := tl; Ollama.messages := ms;
           Ollama.sys := s; Ollama.queries := qs |}
      = (Return tt,
         {| Ollama.tools := tl;
            Ollama.messages := ms ++ [Ollama.ToolMsg ("Error: " ++ exn_str e)];
            Ollama.sys := s'; Ollama.queries := qs |}))
  /\ contains "Error" ("Error: " ++ exn_str e) = true
  /\ (forall fuel r rest tl ms qs,
        Ollama.rm_tool_calls (Ollama.message r) = tc :: rest ->
        exists l s'',
          Ollama.tool_results rest s' l s''
          /\ Ollama.tool_loop (S fuel) r
               {| Ollama.tools := tl; Ollama.messages := ms;
                  Ollama.sys := s; Ollama.queries := qs |}
             = bind Ollama.chat_query (Ollama.tool_loop fuel)
                 {| Ollama.tools := tl;
                    Ollama.messages :=
                      ms ++ Ollama.ModelMsg (Ollama.message r)
                         :: Ollama.ToolMsg ("Error: " ++ exn_str e)
                         :: map Ollama.ToolMsg l;
                    Ollama.sys := s''; Ollama.queries := qs |})
  /\ (forall fuel text (a : Ollama.OllamaAgent) e',
        fst (Ollama.send_message fuel text a) = Raise e' ->
        Ollama.raised_by_chat e')
  /\ (forall c ds ex,
        Gemini.run_function_call c fc
          {| Gemini.function_declarations := ds; Gemini.sys := s;
             Gemini.exchanged := ex |}
        = Gemini.send c (Gemini.error_message name e)
            {| Gemini.function_declarations := ds; Gemini.sys := s';
               Gemini.exchanged := ex |})
  /\ contains "Error" (Gemini.error_message name e) = true
  /\ (forall fuel c r rest ds ex,
        Gemini.parts r = {| Gemini.function_call := Some fc |} :: rest ->
        Gemini.tool_loop (S fuel) c r
          {| Gemini.function_declarations := ds; Gemini.sys := s;
             Gemini.exchanged := ex |}
        = bind (Gemini.send c (Gemini.error_message name e))
               (Gemini.tool_loop fuel c)
            {| Gemini.function_declarations := ds; Gemini.sys := s';
               Gemini.exchanged := ex |})
  /\ (forall fuel msg (g : Gemini.GeminiAgent) e',
        fst (Gemini.send_message fuel msg g) = Raise e' ->
        Gemini.raised_by_send e').
Proof.
  intros tc fc.
  split.
  { intros tl ms qs.
    apply (run_tool_call_error tc
             {| Ollama.tools := tl; Ollama.messages := ms;
                Ollama.sys := s; Ollama.queries := qs |} Hraise). }
  split; [apply prefix_contains; reflexivity|].
  split.
  { intros fuel r rest tl ms qs Hcalls. subst tc.
    destruct (tool_loop_round fuel r
                {| Ollama.tools := tl; Ollama.messages := ms;
                   Ollama.sys := s; Ollama.queries := qs |} Hcalls)
      as [l [s'' [Hl Hloop]]].
    cbn [Ollama.sys Ollama.tools Ollama.messages Ollama.queries] in Hl, Hloop.
    inversion Hl as [|? ? ? ? ? t l' Hcall Hrest|? ? ? ? ? e0 l' Hcall Hrest];
      subst; cbn [Ollama.tc_name Ollama.tc_arguments] in Hcall;
      rewrite Hraise in Hcall; [discriminate|].
    injection Hcall as <- <-.
    exists l', s''. split; [exact Hrest | exact Hloop]. }
  split; [intros fuel text a e'; apply send_message_raise|].
  split.
  { intros c ds ex.
    apply (run_function_call_error c fc
             {| Gemini.function_declarations := ds; Gemini.sys := s;
                Gemini.exchanged := ex |} Hraise). }
  split; [apply prefix_contains; reflexivity|].
  split.
  { intros fuel c r rest ds ex Hparts. cbn [Gemini.tool_loop].
    rewrite Hparts. cbn [Gemini.function_call].
    unfold bind at 1.
    rewrite (run_function_call_error c fc
               {| Gemini.function_declarations := ds; Gemini.sys := s;
                  Gemini.exchanged := ex |} Hraise).
    reflexivity. }
  intros fuel msg g e'. apply gemini_send_message_raise.
Qed.

(** C8, as the code has it.  In every state an Ollama agent reaches, and in
    every message list a query of the model was given, each assistant message
    that carries [k] tool calls is followed at once by exactly [k] tool
    messages; they carry, in the order of the calls, the result text of each
    call or the rendering of its error, and the model is queried again only
    after the last of them. *)
Theorem tool_calls_resolved_before_query (a : Ollama.OllamaAgent)
    (Hreach : Ollama.reachable a) :
  Ollama.resolved (Ollama.messages a) = true
  /\ Forall (fun q => Ollama.resolved q = true) (Ollama.queries a)
  /\ (forall fuel r tc rest,
        Ollama.rm_tool_calls (Ollama.message r) = tc :: rest ->
        exists l s',
          Ollama.tool_results (tc :: rest) (Ollama.sys a) l s'
          /\ length l = length (tc :: rest)
          /\ Ollama.tool_loop (S fuel) r a
             = bind Ollama.chat_query (Ollama.tool_loop fuel)
                 {| Ollama.tools := Ollama.tools a;
                    Ollama.messages :=
                      Ollama.messages a
                        ++ Ollama.ModelMsg (Ollama.message r)
                           :: map Ollama.ToolMsg l;
                    Ollama.sys := s';
                    Ollama.queries := Ollama.queries a |}).
Proof.
  destruct (reachable_well_formed Hreach) as [Hm Hq].
  split; [exact Hm|]. split; [exact Hq|].
  intros fuel r tc rest Hcalls.
  destruct (tool_loop_round fuel r a Hcalls) as [l [s' [Hl Hloop]]].
  exists l, s'. split; [exact Hl|].
  split; [eapply tool_results_length; exact Hl | exact Hloop].
Qed.

End Orchestrators.

(** ** The properties on the concrete worker *)

Import Scenario.

(** The client is connected, the worker is gone: [call_tool] raises. *)
Lemma call_tool_raises_when_worker_gone :
  Client.session (fst connected) = Some tt
  /\ fst (@Client.call_tool SimWorld Arguments sim_library
            "query_skus_by_fat" (fat_args None (Some 30%Z) None)
            (fst connected, dead_world))
     = Raise (mk_exn "McpError" "Connection closed").
Proof. split; reflexivity. Qed.

Lemma invoke_failure_paths_witness :
  Client.session (fst connected) = Some tt
  /\ @Client.call_tool SimWorld Arguments sim_library
       "query_skus_by_fat" (fat_args None (Some 30%Z) None)
       (fst connected, dead_world)
     = (Raise (mk_exn "McpError" "Connection closed"), (fst connected, dead_world))
  /\ @Client.call_tool SimWorld Arguments sim_library
       "query_skus_by_fat" (fat_args None None None) connected
     = (Return "❌ Error: 'fat_value'", connected).
Proof.
  split; [reflexivity|]. split.
  - apply (proj2 (proj2 (proj2
      (@invoke_failure_paths SimWorld z_number literal_regex sim_library
         None "query_skus_by_fat" (fat_args None (Some 30%Z) None)
         (fst connected) tt dead_world eq_refl)))).
    reflexivity.
  - apply (proj1 (proj2 (proj2
      (@invoke_failure_paths SimWorld z_number literal_regex sim_library
         None "query_skus_by_fat" (fat_args None None None)
         (fst connected) tt (snd connected) eq_refl)))).
    reflexivity.
Defined.

(** After [connect], a first [disconnect] completes and a second one raises
    what the second exit of the session raises. *)
Lemma second_disconnect_raises :
  fst (@Client.disconnect SimWorld Arguments sim_library connected) = Return tt
  /\ fst (@Client.disconnect SimWorld Arguments sim_library
            (snd (@Client.disconnect SimWorld Arguments sim_library connected)))
     = Raise (mk_exn "RuntimeError" "This cancel scope is not active").
Proof. split; reflexivity. Qed.

Lemma send_message_without_tool_call_witness :
  fst (@Ollama.send_message SimWorld Arguments sim_library scripted_ollama 0 "hello"
         (ollama_agent (snd connected) [ollama_says "Hello, ask me about chocolate."]))
    = Return "Hello, ask me about chocolate."
  /\ fst (@Gemini.send_message SimWorld Arguments sim_library scripted_gemini 0 "hello"
            (gemini_agent (snd connected) [gemini_says "Hello from Gemini."]))
     = Return "Hello from Gemini.".
Proof.
  destruct (@send_message_without_tool_call SimWorld Arguments sim_library
              scripted_ollama scripted_gemini 0 "hello"
              (ollama_agent (snd connected) [ollama_says "Hello, ask me about chocolate."])
              (ollama_says "Hello, ask me about chocolate.")
              (with_ollama_script [] (snd connected))
              (gemini_agent (snd connected) [gemini_says "Hello from Gemini."])
              tt
              (with_gemini_script [gemini_says "Hello from Gemini."] (snd connected))
              (with_gemini_script [] (snd connected))
              (gemini_says "Hello from Gemini.")
              eq_refl eq_refl eq_refl eq_refl
              ltac:(repeat constructor))
    as [Ho [_ Hg]].
  rewrite Ho, Hg. split; reflexivity.
Defined.

Lemma required_fields_preserved_witness :
  map (fun d => Gemini.par_required (Gemini.fd_parameters d)) gemini_declarations
    = [["fat_value"]; ["chocolate_type"; "moulding_type"]]
  /\ map Ollama.ollama_required
       (Ollama._convert_tools_to_ollama
          (@Client.get_tools_schema SimWorld Arguments sim_library (fst connected)))
     = [["fat_value"]; ["chocolate_type"; "moulding_type"]].
Proof.
  destruct (@required_fields_preserved SimWorld Arguments sim_library (fst connected))
    as [Ho [_ Hg]].
  split.
  - rewrite (Hg gemini_declarations eq_refl). reflexivity.
  - rewrite Ho. reflexivity.
Defined.

Lemma no_enum_without_constraint_witness :
  Gemini.enums_omitted
    (@Client.tools SimWorld Arguments sim_library (fst connected))
    gemini_declarations.
Proof.
  apply (@no_enum_without_constraint SimWorld Arguments sim_library).
  reflexivity.
Defined.

(** The hypothesis on the parts is needed: a result made of one image, which
    no handler of the worker returns, gives the empty text. *)
Lemma image_result_gives_empty_text :
  Client.session (fst image_connected) = Some tt
  /\ fst (@Client.call_tool unit unit image_library "render" tt image_connected)
     = Return "".
Proof. split; reflexivity. Qed.


Lemma tool_errors_stay_in_conversation_witness :
  @Ollama.run_tool_call SimWorld Arguments sim_library
    {| Ollama.tc_name := fst skus_call; Ollama.tc_arguments := snd skus_call |}
    {| Ollama.tools := []; Ollama.messages := [];
       Ollama.sys := (fst connected, dead_world); Ollama.queries := [] |}
  = (Return tt,
     {| Ollama.tools := [];
        Ollama.messages := [Ollama.ToolMsg "Error: Connection closed"];
        Ollama.sys := (fst connected, dead_world); Ollama.queries := [] |}).
Proof.
  apply (proj1 (@tool_errors_stay_in_conversation SimWorld Arguments sim_library
                  scripted_ollama scripted_gemini
                  (fst skus_call) (snd skus_call)
                  (fst connected, dead_world) (fst connected, dead_world)
                  (mk_exn "McpError" "Connection closed") eq_refl)).
Defined.

(** A response with two tool calls: one assistant message, then two tool
    messages, and the model is queried with them. *)
Lemma two_calls_two_tool_messages :
  fst two_calls_run = Return "Here they are."
  /\ map (fun m => match m with
                   | Ollama.UserMsg _ => "user"
                   | Ollama.ModelMsg r =>
                       "assistant:" ++ str_nat (length (Ollama.rm_tool_calls r))
                   | Ollama.ToolMsg _ => "tool"
                   end)
         (Ollama.messages (snd two_calls_run))
     = ["user"; "assistant:2"; "tool"; "tool"; "assistant:0"]
  /\ Ollama.one_result_each (Ollama.messages (snd two_calls_run)) = false
  /\ map Ollama.one_result_each (Ollama.queries (snd two_calls_run)) = [true; false].
Proof. repeat split; reflexivity. Qed.

Lemma tool_calls_resolved_before_query_witness :
  Ollama.resolved (Ollama.messages (snd two_calls_run)) = true
  /\ Forall (fun q => Ollama.resolved q = true) (Ollama.queries (snd two_calls_run)).
Proof.
  destruct (@tool_calls_resolved_before_query SimWorld Arguments sim_library
              scripted_ollama (snd two_calls_run)
              (Ollama.reach_send 5 _ (Ollama.reach_init _)))
    as [Hm [Hq _]].
  split; assumption.
Defined.

Lemma chocolate_entries_have_prefix_witness :
  exists expected_prefix,
    @Server.prefix_map "Dark" = Return expected_prefix
    /\ In ("Dark", expected_prefix) [("Dark", "CHD-"); ("Milk", "CHM-"); ("White", "CHW-")].
Proof.
  destruct (@chocolate_entries_have_prefix z_number literal_regex sample_df
              (chocolate_args None (Some "Dark") (Some "Callets")) "Dark"
              _ eq_refl (or_introl eq_refl) eq_refl)
    as [p [Hp [Hin _]]].
  exists p. split; assumption.
Defined.

(** Three rows match [Fat > 30]; with [n = 2] the text has two entries and
    its header says two. *)
Lemma skus_listing_truncated_witness :
  length (filter (fun row : Row => (30 <? @Server.Fat z_number row)%Z
                                   && Server.notna (Server.Material_Code row))
                 sample_rows) = 3
  /\ Listing.sku_entries
       (flat_map (@Server.sku_lines z_number sample_df) (firstn 2 sample_rows))
     = ["  • **CHD-001** (Fat: 35g)"; "  • **CHM-002** (Fat: 32g)"]
  /\ @Server.query_skus_by_fat z_number sample_df
       (fat_args (Some 2%Z) (Some 30%Z) (Some ">"))
     = Return
         [Server.text_content
            (join nl
               (("📊 Found 2 SKU(s) where Fat > 30g:" ++ nl)
                :: flat_map (@Server.sku_lines z_number sample_df)
                     (firstn 2 sample_rows)))].
Proof.
  split; [reflexivity|].
  destruct (@skus_listing_truncated z_number sample_df
              (fat_args (Some 2%Z) (Some 30%Z) (Some ">")) 2%Z 30%Z ">"
              (fun x : Z => (30 <? x)%Z)
              eq_refl ltac:(lia) eq_refl eq_refl eq_refl eq_refl eq_refl)
    as [He [_ [_ [Hq _]]]].
  split; [exact He | exact Hq].
Defined.

(** * Further properties of the code *)

(** ** The tool session: connect, invoke, release *)

Section SessionLifecycle.

Context {World Args : Type} {lib : Client.McpLibrary World Args}.

Local Ltac run_connect :=
  unfold Client.connect, bind, try_except, raise, Client.ext, Client.ext_total,
    Client.set_self, Client.self, ret;
  cbv beta iota zeta delta [fst snd].

(** Whatever the library does, once [connect] is over, by a return or by a
    raise, it has assigned [stdio_context]; a [connect] that returns has
    assigned [session]; a [connect] that raises has left [tools] as they
    were. *)
Theorem connect_outcome (s : Client.St) :
  Client.stdio_context (fst (snd (Client.connect s))) <> None
  /\ (fst (Client.connect s) = Return tt ->
      Client.session (fst (snd (Client.connect s))) <> None)
  /\ (forall e, fst (Client.connect s) = Raise e ->
      Client.tools (fst (snd (Client.connect s))) = Client.tools (fst s)).
Proof.
  destruct s as [b w]. run_connect.
  destruct (Client.stdio_client w) as [ctx w1].
  destruct (Client.stdio_aenter ctx w1) as [[[]|e1] w2]; cbn;
    [|repeat split; (discriminate || reflexivity)].
  destruct (Client.new_session ctx w2) as [sess w3].
  destruct (Client.session_aenter sess w3) as [[[]|e2] w4]; cbn;
    [|repeat split; (discriminate || reflexivity)].
  destruct (Client.session_initialize sess w4) as [[[]|e3] w5]; cbn;
    [|repeat split; (discriminate || reflexivity)].
  destruct (Client.session_list_tools sess w5) as [[l|e4] w6]; cbn;
    repeat split; (discriminate || reflexivity).
Qed.

(** When every call into the library returns, [connect] leaves the client
    with the session and the context it created and with the tools the
    worker listed, and a [disconnect] after it exits that session and then
    that context, leaving the attributes as they are. *)
Theorem connect_then_disconnect (b : Client.BarryMCPClient)
    (w w1 w2 w3 w4 w5 w6 w7 w8 : World)
    (ctx : Client.StdioContext) (sess : Client.ClientSession) (l : list Tool)
    (Hctx : Client.stdio_client w = (ctx, w1))
    (Henter : Client.stdio_aenter ctx w1 = (Ok tt, w2))
    (Hnew : Client.new_session ctx w2 = (sess, w3))
    (Hsenter : Client.session_aenter sess w3 = (Ok tt, w4))
    (Hinit : Client.session_initialize sess w4 = (Ok tt, w5))
    (Hlist : Client.session_list_tools sess w5 = (Ok l, w6))
    (Hsexit : Client.session_aexit sess w6 = (Ok tt, w7))
    (Hexit : Client.stdio_aexit ctx w7 = (Ok tt, w8)) :
  let connected :=
    {| Client.session := Some sess; Client.tools := l;
       Client.stdio_context := Some ctx |} in
  Client.connect (b, w) = (Return tt, (connected, w6))
  /\ Client.disconnect (connected, w6) = (Return tt, (connected, w8)).
Proof.
  split.
  - run_connect. rewrite Hctx, Henter. cbn. rewrite Hnew, Hsenter. cbn.
    rewrite Hinit. cbn. rewrite Hlist. reflexivity.
  - unfold Client.disconnect, bind, Client.self, Client.ext, ret.
    cbv beta iota zeta delta [fst snd Client.session Client.stdio_context].
    rewrite Hsexit. cbn. rewrite Hexit. reflexivity.
Qed.

(** A [connect] whose handshake fails (the timeout of [initialize], or any
    other exception of it) raises that exception with the session already
    assigned: a later [call_tool] does not report "Not connected" but goes to
    the transport, and a later [disconnect] exits the session and the
    context. *)
Theorem connect_handshake_failure (b : Client.BarryMCPClient)
    (w w1 w2 w3 w4 w5 : World)
    (ctx : Client.StdioContext) (sess : Client.ClientSession) (e : exn)
    (Hctx : Client.stdio_client w = (ctx, w1))
    (Henter : Client.stdio_aenter ctx w1 = (Ok tt, w2))
    (Hnew : Client.new_session ctx w2 = (sess, w3))
    (Hsenter : Client.session_aenter sess w3 = (Ok tt, w4))
    (Hinit : Client.session_initialize sess w4 = (Err e, w5)) :
  let partial :=
    {| Client.session := Some sess; Client.tools := Client.tools b;
       Client.stdio_context := Some ctx |} in
  Client.connect (b, w) = (Raise e, (partial, w5))
  /\ (forall tool_name arguments w',
        Client.call_tool tool_name arguments (partial, w') =
        match Client.session_call_tool sess tool_name arguments w' with
        | (Ok r, w'') => (Return (Client.extract_text r), (partial, w''))
        | (Err e', w'') => (Raise e', (partial, w''))
        end)
  /\ (forall w',
        Client.disconnect (partial, w') =
        match Client.session_aexit sess w' with
        | (Ok _, w1') =>
            let '(r, w2') := Client.stdio_aexit ctx w1' in
            (of_outcome r, (partial, w2'))
        | (Err e', w1') => (Raise e', (partial, w1'))
        end).
Proof.
  split; [|split].
  - run_connect. rewrite Hctx, Henter. cbn. rewrite Hnew, Hsenter. cbn.
    rewrite Hinit. reflexivity.
  - intros tool_name arguments w'. apply call_tool_connected. reflexivity.
  - intros w'. unfold Client.disconnect, bind, Client.self, Client.ext, ret.
    cbv beta iota zeta delta [fst snd Client.session Client.stdio_context].
    destruct (Client.session_aexit sess w') as [[[]|e'] w1']; cbn; reflexivity.
Qed.

(** A [connect] that fails before the session is created (the worker process
    cannot be started) leaves a client on which [call_tool] raises
    "Not connected" without calling the transport, and on which [disconnect]
    exits the transport context only. *)
Theorem connect_spawn_failure (w w1 w2 : World)
    (ctx : Client.StdioContext) (e : exn)
    (Hctx : Client.stdio_client w = (ctx, w1))
    (Henter : Client.stdio_aenter ctx w1 = (Err e, w2)) :
  let partial :=
    {| Client.session := None; Client.tools := [];
       Client.stdio_context := Some ctx |} in
  Client.connect (Client.init, w) = (Raise e, (partial, w2))
  /\ (forall tool_name arguments w',
        Client.call_tool tool_name arguments (partial, w') =
        (Raise (mk_exn "RuntimeError"
                  "Not connected to server. Call connect() first."),
         (partial, w')))
  /\ (forall w',
        Client.disconnect (partial, w') =
        let '(r, w'') := Client.stdio_aexit ctx w' in
        (of_outcome r, (partial, w''))).
Proof.
  split; [|split].
  - run_connect. rewrite Hctx, Henter. reflexivity.
  - intros tool_name arguments w'. apply call_tool_not_connected. reflexivity.
  - intros w'. unfold Client.disconnect, bind, Client.self, Client.ext, ret.
    cbv beta iota zeta delta [fst snd Client.session Client.stdio_context].
    destruct (Client.stdio_aexit ctx w') as [r w'']. reflexivity.
Qed.

(** [call_tool] never changes an attribute of the client, and it calls the
    transport only on a client whose session is assigned. *)
Lemma call_tool_keeps_client (tool_name : string) (arguments : Args)
    (s : Client.St) :
  fst (snd (Client.call_tool tool_name arguments s)) = fst s
  /\ fst (Client.call_tool tool_name arguments s) <> Diverge
  /\ (Client.session (fst s) = None ->
      snd (snd (Client.call_tool tool_name arguments s)) = snd s).
Proof.
  destruct s as [c w]. cbn [fst snd].
  destruct (Client.session c) as [sess|] eqn:Hs.
  - rewrite (call_tool_connected _ _ _ _ Hs).
    destruct (Client.session_call_tool sess tool_name arguments w) as [[r|e] w'];
      cbn; repeat split; discriminate.
  - rewrite (call_tool_not_connected _ _ _ _ Hs). cbn.
    repeat split; discriminate.
Qed.

End SessionLifecycle.

(** ** The schema translators: names, types, enums *)

Section TranslationFacts.

Context {World Args : Type} {lib : Client.McpLibrary World Args}.

(** Translation invents no tool and drops none: both backends get one
    declaration per discovered tool, in the order of discovery, under the
    tool's name and with its description. *)
Theorem translation_keeps_names (c : Client.BarryMCPClient) :
  let ollama_tools :=
    Ollama._convert_tools_to_ollama (Client.get_tools_schema c) in
  map (fun t => Ollama.of_name (Ollama.ot_function t)) ollama_tools
    = map name (Client.tools c)
  /\ map (fun t => Ollama.of_description (Ollama.ot_function t)) ollama_tools
     = map description (Client.tools c)
  /\ length ollama_tools = length (Client.tools c)
  /\ (forall ds,
        Gemini._convert_tools_to_gemini (Client.get_tools_schema c) = Return ds ->
        map Gemini.fd_name ds = map name (Client.tools c)
        /\ map Gemini.fd_description ds = map description (Client.tools c)
        /\ length ds = length (Client.tools c)).
Proof.
  cbv zeta. unfold Ollama._convert_tools_to_ollama, Client.get_tools_schema.
  split; [rewrite !map_map; reflexivity|].
  split; [rewrite !map_map; reflexivity|].
  split; [rewrite !length_map; reflexivity|].
  generalize (Client.tools c). intros tl.
  induction tl as [|t tl IH]; intros ds; cbn [map Gemini._convert_tools_to_gemini].
  - intros [= <-]. repeat split.
  - unfold Gemini.convert_tool at 1.
    destruct (Gemini.convert_properties _) as [qs|e|]; cbn [rbind]; try discriminate.
    destruct (Gemini._convert_tools_to_gemini _) as [ds'|e|]; cbn [rbind];
      try discriminate.
    intros [= <-]. destruct (IH ds' eq_refl) as [Hn [Hd Hl]].
    cbn [map length Gemini.fd_name Gemini.fd_description Client.ts_name
         Client.ts_description].
    rewrite Hn, Hd, Hl. repeat split.
Qed.

Lemma convert_property_supported (p : PropSchema) :
  (exists q, Gemini.convert_property p = Return q)
  <-> Notions.supported_type p = true.
Proof.
  unfold Gemini.convert_property, Notions.supported_type.
  destruct (Gemini.Type_lookup _) as [ty|e|]; cbn [rbind]; split;
    try reflexivity; try discriminate;
    try (intros [q Hq]; discriminate); intros _; eexists; reflexivity.
Qed.

Lemma Type_lookup_raises (s : string) e :
  Gemini.Type_lookup s = Raise e -> e = KeyError s.
Proof.
  unfold Gemini.Type_lookup.
  repeat match goal with
         | |- (if ?b then _ else _) = _ -> _ => destruct b; try discriminate
         end.
  intros [= <-]. reflexivity.
Qed.

Lemma Type_lookup_no_diverge (s : string) : Gemini.Type_lookup s <> Diverge.
Proof.
  unfold Gemini.Type_lookup.
  repeat match goal with
         | |- (if ?b then _ else _) <> _ => destruct b; try discriminate
         end.
Qed.

Lemma convert_properties_supported (ps : dict PropSchema) :
  (exists qs, Gemini.convert_properties ps = Return qs)
  <-> Forall (fun kp => Notions.supported_type (snd kp) = true) ps.
Proof.
  induction ps as [|[k p] ps IH]; cbn [Gemini.convert_properties].
  - split; [constructor | eexists; reflexivity].
  - split.
    + intros [qs Hqs].
      destruct (Gemini.convert_property p) as [q|e|] eqn:Hq; cbn [rbind] in Hqs;
        try discriminate.
      destruct (Gemini.convert_properties ps) as [qs'|e|]; cbn [rbind] in Hqs;
        try discriminate.
      constructor.
      * apply convert_property_supported. exists q. exact Hq.
      * apply IH. eexists; reflexivity.
    + intros H. inversion H as [|? ? Hp Hps]; subst. cbn [snd] in Hp.
      apply convert_property_supported in Hp. destruct Hp as [q ->].
      apply IH in Hps. destruct Hps as [qs ->]. eexists; reflexivity.
Qed.

Lemma convert_properties_raises (ps : dict PropSchema) e :
  Gemini.convert_properties ps = Raise e -> exn_class e = "KeyError".
Proof.
  induction ps as [|[k p] ps IH]; cbn [Gemini.convert_properties]; [discriminate|].
  unfold Gemini.convert_property at 1.
  destruct (Gemini.Type_lookup _) as [ty|e1|] eqn:Hty; cbn [rbind].
  - destruct (Gemini.convert_properties ps) as [qs|e2|]; cbn [rbind];
      try discriminate.
    intros [= <-]. apply IH. reflexivity.
  - intros [= <-]. apply Type_lookup_raises in Hty. subst e1. reflexivity.
  - discriminate.
Qed.

Lemma convert_properties_no_diverge (ps : dict PropSchema) :
  Gemini.convert_properties ps <> Diverge.
Proof.
  induction ps as [|[k p] ps IH]; cbn [Gemini.convert_properties]; [discriminate|].
  unfold Gemini.convert_property at 1.
  destruct (Gemini.Type_lookup _) as [ty|e1|] eqn:Hty; cbn [rbind];
    [|discriminate|exfalso; exact (Type_lookup_no_diverge _ Hty)].
  destruct (Gemini.convert_properties ps) as [qs|e2|]; cbn [rbind];
    [discriminate | discriminate | exact IH].
Qed.

Lemma convert_tools_outcomes (tools_schema : list Client.ToolSchema) :
  ((exists ds, Gemini._convert_tools_to_gemini tools_schema = Return ds)
   <-> Notions.all_types_supported tools_schema)
  /\ (forall e, Gemini._convert_tools_to_gemini tools_schema = Raise e ->
                exn_class e = "KeyError")
  /\ Gemini._convert_tools_to_gemini tools_schema <> Diverge.
Proof.
  unfold Notions.all_types_supported.
  induction tools_schema as [|t ts [IHiff [IHraise IHdiv]]];
    cbn [Gemini._convert_tools_to_gemini].
  - repeat split; try discriminate; [constructor | eexists; reflexivity].
  - unfold Gemini.convert_tool at 1 2 3.
    pose proof (convert_properties_supported
                  (match s_properties (Client.ts_parameters t) with
                   | Some d => d | None => [] end)) as Hsup.
    pose proof (@convert_properties_raises
                  (match s_properties (Client.ts_parameters t) with
                   | Some d => d | None => [] end)) as Hraise.
    pose proof (convert_properties_no_diverge
                  (match s_properties (Client.ts_parameters t) with
                   | Some d => d | None => [] end)) as Hdiv.
    destruct (Gemini.convert_properties _) as [qs|e1|]; cbn [rbind];
      [| |congruence].
    + destruct (Gemini._convert_tools_to_gemini ts) as [ds|e2|]; cbn [rbind].
      * repeat split; try discriminate; [|eexists; reflexivity].
        intros _. constructor; [apply Hsup; eexists; reflexivity|].
        apply IHiff. eexists; reflexivity.
      * repeat split; try discriminate.
        -- intros [ds Hds]. discriminate.
        -- intros H. inversion H as [|? ? _ Hts]; subst.
           apply IHiff in Hts. destruct Hts as [ds Hds]. discriminate.
        -- intros e [= <-]. apply IHraise. reflexivity.
      * congruence.
    + repeat split; try discriminate.
      * intros [ds Hds]. discriminate.
      * intros H. inversion H as [|? ? Ht _]; subst.
        apply Hsup in Ht. destruct Ht as [qs Hqs]. discriminate.
      * intros e [= <-]. apply Hraise. reflexivity.
Qed.

(** The Gemini declarations are built exactly when every parameter of every
    tool has a type name of the backend's enumeration, compared without
    regard to case and taken as "string" when absent; otherwise the
    translation raises a [KeyError], and no declaration at all is produced. *)
Theorem gemini_translation_succeeds_iff (tools_schema : list Client.ToolSchema) :
  ((exists ds, Gemini._convert_tools_to_gemini tools_schema = Return ds)
   <-> Notions.all_types_supported tools_schema)
  /\ (forall e, Gemini._convert_tools_to_gemini tools_schema = Raise e ->
                exn_class e = "KeyError")
  /\ Gemini._convert_tools_to_gemini tools_schema <> Diverge.
Proof.
  exact (convert_tools_outcomes tools_schema).
Qed.

(** What a Gemini parameter schema is made from: the type name, the
    description and the enum of the descriptor's entry.  Its ["minimum"] and
    ["default"] do not reach the declaration. *)
Lemma gemini_property_ignores_bounds (p p' : PropSchema)
    (Htype : p_type p = p_type p')
    (Hdesc : p_description p = p_description p')
    (Henum : p_enum p = p_enum p') :
  Gemini.convert_property p = Gemini.convert_property p'.
Proof.
  unfold Gemini.convert_property. rewrite Htype, Hdesc, Henum. reflexivity.
Qed.

(** In the Gemini declarations an enum that has values is carried over as it
    is, in the order of the descriptor; an empty enum list is treated like an
    absent one. *)
Theorem gemini_enum_passed_through (c : Client.BarryMCPClient)
    (ds : list Gemini.FunctionDeclaration)
    (Hds : Gemini._convert_tools_to_gemini (Client.get_tools_schema c) = Return ds) :
  Forall2 (fun t d =>
             Forall2 (fun kp kq =>
                        fst kp = fst kq
                        /\ (forall v vs, p_enum (snd kp) = Some (v :: vs) ->
                                         Gemini.ps_enum (snd kq) = Some (v :: vs))
                        /\ (p_enum (snd kp) = Some [] ->
                            Gemini.ps_enum (snd kq) = None))
                     (Gemini.properties_of t)
                     (Gemini.par_properties (Gemini.fd_parameters d)))
          (Client.tools c) ds.
Proof.
  apply convert_tools_fields in Hds.
  induction Hds as [|t d tl ds' [_ [_ Hp]] _ IH]; constructor; [|exact IH].
  unfold Gemini.properties_translated in Hp.
  induction Hp as [|kp kq ps qs [Hk [_ [Hempty [Hsome _]]]] _ IHp]; constructor;
    [|exact IHp].
  repeat split; assumption.
Qed.

End TranslationFacts.

(** ** The Ollama conversation loop: bounds, growth, rounds *)

(** Running the continuation longer does not change a run that ends. *)
Lemma bind_stable {S A B} (m : M S A) (k k' : A -> M S B) (s : S) :
  (forall a s1, fst (k a s1) <> Diverge -> k' a s1 = k a s1) ->
  fst (bind m k s) <> Diverge ->
  bind m k' s = bind m k s.
Proof.
  intros Hk. unfold bind. destruct (m s) as [[a|e|] s1]; cbn [fst];
    [apply Hk | reflexivity | reflexivity].
Qed.

Section OllamaRounds.

Context {World Args : Type} {lib : Client.McpLibrary World Args}
        {backend : @Ollama.OllamaBackend World Args}.

Local Abbreviation Agent := (@Ollama.OllamaAgent World Args lib).

Lemma tool_loop_stable (fuel fuel' : nat) (r : Ollama.ChatResponse) (a : Agent) :
  fuel <= fuel' ->
  fst (Ollama.tool_loop fuel r a) <> Diverge ->
  Ollama.tool_loop fuel' r a = Ollama.tool_loop fuel r a.
Proof.
  revert fuel' r a. induction fuel as [|fuel IH]; intros fuel' r a Hle.
  - destruct fuel'; cbn [Ollama.tool_loop];
      destruct (Ollama.rm_tool_calls (Ollama.message r)); cbn; congruence.
  - destruct fuel' as [|fuel']; [lia|]. cbn [Ollama.tool_loop].
    destruct (Ollama.rm_tool_calls (Ollama.message r)); [reflexivity|].
    apply bind_stable. intros _ a1. apply bind_stable. intros _ a2.
    apply bind_stable. intros r' a3. apply IH. lia.
Qed.

(** The loop of the source has no bound; the bound of the model only cuts
    runs short.  A [send_message] that ends within [fuel] rounds gives the
    same result and the same state under every larger bound, so what is
    proved of a run that ends holds whatever the bound. *)
Lemma send_message_bound_irrelevant (fuel fuel' : nat) (text : string)
    (a : Agent) (Hle : fuel <= fuel')
    (Hends : fst (Ollama.send_message fuel text a) <> Diverge) :
  Ollama.send_message fuel' text a = Ollama.send_message fuel text a.
Proof.
  revert Hends. unfold Ollama.send_message.
  apply bind_stable. intros _ a1. apply bind_stable. intros r a2 Hends.
  unfold bind in *.
  pose proof (@tool_loop_stable fuel fuel' r a2 Hle) as Hstable.
  destruct (Ollama.tool_loop fuel r a2) as [[r'|e|] a3] eqn:Hloop; cbn [fst] in *.
  - rewrite Hstable by discriminate. reflexivity.
  - rewrite Hstable by discriminate. reflexivity.
  - exfalso. apply Hends. reflexivity.
Qed.

(** *** Growth of the conversation *)

Lemma extends_refl (a : Agent) : Notions.extends a a.
Proof.
  repeat split; try reflexivity; exists []; rewrite app_nil_r; reflexivity.
Qed.

Lemma extends_trans (a b c : Agent) :
  Notions.extends a b -> Notions.extends b c -> Notions.extends a c.
Proof.
  intros [Ht [Hc [[ms Hm] [qs Hq]]]] [Ht' [Hc' [[ms' Hm'] [qs' Hq']]]].
  repeat split; try congruence.
  - exists (ms ++ ms')%list. rewrite Hm', Hm, app_assoc. reflexivity.
  - exists (qs ++ qs')%list. rewrite Hq', Hq, app_assoc. reflexivity.
Qed.

Lemma tool_results_keep_client tcs (s s' : Client.St) l :
  Ollama.tool_results tcs s l s' -> fst s' = fst s.
Proof.
  induction 1 as [s|tc rest s s1 s2 t l Hcall _ IH|tc rest s s1 s2 e l Hcall _ IH];
    [reflexivity| |];
    destruct (call_tool_total (Ollama.tc_name tc) (Ollama.tc_arguments tc) s)
      as [w' [[t' Ht]|[e' He]]];
    rewrite IH;
    match goal with
    | H : Client.call_tool _ _ _ = _, H' : Client.call_tool _ _ _ = _ |- _ =>
        rewrite H in H'; try discriminate; injection H' as; subst; reflexivity
    end.
Qed.

(** The [for] loop computes what [tool_results] describes. *)
Lemma process_tool_calls_of_results tcs (a : Agent) l s' :
  Ollama.tool_results tcs (Ollama.sys a) l s' ->
  Ollama.process_tool_calls tcs a =
  (Return tt,
   {| Ollama.tools := Ollama.tools a;
      Ollama.messages := Ollama.messages a ++ map Ollama.ToolMsg l;
      Ollama.sys := s';
      Ollama.queries := Ollama.queries a |}).
Proof.
  intros H. remember (Ollama.sys a) as s eqn:Hs. revert a Hs.
  induction H as [s|tc rest s s1 s2 t l Hcall _ IH|tc rest s s1 s2 e l Hcall _ IH];
    intros a Hs; subst s; cbn [Ollama.process_tool_calls map].
  - rewrite app_nil_r. destruct a; reflexivity.
  - rewrite (bind_Return _ _ _ (run_tool_call_ok tc a Hcall)).
    erewrite IH by reflexivity.
    cbn [Ollama.tools Ollama.messages Ollama.queries].
    rewrite <- app_assoc. reflexivity.
  - rewrite (bind_Return _ _ _ (run_tool_call_error tc a Hcall)).
    erewrite IH by reflexivity.
    cbn [Ollama.tools Ollama.messages Ollama.queries].
    rewrite <- app_assoc. reflexivity.
Qed.

Lemma chat_query_extends (a : Agent) :
  Notions.extends a (snd (Ollama.chat_query a)).
Proof.
  rewrite chat_query_run. cbn [snd]. repeat split.
  - exists []. cbn. rewrite app_nil_r. reflexivity.
  - eexists. reflexivity.
Qed.

Lemma tool_loop_extends (fuel : nat) (r : Ollama.ChatResponse) (a : Agent) :
  Notions.extends a (snd (Ollama.tool_loop fuel r a)).
Proof.
  revert r a. induction fuel as [|fuel IH]; intros r a.
  - cbn [Ollama.tool_loop].
    destruct (Ollama.rm_tool_calls (Ollama.message r)); apply extends_refl.
  - destruct (Ollama.rm_tool_calls (Ollama.message r)) as [|tc rest] eqn:Hc.
    + cbn [Ollama.tool_loop]. rewrite Hc. apply extends_refl.
    + destruct (tool_loop_round fuel r a Hc) as [l [s' [Hl ->]]].
      set (a2 := {| Ollama.tools := Ollama.tools a; Ollama.messages := _;
                    Ollama.sys := s'; Ollama.queries := Ollama.queries a |}).
      assert (Ha2 : Notions.extends a a2).
      { repeat split.
        - cbn. eapply tool_results_keep_client. exact Hl.
        - eexists. reflexivity.
        - exists []. cbn. rewrite app_nil_r. reflexivity. }
      pose proof (chat_query_extends a2) as Hq.
      unfold bind. destruct (Ollama.chat_query a2) as [[r2|e|] a3]; cbn [snd] in *.
      * eapply extends_trans; [|apply IH].
        eapply extends_trans; eassumption.
      * eapply extends_trans; eassumption.
      * eapply extends_trans; eassumption.
Qed.

Lemma send_message_extends (fuel : nat) (text : string) (a : Agent) :
  Notions.extends
    {| Ollama.tools := Ollama.tools a;
       Ollama.messages := Ollama.messages a ++ [Ollama.UserMsg text];
       Ollama.sys := Ollama.sys a; Ollama.queries := Ollama.queries a |}
    (snd (Ollama.send_message fuel text a)).
Proof.
  unfold Ollama.send_message.
  rewrite (bind_Return _ _ _ (append_run _ a)).
  set (a1 := {| Ollama.tools := Ollama.tools a; Ollama.messages := _;
                Ollama.sys := Ollama.sys a; Ollama.queries := Ollama.queries a |}).
  pose proof (chat_query_extends a1) as H1.
  unfold bind at 1. destruct (Ollama.chat_query a1) as [[r|e|] a2]; cbn [snd] in *;
    try exact H1.
  pose proof (tool_loop_extends fuel r a2) as H2.
  unfold bind at 1.
  destruct (Ollama.tool_loop fuel r a2) as [[r'|e|] a3]; cbn [snd] in *;
    try (eapply extends_trans; eassumption).
  rewrite (bind_Return _ _ _ (append_run _ a3)). cbn [ret snd].
  eapply extends_trans; [exact H1|].
  eapply extends_trans; [exact H2|].
  repeat split.
  - eexists. reflexivity.
  - exists []. cbn. rewrite app_nil_r. reflexivity.
Qed.

(** The conversation is append-only.  Whatever happens in a [send_message]
    (an answer, a backend error, tool errors), afterwards the message list is
    the one before followed by the user's message and what came after it:
    nothing is removed or rewritten, and the declarations and the client's
    attributes are the same. *)
Theorem send_message_appends (fuel : nat) (text : string) (a : Agent) :
  let a' := snd (Ollama.send_message fuel text a) in
  (exists ms,
      Ollama.messages a' = (Ollama.messages a ++ Ollama.UserMsg text :: ms)%list)
  /\ (exists qs, Ollama.queries a' = (Ollama.queries a ++ qs)%list)
  /\ Ollama.tools a' = Ollama.tools a
  /\ fst (Ollama.sys a') = fst (Ollama.sys a).
Proof.
  cbv zeta.
  destruct (send_message_extends fuel text a) as [Ht [Hc [[ms Hm] [qs Hq]]]].
  cbn [Ollama.tools Ollama.messages Ollama.sys Ollama.queries] in Ht, Hc, Hm, Hq.
  repeat split; try assumption.
  - exists ms. rewrite Hm, <- app_assoc. reflexivity.
  - exists qs. exact Hq.
Qed.

(** A backend error on the first query leaves [send_message] by that
    exception, and the user's message stays in the conversation: the message
    list has grown by exactly that message, and is what a retry starts
    from. *)
Theorem send_message_backend_error (fuel : nat) (text : string) (a : Agent)
    (e : exn) (w' : World)
    (Hchat : Ollama.chat (Ollama.messages a ++ [Ollama.UserMsg text])%list
               (Ollama.tools a) (snd (Ollama.sys a)) = (Err e, w')) :
  Ollama.send_message fuel text a =
  (Raise e,
   {| Ollama.tools := Ollama.tools a;
      Ollama.messages := Ollama.messages a ++ [Ollama.UserMsg text];
      Ollama.sys := (fst (Ollama.sys a), w');
      Ollama.queries :=
        Ollama.queries a ++ [(Ollama.messages a ++ [Ollama.UserMsg text])%list] |}).
Proof.
  unfold Ollama.send_message.
  rewrite (bind_Return _ _ _ (append_run _ a)).
  unfold bind at 1. rewrite chat_query_run.
  cbn [Ollama.tools Ollama.messages Ollama.sys Ollama.queries].
  rewrite Hchat. reflexivity.
Qed.

(** One full round.  When the first response asks for tools and the response
    to their results asks for none, [send_message] returns the text of the
    second response; the conversation has grown by the user's message, the
    assistant's request, one tool message per call in the order of the calls,
    and the assistant's answer; the model was queried exactly twice. *)
Theorem send_message_one_round (fuel : nat) (text : string) (a : Agent)
    (r1 r2 : Ollama.ChatResponse) (w1 w3 : World) (s2 : Client.St)
    (tc : Ollama.ToolCall) (rest : list Ollama.ToolCall) (l : list string)
    (Hchat1 : Ollama.chat (Ollama.messages a ++ [Ollama.UserMsg text])%list
                (Ollama.tools a) (snd (Ollama.sys a)) = (Ok r1, w1))
    (Hcalls : Ollama.rm_tool_calls (Ollama.message r1) = tc :: rest)
    (Htools : Ollama.tool_results (tc :: rest) (fst (Ollama.sys a), w1) l s2)
    (Hchat2 : Ollama.chat
                (Ollama.messages a
                   ++ Ollama.UserMsg text :: Ollama.ModelMsg (Ollama.message r1)
                      :: map Ollama.ToolMsg l)%list
                (Ollama.tools a) (snd s2) = (Ok r2, w3))
    (Hfinal : Ollama.rm_tool_calls (Ollama.message r2) = []) :
  Ollama.send_message (S fuel) text a =
  (Return (Ollama.rm_content (Ollama.message r2)),
   {| Ollama.tools := Ollama.tools a;
      Ollama.messages :=
        Ollama.messages a
          ++ Ollama.UserMsg text :: Ollama.ModelMsg (Ollama.message r1)
             :: map Ollama.ToolMsg l ++ [Ollama.ModelMsg (Ollama.message r2)];
      Ollama.sys := (fst s2, w3);
      Ollama.queries :=
        Ollama.queries a
          ++ [(Ollama.messages a ++ [Ollama.UserMsg text])%list;
              (Ollama.messages a
                 ++ Ollama.UserMsg text :: Ollama.ModelMsg (Ollama.message r1)
                    :: map Ollama.ToolMsg l)%list] |})
  /\ length l = length (tc :: rest).
Proof.
  split; [|eapply tool_results_length; exact Htools].
  unfold Ollama.send_message.
  rewrite (bind_Return _ _ _ (append_run _ a)).
  unfold bind at 1. rewrite chat_query_run.
  cbn [Ollama.tools Ollama.messages Ollama.sys Ollama.queries].
  rewrite Hchat1. cbn [fst snd of_outcome].
  cbn [Ollama.tool_loop]. rewrite Hcalls.
  unfold bind at 1.
  rewrite (bind_Return _ _ _ (append_run _ _)).
  cbn [Ollama.tools Ollama.messages Ollama.sys Ollama.queries].
  match goal with
  | |- context [bind (Ollama.process_tool_calls _) _ ?b] =>
      pose proof (@process_tool_calls_of_results _ b l s2 Htools) as Hproc
  end.
  rewrite (bind_Return _ _ _ Hproc).
  cbn [Ollama.tools Ollama.messages Ollama.sys Ollama.queries].
  unfold bind at 1. rewrite chat_query_run.
  cbn [Ollama.tools Ollama.messages Ollama.sys Ollama.queries].
  rewrite <- !app_assoc. cbn [app].
  rewrite Hchat2. cbn [fst snd of_outcome].
  assert (Hloop : forall b : Agent, Ollama.tool_loop fuel r2 b = (Return r2, b)).
  { intros b. destruct fuel; cbn [Ollama.tool_loop]; rewrite Hfinal; reflexivity. }
  rewrite Hloop.
  rewrite (bind_Return _ _ _ (append_run _ _)). cbn [ret].
  cbn [Ollama.tools Ollama.messages Ollama.sys Ollama.queries].
  unfold ret. rewrite <- app_assoc. reflexivity.
Qed.

End OllamaRounds.

(** ** The Gemini conversation loop: bounds, parts, rounds *)

Section GeminiRounds.

Context {World Args : Type} {lib : Client.McpLibrary World Args}
        {backend : @Gemini.GeminiBackend World Args}.

Local Abbreviation GAgent := (@Gemini.GeminiAgent World Args lib).

Lemma gemini_tool_loop_stable (fuel fuel' : nat) (c : Gemini.Chat)
    (r : Gemini.GenResponse) (a : GAgent) :
  fuel <= fuel' ->
  fst (Gemini.tool_loop fuel c r a) <> Diverge ->
  Gemini.tool_loop fuel' c r a = Gemini.tool_loop fuel c r a.
Proof.
  revert fuel' r a. induction fuel as [|fuel IH]; intros fuel' r a Hle.
  - destruct fuel'; cbn [Gemini.tool_loop];
      destruct (Gemini.parts r) as [|part rest]; try reflexivity;
      destruct (Gemini.function_call part); cbn; congruence.
  - destruct fuel' as [|fuel']; [lia|]. cbn [Gemini.tool_loop].
    destruct (Gemini.parts r) as [|part rest]; [reflexivity|].
    destruct (Gemini.function_call part); [|reflexivity].
    apply bind_stable. intros r' a1. apply IH. lia.
Qed.

(** Likewise for the Gemini loop: the bound of the model only cuts runs
    short. *)
Lemma gemini_send_message_bound_irrelevant (fuel fuel' : nat) (msg : string)
    (a : GAgent) (Hle : fuel <= fuel')
    (Hends : fst (Gemini.send_message fuel msg a) <> Diverge) :
  Gemini.send_message fuel' msg a = Gemini.send_message fuel msg a.
Proof.
  revert Hends. unfold Gemini.send_message.
  apply bind_stable. intros c a1. apply bind_stable. intros r a2 Hends.
  unfold bind in *.
  pose proof (@gemini_tool_loop_stable fuel fuel' c r a2 Hle) as Hstable.
  destruct (Gemini.tool_loop fuel c r a2) as [[r'|e|] a3] eqn:Hloop;
    cbn [fst] in *.
  - rewrite Hstable by discriminate. reflexivity.
  - rewrite Hstable by discriminate. reflexivity.
  - exfalso. apply Hends. reflexivity.
Qed.

(** Only the first part of a response is looked at.  A response whose parts
    are empty, or whose first part is no function call, ends the turn with
    the text of the response, whatever its other parts are: a function call
    in a later part is not executed, and the worker is not called. *)
Theorem gemini_first_part_decides (fuel : nat) (msg : string) (a : GAgent)
    (c : Gemini.Chat) (w1 w2 : World) (r : Gemini.GenResponse)
    (rest : list Gemini.Part)
    (Hcreate : Gemini.chats_create (Gemini.function_declarations a)
                 (snd (Gemini.sys a)) = (c, w1))
    (Hsend : Gemini.chat_send_message c msg w1 = (Ok r, w2))
    (Hparts : Gemini.parts r = []
              \/ Gemini.parts r = {| Gemini.function_call := None |} :: rest) :
  Gemini.send_message fuel msg a =
  (Return (Gemini.text r),
   {| Gemini.function_declarations := Gemini.function_declarations a;
      Gemini.sys := (fst (Gemini.sys a), w2);
      Gemini.exchanged :=
        Gemini.exchanged a ++ [Gemini.Sent msg; Gemini.Received r] |}).
Proof.
  apply (gemini_send_message_final fuel msg a Hcreate Hsend).
  destruct Hparts as [-> | ->]; [exact I | reflexivity].
Qed.

(** The [try] of the loop covers the send of the tool's data.  When the tool
    returns but the model backend raises on that send, the exception is
    handled like a tool error: the text "Error calling function ..." with the
    backend's message is sent next, the tool is not called again, and the
    response to that text continues the loop. *)
Theorem gemini_send_failure_reported_as_tool_error (c : Gemini.Chat)
    (fc : Gemini.FunctionCall) (a : GAgent) (t : string) (s' : Client.St)
    (e : exn) (w2 : World)
    (Hcall : Client.call_tool (Gemini.fc_name fc) (Gemini.fc_args fc) (Gemini.sys a)
             = (Return t, s'))
    (Hsend : Gemini.chat_send_message c
               (Gemini.data_message (Gemini.fc_name fc) t) (snd s') = (Err e, w2)) :
  Gemini.run_function_call c fc a =
  Gemini.send c (Gemini.error_message (Gemini.fc_name fc) e)
    {| Gemini.function_declarations := Gemini.function_declarations a;
       Gemini.sys := (fst s', w2);
       Gemini.exchanged :=
         Gemini.exchanged a
           ++ [Gemini.Sent (Gemini.data_message (Gemini.fc_name fc) t)] |}.
Proof.
  rewrite (run_function_call_ok c fc a Hcall). unfold try_except.
  rewrite send_run. unfold Gemini.with_sys.
  cbn [Gemini.sys Gemini.function_declarations Gemini.exchanged fst snd].
  rewrite Hsend. reflexivity.
Qed.

(** One full round.  When the first response starts with a function call,
    the tool returns, and the response to its data starts with no function
    call, [send_message] returns the text of that second response.  The model
    was sent the user's text and then the tool's text framed as data to
    present; the tool was called once, with the name and the arguments of the
    request. *)
Theorem gemini_send_message_one_round (fuel : nat) (msg : string) (a : GAgent)
    (c : Gemini.Chat) (w1 w2 w4 : World) (s3 : Client.St)
    (r1 r2 : Gemini.GenResponse) (fc : Gemini.FunctionCall)
    (rest : list Gemini.Part) (t : string)
    (Hcreate : Gemini.chats_create (Gemini.function_declarations a)
                 (snd (Gemini.sys a)) = (c, w1))
    (Hsend1 : Gemini.chat_send_message c msg w1 = (Ok r1, w2))
    (Hparts1 : Gemini.parts r1 = {| Gemini.function_call := Some fc |} :: rest)
    (Hcall : Client.call_tool (Gemini.fc_name fc) (Gemini.fc_args fc)
               (fst (Gemini.sys a), w2) = (Return t, s3))
    (Hsend2 : Gemini.chat_send_message c
                (Gemini.data_message (Gemini.fc_name fc) t) (snd s3) = (Ok r2, w4))
    (Hparts2 : match Gemini.parts r2 with
               | [] => True
               | part :: _ => Gemini.function_call part = None
               end) :
  Gemini.send_message (S fuel) msg a =
  (Return (Gemini.text r2),
   {| Gemini.function_declarations := Gemini.function_declarations a;
      Gemini.sys := (fst s3, w4);
      Gemini.exchanged :=
        Gemini.exchanged a
          ++ [Gemini.Sent msg; Gemini.Received r1;
              Gemini.Sent (Gemini.data_message (Gemini.fc_name fc) t);
              Gemini.Received r2] |}).
Proof.
  unfold Gemini.send_message, bind at 1, Gemini.create_chat. rewrite Hcreate.
  unfold bind at 1. rewrite send_run.
  cbn [Gemini.sys Gemini.function_declarations Gemini.exchanged fst snd].
  rewrite Hsend1. cbn [fst snd of_outcome].
  cbn [Gemini.tool_loop]. rewrite Hparts1. cbn [Gemini.function_call].
  match goal with
  | |- bind _ _ ?b = _ => set (b0 := b)
  end.
  assert (Hrun : Gemini.run_function_call c fc b0 =
            (Return r2,
             {| Gemini.function_declarations := Gemini.function_declarations a;
                Gemini.sys := (fst s3, w4);
                Gemini.exchanged :=
                  (Gemini.exchanged a ++ [Gemini.Sent msg; Gemini.Received r1])
                    ++ [Gemini.Sent (Gemini.data_message (Gemini.fc_name fc) t);
                        Gemini.Received r2] |})).
  { rewrite (run_function_call_ok c fc b0 Hcall). unfold try_except.
    rewrite send_run. unfold Gemini.with_sys, b0.
    cbn [Gemini.sys Gemini.function_declarations Gemini.exchanged fst snd].
    rewrite Hsend2. reflexivity. }
  assert (Hloop : forall b : GAgent, Gemini.tool_loop fuel c r2 b = (Return r2, b)).
  { intros b. destruct fuel; cbn [Gemini.tool_loop];
      destruct (Gemini.parts r2) as [|part ps]; try reflexivity;
      rewrite Hparts2; reflexivity. }
  unfold bind. rewrite Hrun, Hloop. unfold ret. rewrite <- app_assoc. reflexivity.
Qed.

End GeminiRounds.

(** ** The worker: validation, filtering, formatting *)

Lemma len_append (s1 s2 : string) : len (s1 ++ s2) = len s1 + len s2.
Proof.
  induction s1 as [|c s1 IH]; [reflexivity|].
  cbn. destruct (is_continuation c); rewrite IH; reflexivity.
Qed.

Lemma len_slice_to (n : nat) (s : string) : len (slice_to n s) <= n.
Proof.
  revert n. induction s as [|c s IH]; intros n; [cbn; lia|].
  cbn [slice_to]. destruct (is_continuation c) eqn:Hc.
  - cbn [len]. rewrite Hc. apply IH.
  - destruct n as [|n]; [cbn; lia|]. cbn [len]. rewrite Hc.
    specialize (IH n). lia.
Qed.

Section WorkerFacts.

Context {num : Server.PyNumber} {re : Server.Regex}.

(** [operator_map] knows exactly the five comparison operators; with any
    other operator [query_skus_by_fat] answers "Invalid operator" and looks
    at no row. *)
Theorem operator_map_accepts_exactly (df : Server.DataFrame)
    (arguments : Server.Arguments) (fat_value : Server.Num) (operator : string) :
  ((exists test, Server.operator_map fat_value operator = Some test)
   <-> In operator Notions.operators)
  /\ (~ In operator Notions.operators ->
      Server.arg_fat_value arguments = Some fat_value ->
      Server.arg_operator arguments = Some operator ->
      Server.has_column df "Fat" = true ->
      Server.query_skus_by_fat df arguments =
      Return [Server.text_content ("❌ Invalid operator: " ++ operator)]).
Proof.
  assert (Hiff : (exists test, Server.operator_map fat_value operator = Some test)
                 <-> In operator Notions.operators).
  { unfold Server.operator_map, Notions.operators. cbn [In].
    destruct (String.eqb_spec operator "=="); [split; [auto | eexists; reflexivity]|].
    destruct (String.eqb_spec operator "<"); [split; [auto | eexists; reflexivity]|].
    destruct (String.eqb_spec operator "<="); [split; [auto | eexists; reflexivity]|].
    destruct (String.eqb_spec operator ">"); [split; [auto 6 | eexists; reflexivity]|].
    destruct (String.eqb_spec operator ">="); [split; [auto 6 | eexists; reflexivity]|].
    split; [intros [t Ht]; discriminate|].
    intros [H|[H|[H|[H|[H|[]]]]]]; congruence. }
  split; [exact Hiff|].
  intros Hnot Hfat Hop Hcol. unfold Server.query_skus_by_fat.
  rewrite Hfat, Hop, Hcol. cbn [rbind negb].
  destruct (Server.operator_map fat_value operator) as [test|] eqn:Ht;
    [|reflexivity].
  exfalso. apply Hnot, Hiff. exists test. reflexivity.
Qed.

(** The order in which [query_skus_by_fat] rejects a call, as the caller of
    [call_tool] sees it: a missing [fat_value] before everything else, then a
    dataset without the Fat column, then an unknown operator, then a dataset
    without the Material_Code column.  Each is answered by one error text. *)
Theorem skus_validation_order (df : Server.DataFrame) (arguments : Server.Arguments) :
  let answer := Server.call_tool (Some df) "query_skus_by_fat" arguments in
  let operator :=
    match Server.arg_operator arguments with Some o => o | None => ">" end in
  (Server.arg_fat_value arguments = None ->
   answer = Return [Server.text_content "❌ Error: 'fat_value'"])
  /\ (forall v, Server.arg_fat_value arguments = Some v ->
        Server.has_column df "Fat" = false ->
        answer = Return [Server.text_content
                           "❌ Error: 'Fat' column not found in dataset"])
  /\ (forall v, Server.arg_fat_value arguments = Some v ->
        Server.has_column df "Fat" = true ->
        Server.operator_map v operator = None ->
        answer = Return [Server.text_content ("❌ Invalid operator: " ++ operator)])
  /\ (forall v test, Server.arg_fat_value arguments = Some v ->
        Server.has_column df "Fat" = true ->
        Server.operator_map v operator = Some test ->
        Server.has_column df "Material_Code" = false ->
        answer = Return [Server.text_content "❌ Error: 'Material_Code'"]).
Proof.
  cbv zeta. unfold Server.call_tool, Server.dispatch. cbn [String.eqb Ascii.eqb Bool.eqb].
  unfold Server.query_skus_by_fat.
  split; [intros ->; reflexivity|].
  split; [intros v -> ->; reflexivity|].
  split.
  - intros v -> -> Hop. cbn [rbind negb]. rewrite Hop. reflexivity.
  - intros v test -> -> Hop ->. cbn [rbind negb]. rewrite Hop. reflexivity.
Qed.

(** The order in which [query_chocolate_products] rejects a call, as the
    caller of [call_tool] sees it: a missing [chocolate_type], then a missing
    [moulding_type], then missing columns, then a chocolate type other than
    Dark, Milk and White (the names are compared as they are, so "dark" is
    rejected; the error text is the [repr] of the name), then a moulding
    type that is no regular expression.  The last two are stated for ASCII
    text, on which [repr] and [lower] are Python's. *)
Theorem chocolate_validation_order (df : Server.DataFrame)
    (arguments : Server.Arguments) :
  let answer := Server.call_tool (Some df) "query_chocolate_products" arguments in
  let missing := filter (fun col => negb (Server.has_column df col))
                        Server.required_cols in
  (Server.arg_chocolate_type arguments = None ->
   answer = Return [Server.text_content "❌ Error: 'chocolate_type'"])
  /\ (forall ct, Server.arg_chocolate_type arguments = Some ct ->
        Server.arg_moulding_type arguments = None ->
        answer = Return [Server.text_content "❌ Error: 'moulding_type'"])
  /\ (forall ct mt, Server.arg_chocolate_type arguments = Some ct ->
        Server.arg_moulding_type arguments = Some mt ->
        missing <> [] ->
        answer = Return [Server.text_content
                           ("❌ Missing columns: " ++ join ", " missing)])
  /\ (forall ct mt, Server.arg_chocolate_type arguments = Some ct ->
        Server.arg_moulding_type arguments = Some mt ->
        missing = [] ->
        ~ In ct ["Dark"; "Milk"; "White"] ->
        isascii ct = true ->
        answer = Return [Server.text_content ("❌ Error: " ++ repr ct)])
  /\ (forall ct mt e, Server.arg_chocolate_type arguments = Some ct ->
        Server.arg_moulding_type arguments = Some mt ->
        missing = [] ->
        In ct ["Dark"; "Milk"; "White"] ->
        isascii mt = true ->
        Server.re_compile (lower mt) = Err e ->
        answer = Return [Server.text_content ("❌ Error: " ++ exn_str e)]).
Proof.
  cbv zeta. unfold Server.call_tool, Server.dispatch.
  cbn [String.eqb Ascii.eqb Bool.eqb]. unfold Server.query_chocolate_products.
  split; [intros ->; reflexivity|].
  split; [intros ct -> ->; reflexivity|].
  split.
  { intros ct mt -> -> Hne. cbn [rbind].
    destruct (filter _ Server.required_cols); [congruence | reflexivity]. }
  split.
  { intros ct mt -> -> -> Hnot _. cbn [rbind]. unfold Server.prefix_map.
    destruct (String.eqb_spec ct "Dark"); [exfalso; apply Hnot; simpl; auto|].
    destruct (String.eqb_spec ct "Milk"); [exfalso; apply Hnot; simpl; auto|].
    destruct (String.eqb_spec ct "White"); [exfalso; apply Hnot; simpl; auto|].
    reflexivity. }
  intros ct mt e -> -> -> Hin _ Hre. cbn [rbind].
  assert (Hp : exists p, Server.prefix_map ct = Return p).
  { simpl in Hin. destruct Hin as [<-|[<-|[<-|[]]]]; eexists; reflexivity. }
  destruct Hp as [p ->]. cbn [rbind]. rewrite Hre. reflexivity.
Qed.

(** The full description of an entry adds at most one item to the lines of
    a listing, and what the item shows of the description is at most 500
    characters long: a description of up to 500 characters is shown whole, a
    longer one is cut to its first 497 characters and "...".  A missing
    description, and the texts "N/A" and "nan", add nothing. *)
Theorem description_line_bounded (d : Server.Cell) :
  length (Server.description_lines d) <= 1
  /\ Forall (fun line => exists shown,
               line = "    ℹ️  " ++ shown
               /\ len shown <= 500
               /\ (len (Server.str_cell d) <= 500 -> shown = Server.str_cell d)
               /\ (500 < len (Server.str_cell d) ->
                   shown = slice_to 497 (Server.str_cell d) ++ "..."))
            (Server.description_lines d)
  /\ (d = None \/ d = Some "N/A" \/ d = Some "nan" ->
      Server.description_lines d = []).
Proof.
  unfold Server.description_lines.
  split; [|split].
  - destruct (_ && _); simpl; lia.
  - destruct (_ && _); [|constructor].
    constructor; [|constructor].
    destruct (Nat.ltb_spec 500 (len (Server.str_cell d))) as [Hlong|Hshort].
    + eexists. split; [reflexivity|]. split; [|split; [lia | reflexivity]].
      rewrite len_append.
      pose proof (len_slice_to 497 (Server.str_cell d)) as Hsub.
      change (len "...") with 3. lia.
    + eexists. split; [reflexivity|]. split; [exact Hshort|].
      split; [reflexivity | lia].
  - intros [-> | [-> | ->]]; reflexivity.
Qed.

(** The defaults that [list_tools] declares are the ones the handlers use: a
    call without [n] (or without [operator]) is answered like the call with
    the declared default put in. *)
Theorem declared_defaults_are_used (df : Server.DataFrame)
    (arguments : Server.Arguments) :
  (forall k, Declared.default_of Server.list_tools "query_skus_by_fat" "n"
               = Some (JInt k) ->
     Server.arg_n arguments = None ->
     Server.query_skus_by_fat df arguments =
     Server.query_skus_by_fat df (Declared.with_n k arguments))
  /\ (forall o, Declared.default_of Server.list_tools "query_skus_by_fat" "operator"
                  = Some (JStr o) ->
        Server.arg_operator arguments = None ->
        Server.query_skus_by_fat df arguments =
        Server.query_skus_by_fat df (Declared.with_operator o arguments))
  /\ (forall k, Declared.default_of Server.list_tools "query_chocolate_products" "n"
                  = Some (JInt k) ->
        Server.arg_n arguments = None ->
        Server.query_chocolate_products df arguments =
        Server.query_chocolate_products df (Declared.with_n k arguments)).
Proof.
  split; [|split].
  - intros k Hk Hn. injection Hk as <-.
    unfold Server.query_skus_by_fat, Declared.with_n. rewrite Hn. reflexivity.
  - intros o Ho Hop. injection Ho as <-.
    unfold Server.query_skus_by_fat, Declared.with_operator. rewrite Hop. reflexivity.
  - intros k Hk Hn. injection Hk as <-.
    unfold Server.query_chocolate_products, Declared.with_n. rewrite Hn. reflexivity.
Qed.

End WorkerFacts.

(** ** The deduplication of the dataset *)

Section LoaderFacts.

Context {num : Server.PyNumber}.

Import Sorted Permutation.

Lemma string_compare_refl (s : string) : String.compare s s = Eq.
Proof.
  pose proof (String.compare_antisym s s) as H.
  destruct (String.compare s s); simpl in H; congruence.
Qed.

Lemma string_compare_lt_trans (s1 s2 s3 : string) :
  String.compare s1 s2 = Lt -> String.compare s2 s3 = Lt ->
  String.compare s1 s3 = Lt.
Proof.
  intros H12 H23.
  exact (@RelationClasses.StrictOrder_Transitive _ _
           OrdersEx.String_as_OT.lt_strorder s1 s2 s3 H12 H23).
Qed.

Lemma code_compare_eq (c1 c2 : Server.Cell) :
  Loader.code_compare c1 c2 = Eq <-> c1 = c2.
Proof.
  destruct c1 as [s1|], c2 as [s2|]; simpl; split; try congruence;
    try discriminate.
  - intros H. apply String.compare_eq_iff in H. congruence.
  - intros [= ->]. apply string_compare_refl.
Qed.

Lemma code_compare_antisym (c1 c2 : Server.Cell) :
  Loader.code_compare c2 c1 = CompOpp (Loader.code_compare c1 c2).
Proof.
  destruct c1 as [s1|], c2 as [s2|]; simpl; try reflexivity.
  apply String.compare_antisym.
Qed.

Lemma code_compare_lt_trans (c1 c2 c3 : Server.Cell) :
  Loader.code_compare c1 c2 = Lt -> Loader.code_compare c2 c3 = Lt ->
  Loader.code_compare c1 c3 = Lt.
Proof.
  destruct c1 as [s1|], c2 as [s2|], c3 as [s3|]; simpl; try congruence.
  apply string_compare_lt_trans.
Qed.

Lemma code_eqb_eq (c1 c2 : Server.Cell) :
  Loader.code_eqb c1 c2 = true <-> c1 = c2.
Proof.
  destruct c1 as [s1|], c2 as [s2|]; simpl; split; try congruence;
    try discriminate.
  - intros H. apply String.eqb_eq in H. congruence.
  - intros [= ->]. apply String.eqb_refl.
Qed.

Lemma seen_spec (c : Server.Cell) (seen : list Server.Cell) :
  existsb (Loader.code_eqb c) seen = true <-> In c seen.
Proof.
  rewrite existsb_exists. split.
  - intros [x [Hin Heq]]. apply code_eqb_eq in Heq. subst. exact Hin.
  - intros Hin. exists c. split; [exact Hin | apply code_eqb_eq; reflexivity].
Qed.

Lemma key_leb_total (r1 r2 : Loader.RawRow) :
  Loader.key_leb r1 r2 = false -> Loader.key_leb r2 r1 = true.
Proof.
  unfold Loader.key_leb. rewrite (code_compare_antisym (Loader.code r1) (Loader.code r2)).
  destruct (Loader.code_compare (Loader.code r1) (Loader.code r2)); simpl;
    try congruence.
  intros H. apply Nat.leb_gt in H. apply Nat.leb_le. lia.
Qed.

Lemma key_le_trans (r1 r2 r3 : Loader.RawRow) :
  Loader.key_le r1 r2 -> Loader.key_le r2 r3 -> Loader.key_le r1 r3.
Proof.
  unfold Loader.key_le, Loader.key_leb.
  destruct (Loader.code_compare (Loader.code r1) (Loader.code r2)) eqn:H12;
    try discriminate;
    destruct (Loader.code_compare (Loader.code r2) (Loader.code r3)) eqn:H23;
    try discriminate; intros Ha Hb.
  - apply code_compare_eq in H12, H23.
    replace (Loader.code_compare (Loader.code r1) (Loader.code r3)) with Eq
      by (symmetry; apply code_compare_eq; congruence).
    apply Nat.leb_le in Ha, Hb. apply Nat.leb_le. lia.
  - apply code_compare_eq in H12. rewrite H12, H23. reflexivity.
  - apply code_compare_eq in H23. rewrite <- H23, H12. reflexivity.
  - rewrite (code_compare_lt_trans _ _ _ H12 H23). reflexivity.
Qed.

Lemma insert_perm (r : Loader.RawRow) (l : list Loader.RawRow) :
  Permutation (Loader.insert r l) (r :: l).
Proof.
  induction l as [|x l IH]; simpl; [reflexivity|].
  destruct (Loader.key_leb r x); [reflexivity|].
  rewrite IH. apply perm_swap.
Qed.

Lemma sort_values_perm (l : list Loader.RawRow) :
  Permutation (Loader.sort_values l) l.
Proof.
  induction l as [|r l IH]; simpl; [reflexivity|].
  rewrite insert_perm. constructor. exact IH.
Qed.

Lemma insert_sorted (r : Loader.RawRow) (l : list Loader.RawRow) :
  StronglySorted Loader.key_le l -> StronglySorted Loader.key_le (Loader.insert r l).
Proof.
  induction 1 as [|x l Hl IH Hx]; simpl.
  - constructor; constructor.
  - destruct (Loader.key_leb r x) eqn:Hrx.
    + constructor; [constructor; assumption|].
      constructor; [exact Hrx|].
      eapply Forall_impl; [|exact Hx]. intros y Hy.
      eapply key_le_trans; [exact Hrx | exact Hy].
    + constructor; [exact IH|].
      rewrite Forall_forall. intros y Hy.
      apply (Permutation_in _ (insert_perm r l)) in Hy. destruct Hy as [<-|Hy].
      * apply key_leb_total. exact Hrx.
      * rewrite Forall_forall in Hx. apply Hx. exact Hy.
Qed.

Lemma sort_values_sorted (l : list Loader.RawRow) :
  StronglySorted Loader.key_le (Loader.sort_values l).
Proof.
  induction l as [|r l IH]; simpl; [constructor | apply insert_sorted; exact IH].
Qed.

Lemma StronglySorted_app_r {A} (R : A -> A -> Prop) (l1 l2 : list A) :
  StronglySorted R (l1 ++ l2)%list -> StronglySorted R l2.
Proof.
  induction l1 as [|x l1 IH]; simpl; [auto|].
  intros H. apply StronglySorted_inv in H. apply IH, H.
Qed.

(** A kept row is the first row of its code in the list; its code had not
    been seen. *)
Lemma drop_duplicates_first (seen : list Server.Cell) (l : list Loader.RawRow) r :
  In r (Loader.drop_duplicates seen l) ->
  exists l1 l2,
    l = (l1 ++ r :: l2)%list
    /\ ~ In (Loader.code r) seen
    /\ ~ In (Loader.code r) (map Loader.code l1).
Proof.
  revert seen. induction l as [|x l IH]; intros seen; simpl; [tauto|].
  destruct (existsb (Loader.code_eqb (Loader.code x)) seen) eqn:Hseen.
  - intros Hin. destruct (IH seen Hin) as [l1 [l2 [-> [Hs Hl1]]]].
    exists (x :: l1), l2. repeat split; [exact Hs|].
    simpl. intros [Heq|Hin']; [|exact (Hl1 Hin')].
    apply Hs. rewrite <- Heq. apply seen_spec. exact Hseen.
  - intros [<-|Hin].
    + exists [], l. repeat split; [|simpl; tauto].
      intros Hs. apply seen_spec in Hs. congruence.
    + destruct (IH _ Hin) as [l1 [l2 [-> [Hs Hl1]]]].
      exists (x :: l1), l2. repeat split.
      * intros Hs'. apply Hs. right. exact Hs'.
      * simpl. intros [Heq|Hin']; [|exact (Hl1 Hin')].
        apply Hs. left. exact Heq.
Qed.

Lemma drop_duplicates_nodup (seen : list Server.Cell) (l : list Loader.RawRow) :
  NoDup (map Loader.code (Loader.drop_duplicates seen l)).
Proof.
  revert seen. induction l as [|x l IH]; intros seen; simpl; [constructor|].
  destruct (existsb (Loader.code_eqb (Loader.code x)) seen); [apply IH|].
  simpl. constructor; [|apply IH].
  intros Hin. apply in_map_iff in Hin. destruct Hin as [r [Hcode Hr]].
  apply drop_duplicates_first in Hr. destruct Hr as [_ [_ [_ [Hs _]]]].
  apply Hs. left. congruence.
Qed.

Lemma drop_duplicates_covers (seen : list Server.Cell) (l : list Loader.RawRow) r :
  In r l ->
  In (Loader.code r) seen
  \/ In (Loader.code r) (map Loader.code (Loader.drop_duplicates seen l)).
Proof.
  revert seen. induction l as [|x l IH]; intros seen; simpl; [tauto|].
  destruct (existsb (Loader.code_eqb (Loader.code x)) seen) eqn:Hseen.
  - intros [<-|Hin]; [left; apply seen_spec; exact Hseen | apply IH; exact Hin].
  - intros [<-|Hin]; [right; left; reflexivity|].
    destruct (IH (Loader.code x :: seen) Hin) as [[Heq|Hs]|Hk].
    + right. left. exact Heq.
    + left. exact Hs.
    + right. right. exact Hk.
Qed.

Lemma drop_duplicates_incl (seen : list Server.Cell) (l : list Loader.RawRow) r :
  In r (Loader.drop_duplicates seen l) -> In r l.
Proof.
  intros H. destruct (drop_duplicates_first _ _ _ H) as [l1 [l2 [-> _]]].
  apply in_or_app. right. left. reflexivity.
Qed.

Lemma drop_duplicates_sorted (seen : list Server.Cell) (l : list Loader.RawRow) :
  StronglySorted Loader.key_le l ->
  StronglySorted Loader.key_le (Loader.drop_duplicates seen l).
Proof.
  intros H. revert seen. induction H as [|x l Hl IH Hx]; intros seen; simpl;
    [constructor|].
  destruct (existsb (Loader.code_eqb (Loader.code x)) seen); [apply IH|].
  constructor; [apply IH|].
  apply Forall_forall. intros y Hy. apply drop_duplicates_incl in Hy.
  rewrite Forall_forall in Hx. apply Hx. exact Hy.
Qed.

Lemma deduplicate_facts (raw : list Loader.RawRow) :
  NoDup (map Server.Material_Code (Loader.deduplicate raw))
  /\ (forall r, In r raw ->
        In (Loader.code r) (map Server.Material_Code (Loader.deduplicate raw)))
  /\ (forall row, In row (Loader.deduplicate raw) -> In row (map Loader.data raw))
  /\ StronglySorted Loader.code_le (Loader.deduplicate raw).
Proof.
  unfold Loader.deduplicate, Loader.kept.
  split; [|split; [|split]].
  - rewrite map_map. apply (drop_duplicates_nodup [] (Loader.sort_values raw)).
  - intros r Hr. rewrite map_map.
    assert (Hs : In r (Loader.sort_values raw)).
    { apply (Permutation_in _ (Permutation_sym (sort_values_perm raw))). exact Hr. }
    destruct (drop_duplicates_covers [] _ _ Hs) as [[]|H]. exact H.
  - intros row Hrow. apply in_map_iff in Hrow. destruct Hrow as [r [<- Hr]].
    apply in_map. apply drop_duplicates_incl in Hr.
    apply (Permutation_in _ (sort_values_perm raw)). exact Hr.
  - pose proof (drop_duplicates_sorted [] (sort_values_sorted raw)) as Hsorted.
    induction Hsorted as [|x l Hl IH Hx]; simpl; constructor; [exact IH|].
    apply Forall_forall. intros row Hrow. apply in_map_iff in Hrow.
    destruct Hrow as [y [<- Hy]]. rewrite Forall_forall in Hx.
    specialize (Hx y Hy). unfold Loader.key_le, Loader.key_leb in Hx.
    unfold Loader.code_le. fold (Loader.code x). fold (Loader.code y).
    destruct (Loader.code_compare (Loader.code x) (Loader.code y));
      congruence.
Qed.

(** After [load_data] every Material_Code occurs once (the missing code
    counts as one), no code of the file is lost, every row kept is a row of
    the file, and the rows are in ascending order of their codes. *)
Theorem deduplicate_unique_codes (raw : list Loader.RawRow) :
  NoDup (map Server.Material_Code (Loader.deduplicate raw))
  /\ (forall r, In r raw ->
        In (Loader.code r) (map Server.Material_Code (Loader.deduplicate raw)))
  /\ (forall row, In row (Loader.deduplicate raw) -> In row (map Loader.data raw))
  /\ StronglySorted Loader.code_le (Loader.deduplicate raw).
Proof.
  exact (deduplicate_facts raw).
Qed.

(** Among the rows of the file that share a Material_Code, [load_data] keeps
    one of the lowest legislation priority: a row whose Legislation is
    missing or empty before a row that names the EU, and a row that names the
    EU before any other. *)
Theorem deduplicate_keeps_lowest_priority (raw : list Loader.RawRow)
    (r r' : Loader.RawRow)
    (Hkept : In r' (Loader.kept raw))
    (Hin : In r raw)
    (Hcode : Loader.code r = Loader.code r') :
  Loader.priority r' <= Loader.priority r
  /\ In r' raw.
Proof.
  unfold Loader.kept in Hkept.
  pose proof (sort_values_sorted raw) as Hsorted.
  assert (Hs : In r (Loader.sort_values raw)).
  { apply (Permutation_in _ (Permutation_sym (sort_values_perm raw))). exact Hin. }
  split.
  2:{ apply drop_duplicates_incl in Hkept.
      apply (Permutation_in _ (sort_values_perm raw)). exact Hkept. }
  destruct (drop_duplicates_first _ _ _ Hkept) as [l1 [l2 [Hsplit [_ Hfirst]]]].
  rewrite Hsplit in Hsorted, Hs.
  apply in_app_or in Hs. destruct Hs as [Hl1|[<-|Hl2]].
  - exfalso. apply Hfirst. rewrite <- Hcode. apply in_map. exact Hl1.
  - lia.
  - apply StronglySorted_app_r in Hsorted. apply StronglySorted_inv in Hsorted.
    destruct Hsorted as [_ Hall]. rewrite Forall_forall in Hall.
    specialize (Hall r Hl2). unfold Loader.key_le, Loader.key_leb in Hall.
    rewrite <- Hcode in Hall.
    replace (Loader.code_compare (Loader.code r) (Loader.code r)) with Eq in Hall
      by (symmetry; apply code_compare_eq; reflexivity).
    apply Nat.leb_le in Hall. exact Hall.
Qed.

End LoaderFacts.

(** ** The command-line sessions *)

Section LoopFacts.

Context {A : Type} (send_message : string -> M A string).

(** An exception of [send_message] or of [input] does not end the loop: the
    loop returns or waits for input, it never raises. *)
Lemma conversation_loop_no_raise (inputs : list Cli.Input) (a : A) e :
  fst (Cli.conversation_loop send_message inputs a) <> Raise e.
Proof.
  revert a. induction inputs as [|i rest IH]; intros a;
    cbn [Cli.conversation_loop]; [discriminate|].
  destruct i as [s| |e']; [|discriminate|apply IH].
  destruct (Cli.is_quit (Cli.strip s)); [discriminate|].
  destruct (String.eqb (Cli.strip s) ""); [apply IH|].
  unfold bind at 1, try_except, bind, ret.
  destruct (send_message (Cli.strip s) a) as [[t|e'|] a1]; cbn [fst];
    [apply IH | apply IH | discriminate].
Qed.

End LoopFacts.

Section SessionFacts.

Context {World Args : Type} {lib : Client.McpLibrary World Args}
        {ollama : @Ollama.OllamaBackend World Args}
        {gemini : @Gemini.GeminiBackend World Args}.

Local Abbreviation Agent := (@Ollama.OllamaAgent World Args lib).

Lemma user_texts_app (l1 l2 : list (@Ollama.Message Args)) :
  Cli.user_texts (l1 ++ l2) = (Cli.user_texts l1 ++ Cli.user_texts l2)%list.
Proof.
  induction l1 as [|m l1 IH]; [reflexivity|].
  destruct m; simpl; rewrite IH; reflexivity.
Qed.

Lemma user_texts_tool_messages (l : list string) :
  Cli.user_texts (map (@Ollama.ToolMsg Args) l) = [].
Proof. induction l; [reflexivity | assumption]. Qed.

Lemma chat_query_messages (a : Agent) :
  Ollama.messages (snd (Ollama.chat_query a)) = Ollama.messages a.
Proof. rewrite chat_query_run. reflexivity. Qed.

Lemma tool_loop_user_texts (fuel : nat) (r : Ollama.ChatResponse) (a : Agent) :
  Cli.user_texts (Ollama.messages (snd (Ollama.tool_loop fuel r a)))
  = Cli.user_texts (Ollama.messages a).
Proof.
  revert r a. induction fuel as [|fuel IH]; intros r a.
  - cbn [Ollama.tool_loop].
    destruct (Ollama.rm_tool_calls (Ollama.message r)); reflexivity.
  - destruct (Ollama.rm_tool_calls (Ollama.message r)) as [|tc rest] eqn:Hc.
    + cbn [Ollama.tool_loop]. rewrite Hc. reflexivity.
    + destruct (tool_loop_round fuel r a Hc) as [l [s' [_ ->]]].
      set (a2 := {| Ollama.tools := Ollama.tools a; Ollama.messages := _;
                    Ollama.sys := s'; Ollama.queries := Ollama.queries a |}).
      assert (H2 : Cli.user_texts (Ollama.messages a2)
                   = Cli.user_texts (Ollama.messages a)).
      { unfold a2. cbn [Ollama.messages]. rewrite user_texts_app.
        cbn [Cli.user_texts]. rewrite user_texts_tool_messages.
        apply app_nil_r. }
      pose proof (chat_query_messages a2) as Hq.
      unfold bind. destruct (Ollama.chat_query a2) as [[r2|e|] a3];
        cbn [snd] in *.
      * rewrite IH, Hq. exact H2.
      * rewrite Hq. exact H2.
      * rewrite Hq. exact H2.
Qed.

(** Whatever its outcome, a [send_message] adds one user message, the text
    it was given, to the conversation. *)
Lemma send_message_user_texts (fuel : nat) (text : string) (a : Agent) :
  Cli.user_texts (Ollama.messages (snd (Ollama.send_message fuel text a)))
  = (Cli.user_texts (Ollama.messages a) ++ [text])%list.
Proof.
  unfold Ollama.send_message.
  rewrite (bind_Return _ _ _ (append_run _ a)).
  set (a1 := {| Ollama.tools := Ollama.tools a; Ollama.messages := _;
                Ollama.sys := Ollama.sys a; Ollama.queries := Ollama.queries a |}).
  assert (H1 : Cli.user_texts (Ollama.messages a1)
               = (Cli.user_texts (Ollama.messages a) ++ [text])%list).
  { unfold a1. cbn [Ollama.messages]. apply user_texts_app. }
  pose proof (chat_query_messages a1) as Hq.
  unfold bind at 1. destruct (Ollama.chat_query a1) as [[r|e|] a2]; cbn [snd] in *;
    try (rewrite Hq; exact H1).
  pose proof (tool_loop_user_texts fuel r a2) as Hl.
  unfold bind at 1.
  destruct (Ollama.tool_loop fuel r a2) as [[r'|e|] a3]; cbn [snd] in *;
    try (rewrite Hl, Hq; exact H1).
  rewrite (bind_Return _ _ _ (append_run _ a3)). cbn [ret snd Ollama.messages].
  rewrite user_texts_app. cbn [Cli.user_texts]. rewrite app_nil_r.
  rewrite Hl, Hq. exact H1.
Qed.

Lemma conversation_loop_user_texts (fuel : nat) (inputs : list Cli.Input)
    (a : Agent) :
  fst (Cli.conversation_loop (Ollama.send_message fuel) inputs a) <> Diverge ->
  Cli.user_texts
    (Ollama.messages
       (snd (Cli.conversation_loop (Ollama.send_message fuel) inputs a)))
  = (Cli.user_texts (Ollama.messages a) ++ Cli.sent_texts inputs)%list.
Proof.
  revert a. induction inputs as [|i rest IH]; intros a;
    cbn [Cli.conversation_loop Cli.sent_texts].
  - intros H. exfalso. apply H. reflexivity.
  - destruct i as [s| |e'].
    + destruct (Cli.is_quit (Cli.strip s));
        [intros _; cbn; rewrite app_nil_r; reflexivity|].
      destruct (String.eqb (Cli.strip s) ""); [apply IH|].
      pose proof (send_message_user_texts fuel (Cli.strip s) a) as Hs.
      unfold bind at 1 2, try_except, bind, ret.
      destruct (Ollama.send_message fuel (Cli.strip s) a) as [[t|e'|] a1];
        cbn [fst snd] in *.
      * intros H. rewrite (IH a1 H), Hs, <- app_assoc. reflexivity.
      * intros H. rewrite (IH a1 H), Hs, <- app_assoc. reflexivity.
      * intros H. exfalso. apply H. reflexivity.
    + intros _. cbn. rewrite app_nil_r. reflexivity.
    + apply IH.
Qed.

(** A session that ends has sent the model what the user typed: the user
    messages of the conversation are the lines of input, stripped, without
    the blank ones, in order, up to the first quit word or interrupt, also
    when some of the turns ended in an error. *)
Theorem ollama_session_user_texts (fuel : nat) (inputs : list Cli.Input)
    (s : Client.St) (a : Agent)
    (Hends : fst (Cli.ollama_session fuel inputs s) = Return a) :
  Cli.user_texts (Ollama.messages a) = Cli.sent_texts inputs.
Proof.
  unfold Cli.ollama_session, Cli.try_finally, Cli.ollama_body in Hends.
  destruct (Client.connect s) as [[[]|e|] s1].
  - pose proof (conversation_loop_user_texts fuel inputs (Ollama.init s1)) as Hloop.
    destruct (Cli.conversation_loop (Ollama.send_message fuel) inputs
                (Ollama.init s1)) as [[rest|e|] a1]; cbn [fst snd] in *.
    + destruct (Client.disconnect (Ollama.sys a1)) as [[[]|e|] s2];
        cbn [fst] in Hends; try discriminate.
      injection Hends as <-. apply Hloop. discriminate.
    + destruct (Client.disconnect (Ollama.sys a1)) as [[[]|e'|] s2];
        discriminate.
    + discriminate.
  - destruct (Client.disconnect s1) as [[[]|e'|] s2]; discriminate.
  - discriminate.
Qed.

(** [disconnect] runs on every path out of the session.  When [connect]
    raises, the session exits what the failed [connect] has set up and then
    raises the exception of [connect] (that of [disconnect], should it
    raise); and a session never raises anything but an exception of
    [connect] or of [disconnect]: no failure of a turn ends the program. *)
Theorem ollama_session_releases (fuel : nat) (inputs : list Cli.Input)
    (s : Client.St) :
  (forall e s1,
      Client.connect s = (Raise e, s1) ->
      Cli.ollama_session fuel inputs s =
      match Client.disconnect s1 with
      | (Return _, s2) => (Raise e, s2)
      | (Raise e', s2) => (Raise e', s2)
      | (Diverge, s2) => (Diverge, s2)
      end)
  /\ (forall a,
        fst (Cli.ollama_session fuel inputs s) = Return a ->
        exists rest a1,
          Cli.conversation_loop (Ollama.send_message fuel) inputs
            (Ollama.init (snd (Client.connect s))) = (Return rest, a1)
          /\ Client.disconnect (Ollama.sys a1)
             = (Return tt, snd (Cli.ollama_session fuel inputs s)))
  /\ (forall e,
        fst (Cli.ollama_session fuel inputs s) = Raise e ->
        fst (Client.connect s) = Raise e
        \/ exists s1, fst (Client.disconnect s1) = Raise e).
Proof.
  unfold Cli.ollama_session, Cli.try_finally, Cli.ollama_body.
  split; [|split].
  - intros e s1 ->. reflexivity.
  - intros a. destruct (Client.connect s) as [[[]|e|] s1]; cbn [fst snd].
    + destruct (Cli.conversation_loop (Ollama.send_message fuel) inputs
                  (Ollama.init s1)) as [[rest|e|] a1] eqn:Hloop.
      * destruct (Client.disconnect (Ollama.sys a1)) as [[[]|e|] s2] eqn:Hd;
          cbn [fst snd]; try discriminate.
        intros _. exists rest, a1. split; [reflexivity | exact Hd].
      * destruct (Client.disconnect (Ollama.sys a1)) as [[[]|e'|] s2];
          discriminate.
      * discriminate.
    + destruct (Client.disconnect s1) as [[[]|e'|] s2]; discriminate.
    + discriminate.
  - intros e. destruct (Client.connect s) as [[[]|e0|] s1]; cbn [fst snd].
    + pose proof (@conversation_loop_no_raise _ (Ollama.send_message fuel) inputs
                    (Ollama.init s1)) as Hno.
      destruct (Cli.conversation_loop (Ollama.send_message fuel) inputs
                  (Ollama.init s1)) as [[rest|e1|] a1]; cbn [fst] in *.
      * destruct (Client.disconnect (Ollama.sys a1)) as [[[]|e'|] s2] eqn:Hd;
          cbn [fst snd]; try discriminate.
        intros [= <-]. right. exists (Ollama.sys a1). rewrite Hd. reflexivity.
      * exfalso. exact (Hno e1 eq_refl).
      * discriminate.
    + destruct (Client.disconnect s1) as [[[]|e'|] s2] eqn:Hd;
        cbn [fst snd]; try discriminate.
      * intros [= <-]. left. reflexivity.
      * intros [= <-]. right. exists s1. rewrite Hd. reflexivity.
    + discriminate.
Qed.

(** The Gemini session likewise: it raises nothing but an exception of
    [connect], the [KeyError] of a tool schema the translator cannot map
    (raised when the agent is built, before any input is read), or an
    exception of [disconnect]. *)
Theorem gemini_session_raises_only (fuel : nat) (inputs : list Cli.Input)
    (s : Client.St) (e : exn)
    (Hraise : fst (Cli.gemini_session fuel inputs s) = Raise e) :
  fst (Client.connect s) = Raise e
  \/ Gemini.init (snd (Client.connect s)) = Raise e /\ exn_class e = "KeyError"
  \/ exists s1, fst (Client.disconnect s1) = Raise e.
Proof.
  revert Hraise. unfold Cli.gemini_session, Cli.try_finally, Cli.gemini_body.
  destruct (Client.connect s) as [[[]|e0|] s1]; cbn [fst snd].
  - destruct (Gemini.init s1) as [g|e1|] eqn:Hinit.
    + pose proof (@conversation_loop_no_raise _ (Gemini.send_message fuel) inputs g)
        as Hno.
      destruct (Cli.conversation_loop (Gemini.send_message fuel) inputs g)
        as [[rest|e2|] a1]; cbn [fst] in *.
      * destruct (Client.disconnect (Gemini.sys a1)) as [[[]|e'|] s2] eqn:Hd;
          cbn [fst snd]; try discriminate.
        intros [= <-]. right. right. exists (Gemini.sys a1). rewrite Hd. reflexivity.
      * exfalso. exact (Hno e2 eq_refl).
      * discriminate.
    + destruct (Client.disconnect s1) as [[[]|e'|] s2] eqn:Hd;
        cbn [fst snd]; try discriminate.
      * intros [= <-]. right. left. split; [reflexivity|].
        unfold Gemini.init in Hinit.
        destruct (Gemini._convert_tools_to_gemini _) as [ds|e2|] eqn:Hconv;
          cbn [rbind] in Hinit; try discriminate.
        injection Hinit as <-.
        apply (proj1 (proj2 (convert_tools_outcomes _)) _ Hconv).
      * intros [= <-]. right. right. exists s1. rewrite Hd. reflexivity.
    + destruct (Client.disconnect s1) as [[[]|e'|] s2]; discriminate.
  - destruct (Client.disconnect s1) as [[[]|e'|] s2] eqn:Hd;
      cbn [fst snd]; try discriminate.
    + intros [= <-]. left. reflexivity.
    + intros [= <-]. right. right. exists s1. rewrite Hd. reflexivity.
  - discriminate.
Qed.

End SessionFacts.

(** ** Queries on the loaded dataset *)

Section LoadedDataset.

Context {num : Server.PyNumber} {re : Server.Regex}.

Import Sorted.

Lemma filter_keeps_distinct_keys {Row Key : Type} (key : Row -> Key)
    (keep : Row -> bool) (rows : list Row)
    (Hdistinct : NoDup (map key rows)) :
  NoDup (map key (filter keep rows)).
Proof.
  induction rows as [|x l IH]; simpl; [constructor|].
  inversion Hdistinct as [|? ? Hx Hl]; subst.
  destruct (keep x); [|apply IH; exact Hl].
  simpl. constructor; [|apply IH; exact Hl].
  intros Hin. apply Hx. apply in_map_iff in Hin. destruct Hin as [y [Hy Hyin]].
  apply filter_In in Hyin. rewrite <- Hy. apply in_map. apply Hyin.
Qed.

Lemma firstn_keeps_distinct_keys {Row Key : Type} (key : Row -> Key)
    (k : nat) (rows : list Row)
    (Hdistinct : NoDup (map key rows)) :
  NoDup (map key (firstn k rows)).
Proof.
  revert rows Hdistinct.
  induction k as [|k IH]; intros [|x l] Hl; simpl; try constructor.
  - inversion Hl as [|? ? Hx _]; subst.
    intros Hin. apply Hx. apply in_map_iff in Hin. destruct Hin as [y [Hy Hyin]].
    rewrite <- Hy. apply in_map. eapply In_firstn. exact Hyin.
  - inversion Hl; subst. apply IH. assumption.
Qed.

Lemma StronglySorted_filter {A} (R : A -> A -> Prop) (p : A -> bool) (l : list A) :
  StronglySorted R l -> StronglySorted R (filter p l).
Proof.
  induction 1 as [|x l Hl IH Hx]; simpl; [constructor|].
  destruct (p x); [|exact IH]. constructor; [exact IH|].
  apply Forall_forall. intros y Hy. apply filter_In in Hy.
  rewrite Forall_forall in Hx. apply Hx, Hy.
Qed.

Lemma StronglySorted_firstn {A} (R : A -> A -> Prop) (k : nat) (l : list A) :
  StronglySorted R l -> StronglySorted R (firstn k l).
Proof.
  intros H. revert k. induction H as [|x l Hl IH Hx]; intros [|k]; simpl;
    try constructor; [apply IH|].
  apply Forall_forall. intros y Hy. apply In_firstn in Hy.
  rewrite Forall_forall in Hx. apply Hx, Hy.
Qed.

Local Ltac distinct_and_sorted Hnodup Hsorted :=
  split; destruct (0 <=? _)%Z;
    first [ apply firstn_keeps_distinct_keys;
            repeat apply filter_keeps_distinct_keys; exact Hnodup
          | apply StronglySorted_firstn; repeat apply StronglySorted_filter;
            exact Hsorted ].

(** On the dataset that [load_data] builds [query_skus_by_fat] lists no
    Material_Code twice.  The text of a call that reaches the listing is
    made of the lines of the rows listed; the lines that open an entry are
    those of these rows, one for each, and these rows have distinct codes,
    in ascending order. *)
Theorem loaded_listing_distinct (raw : list Loader.RawRow) (cols : list string)
    (arguments : Server.Arguments) (fat_value : Server.Num)
    (test : Server.Num -> bool) :
  let df := {| Server.columns := cols; Server.rows := Loader.deduplicate raw |} in
  let operator :=
    match Server.arg_operator arguments with Some o => o | None => ">" end in
  let listed :=
    Server.head
      (match Server.arg_n arguments with Some k => k | None => 10%Z end)
      (filter (fun row => test (Server.Fat row)
                          && Server.notna (Server.Material_Code row))
              (Loader.deduplicate raw)) in
  let lines := flat_map (Server.sku_lines df) listed in
  Server.arg_fat_value arguments = Some fat_value ->
  Server.operator_map fat_value operator = Some test ->
  Server.has_column df "Fat" = true ->
  Server.has_column df "Material_Code" = true ->
  Server.query_skus_by_fat df arguments =
  Return
    [Server.text_content
       (match listed with
        | [] => Server.no_skus_text operator fat_value
        | _ :: _ =>
            join nl (Server.skus_header (length listed) operator fat_value
                     :: lines)
        end)]
  /\ Listing.sku_entries lines = map Listing.sku_bullet listed
  /\ NoDup (map Server.Material_Code listed)
  /\ StronglySorted Loader.code_le listed.
Proof.
  cbv zeta. intros Hfat Htest Hf Hc.
  destruct (deduplicate_facts raw) as [Hnodup [_ [_ Hsorted]]].
  split; [apply (query_skus_by_fat_listing _ _ Hfat Htest Hf Hc)|].
  split; [apply sku_entries_of_rows|].
  unfold Server.head. distinct_and_sorted Hnodup Hsorted.
Qed.

(** Likewise [query_chocolate_products] lists no Material_Code twice on the
    dataset that [load_data] builds.  Stated for ASCII text in the moulding
    type of the call and in the columns that the filters put to lower case,
    on which [lower] is Python's. *)
Theorem loaded_products_distinct (raw : list Loader.RawRow) (cols : list string)
    (arguments : Server.Arguments)
    (chocolate_type expected_prefix moulding : string)
    (search : string -> bool) :
  let df := {| Server.columns := cols; Server.rows := Loader.deduplicate raw |} in
  let listed :=
    Server.head
      (match Server.arg_n arguments with Some k => k | None => 5%Z end)
      (Server.chocolate_filter chocolate_type expected_prefix search
         (Loader.deduplicate raw)) in
  let lines := flat_map (Server.product_lines df "✓") listed in
  Server.arg_chocolate_type arguments = Some chocolate_type ->
  Server.arg_moulding_type arguments = Some moulding ->
  isascii moulding = true ->
  forallb Notions.ascii_row (Loader.deduplicate raw) = true ->
  filter (fun col => negb (Server.has_column df col)) Server.required_cols = [] ->
  Server.prefix_map chocolate_type = Return expected_prefix ->
  Server.re_compile (lower moulding) = Ok search ->
  Server.query_chocolate_products df arguments =
  Return
    [Server.text_content
       (match listed with
        | [] => Server.no_products_text chocolate_type (lower moulding)
        | _ :: _ =>
            join nl (Server.products_header (length listed) chocolate_type
                       (lower moulding)
                     :: lines)
        end)]
  /\ Listing.product_entries lines = map (Listing.product_bullet "✓") listed
  /\ NoDup (map Server.Material_Code listed)
  /\ StronglySorted Loader.code_le listed.
Proof.
  cbv zeta. intros Hct Hmt _ _ Hcols Hp Hre.
  destruct (deduplicate_facts raw) as [Hnodup [_ [_ Hsorted]]].
  split; [apply (query_chocolate_products_listing _ _ Hct Hmt Hcols Hp Hre)|].
  split; [apply product_entries_of_rows|].
  unfold Server.head, Server.chocolate_filter. distinct_and_sorted Hnodup Hsorted.
Qed.

End LoadedDataset.

(** ** The further properties on the concrete worker *)

Import Trials.

Lemma connect_then_disconnect_witness :
  @Client.tools SimWorld Arguments sim_library (fst connected) = Server.list_tools
  /\ fst (@Client.disconnect SimWorld Arguments sim_library connected) = Return tt.
Proof.
  destruct (@connect_then_disconnect SimWorld Arguments sim_library
              (@Client.init SimWorld Arguments sim_library)
              world0 world0 world0 world0 world0 world0 world0
              (with_session_exits 1 world0) (with_session_exits 1 world0)
              tt tt Server.list_tools
              eq_refl eq_refl eq_refl eq_refl eq_refl eq_refl eq_refl eq_refl)
    as [Hc Hd].
  unfold connected. rewrite Hc. cbn [snd fst Client.tools]. rewrite Hd.
  split; reflexivity.
Defined.

Lemma connect_handshake_failure_witness :
  fst (@Client.connect SimWorld Arguments sim_library
         (@Client.init SimWorld Arguments sim_library, silent_world))
    = Raise (mk_exn "TimeoutError" "")
  /\ Client.session
       (fst (snd (@Client.connect SimWorld Arguments sim_library
                    (@Client.init SimWorld Arguments sim_library, silent_world))))
     = Some tt.
Proof.
  rewrite (proj1 (@connect_handshake_failure SimWorld Arguments sim_library
                    (@Client.init SimWorld Arguments sim_library)
                    silent_world silent_world silent_world silent_world
                    silent_world silent_world tt tt (mk_exn "TimeoutError" "")
                    eq_refl eq_refl eq_refl eq_refl eq_refl)).
  split; reflexivity.
Defined.

Lemma connect_spawn_failure_witness :
  fst (@Client.call_tool unit unit unstartable_library "query_skus_by_fat" tt
         (snd (@Client.connect unit unit unstartable_library
                 (@Client.init unit unit unstartable_library, tt))))
  = Raise (mk_exn "RuntimeError" "Not connected to server. Call connect() first.").
Proof.
  destruct (@connect_spawn_failure unit unit unstartable_library tt tt tt tt
              (mk_exn "FileNotFoundError" "No such file or directory: 'python'")
              eq_refl eq_refl) as [Hc [Hcall _]].
  rewrite Hc. cbn [snd]. rewrite Hcall. reflexivity.
Defined.

Lemma gemini_enum_passed_through_witness :
  Notions.enums_carried
    (@Client.tools SimWorld Arguments sim_library (fst connected))
    gemini_declarations.
Proof.
  apply (@gemini_enum_passed_through SimWorld Arguments sim_library). reflexivity.
Defined.

Lemma send_message_backend_error_witness :
  fst (@Ollama.send_message SimWorld Arguments sim_library scripted_ollama 2
         "hello" (ollama_agent (snd connected) []))
  = Raise backend_error.
Proof.
  rewrite (@send_message_backend_error SimWorld Arguments sim_library
             scripted_ollama 2 "hello" (ollama_agent (snd connected) [])
             backend_error (with_ollama_script [] (snd connected)) eq_refl).
  reflexivity.
Defined.

Lemma send_message_one_round_witness :
  fst (@Ollama.send_message SimWorld Arguments sim_library scripted_ollama 1
         "one fat SKU and one dark callet, please" two_calls_agent)
  = Return "Here they are.".
Proof.
  rewrite (proj1 (@send_message_one_round SimWorld Arguments sim_library
                    scripted_ollama 0 "one fat SKU and one dark callet, please"
                    two_calls_agent asks_two answers
                    (with_ollama_script [answers] (snd connected))
                    (with_ollama_script [] (snd connected))
                    (fst connected, with_ollama_script [answers] (snd connected))
                    {| Ollama.tc_name := fst skus_call;
                       Ollama.tc_arguments := snd skus_call |}
                    [ {| Ollama.tc_name := fst chocolate_call;
                         Ollama.tc_arguments := snd chocolate_call |} ]
                    two_calls_texts
                    eq_refl eq_refl
                    ltac:(repeat (eapply Ollama.results_ok; [reflexivity|]);
                          apply Ollama.results_nil)
                    eq_refl eq_refl)).
  reflexivity.
Defined.

Lemma gemini_first_part_decides_witness :
  fst (@Gemini.send_message SimWorld Arguments sim_library scripted_gemini 3
         "one fat SKU, please" (gemini_agent (snd connected) [text_then_call]))
  = Return "Let me look that up.".
Proof.
  rewrite (@gemini_first_part_decides SimWorld Arguments sim_library
             scripted_gemini 3 "one fat SKU, please"
             (gemini_agent (snd connected) [text_then_call]) tt
             (with_gemini_script [text_then_call] (snd connected))
             (with_gemini_script [] (snd connected))
             text_then_call
             [ {| Gemini.function_call := Some skus_function_call |} ]
             eq_refl eq_refl (or_intror eq_refl)).
  reflexivity.
Defined.

Lemma gemini_send_failure_reported_as_tool_error_witness :
  Cli.sent_over_chat
    (Gemini.exchanged
       (snd (@Gemini.run_function_call SimWorld Arguments sim_library
               scripted_gemini tt skus_function_call
               (gemini_agent (snd connected) []))))
  = [Gemini.data_message "query_skus_by_fat" skus_text;
     "Error calling function query_skus_by_fat: model backend unavailable"].
Proof.
  rewrite (@gemini_send_failure_reported_as_tool_error SimWorld Arguments
             sim_library scripted_gemini tt skus_function_call
             (gemini_agent (snd connected) []) skus_text
             (fst connected, with_gemini_script [] (snd connected))
             backend_error (with_gemini_script [] (snd connected))
             eq_refl eq_refl).
  reflexivity.
Defined.

Lemma gemini_send_message_one_round_witness :
  fst (@Gemini.send_message SimWorld Arguments sim_library scripted_gemini 1
         "one fat SKU, please"
         (gemini_agent (snd connected)
            [gemini_calls (fst skus_call) (snd skus_call);
             gemini_says "Here it is."]))
  = Return "Here it is.".
Proof.
  rewrite (@gemini_send_message_one_round SimWorld Arguments sim_library
             scripted_gemini 0 "one fat SKU, please"
             (gemini_agent (snd connected)
                [gemini_calls (fst skus_call) (snd skus_call);
                 gemini_says "Here it is."])
             tt
             (with_gemini_script
                [gemini_calls (fst skus_call) (snd skus_call);
                 gemini_says "Here it is."] (snd connected))
             (with_gemini_script [gemini_says "Here it is."] (snd connected))
             (with_gemini_script [] (snd connected))
             (fst connected,
              with_gemini_script [gemini_says "Here it is."] (snd connected))
             (gemini_calls (fst skus_call) (snd skus_call))
             (gemini_says "Here it is.")
             skus_function_call [] skus_text
             eq_refl eq_refl eq_refl eq_refl eq_refl eq_refl).
  reflexivity.
Defined.

Lemma deduplicate_keeps_lowest_priority_witness :
  Loader.priority (raw_row (Some "CHD-002") None 32)
  <= Loader.priority (raw_row (Some "CHD-002") (Some "EU") 33).
Proof.
  apply (proj1
    (@deduplicate_keeps_lowest_priority z_number raw_rows
       (raw_row (Some "CHD-002") (Some "EU") 33)
       (raw_row (Some "CHD-002") None 32)
       ltac:(vm_compute; right; left; reflexivity)
       ltac:(vm_compute; do 5 right; left; reflexivity)
       eq_refl)).
Defined.

(** [strip] removes the white space of Unicode at both ends, and nothing
    else: U+200B is no white space. *)
Lemma strip_samples :
  Cli.strip (bytes [194; 160] ++ "hi" ++ bytes [194; 160]) = "hi"
  /\ Cli.strip (bytes [194; 160]) = ""
  /\ Cli.strip (bytes [32; 9] ++ "a b" ++ bytes [10; 227; 128; 128; 28]) = "a b"
  /\ Cli.strip (bytes [226; 128; 139] ++ "a ") = bytes [226; 128; 139] ++ "a"
  /\ Cli.strip "né " = "né".
Proof. repeat split; reflexivity. Qed.

Lemma loaded_listing_distinct_witness :
  Listing.sku_entries
    (flat_map
       (@Server.sku_lines z_number
          {| Server.columns := Server.columns sample_df;
             Server.rows := Loader.deduplicate raw_rows |})
       (firstn 10
          (filter (fun row : Row => (30 <? @Server.Fat z_number row)%Z
                                    && Server.notna (Server.Material_Code row))
                  (Loader.deduplicate raw_rows))))
  = ["  • **CHD-001** (Fat: 36g)"; "  • **CHD-002** (Fat: 32g)"]
  /\ NoDup [Some "CHD-001"; Some "CHD-002"].
Proof.
  destruct (@loaded_listing_distinct z_number raw_rows
              (Server.columns sample_df)
              (fat_args None (Some 30%Z) None)
              30%Z (fun x : Z => (30 <? x)%Z) eq_refl eq_refl eq_refl eq_refl)
    as [_ [He [Hd _]]].
  split; [exact He | exact Hd].
Defined.

Lemma loaded_products_distinct_witness :
  Listing.product_entries
    (flat_map
       (@Server.product_lines z_number
          {| Server.columns := Server.columns sample_df;
             Server.rows := Loader.deduplicate raw_rows |} "✓")
       (firstn 5
          (@Server.chocolate_filter z_number "Dark" "CHD-" (contains "callets")
             (Loader.deduplicate raw_rows))))
  = ["  ✓ **CHD-001**"; "  ✓ **CHD-002**"]
  /\ NoDup [Some "CHD-001"; Some "CHD-002"].
Proof.
  destruct (@loaded_products_distinct z_number literal_regex raw_rows
              (Server.columns sample_df)
              (chocolate_args None (Some "Dark") (Some "Callets"))
              "Dark" "CHD-" "Callets" (contains "callets")
              eq_refl eq_refl eq_refl eq_refl eq_refl eq_refl eq_refl)
    as [_ [He [Hd _]]].
  split; [exact He | exact Hd].
Defined.

Lemma ollama_session_user_texts_witness :
  Cli.user_texts (Ollama.messages typed_agent) = ["hello"; "more fat please"].
Proof.
  rewrite (@ollama_session_user_texts SimWorld Arguments sim_library
             scripted_ollama 3 typed
             (@Client.init SimWorld Arguments sim_library,
              with_ollama_script [ollama_says "Hello."] world0)
             typed_agent eq_refl).
  reflexivity.
Defined.

Lemma gemini_session_raises_only_witness :
  fst (@Client.connect SimWorld Arguments sim_library
         (@Client.init SimWorld Arguments sim_library, silent_world))
    = Raise (mk_exn "TimeoutError" "")
  \/ Gemini.init
       (snd (@Client.connect SimWorld Arguments sim_library
               (@Client.init SimWorld Arguments sim_library, silent_world)))
     = Raise (mk_exn "TimeoutError" "")
     /\ exn_class (mk_exn "TimeoutError" "") = "KeyError"
  \/ exists s1,
       fst (@Client.disconnect SimWorld Arguments sim_library s1)
       = Raise (mk_exn "TimeoutError" "").
Proof.
  apply (@gemini_session_raises_only SimWorld Arguments sim_library
           scripted_gemini 3 typed
           (@Client.init SimWorld Arguments sim_library, silent_world)).
  reflexivity.
Defined.
